(** * Flight-control sample of the Onboard SDK: monitored takeoff, monitored
    landing and position-offset control

    A shallow embedding of [sample/linux/flight-control/flight_control_sample.cpp].

    - The vehicle link (subscription, command channel, telemetry) is an
      explicit environment, the record [Vehicle].
    - The effects of the sample (commands sent, packages started and removed,
      messages printed, time slept) are threaded through a small state monad
      over [World]: a clock in microseconds and the chronological trace of
      events.
    - Telemetry is the latest known value of a topic as a function of the
      clock.  Only [usleep] and [sleep] advance the clock: the calls on the
      link take no time, and two reads of a topic with no sleep between them
      return the same value.
    - [int] variables are integers of [Z]; the only ones that grow are the
      millisecond counters of the control loop, and they stay far below 2^31
      (see [control_loop_counters_in_int_range]).
    - [float] and [double] values are idealised as real numbers, a constant
      of type [float] being the number that the variable holds ([zDeadband]);
      rounding, signed zeros and infinities are outside the model, and NaN is
      modelled for the pitch term of [toEulerAngle] only
      ([toEulerAngle_t2_double]).
    - [while] loops take fuel; every statement that a function returns is
      proved for all fuel above an explicit bound. *)

From Stdlib Require Import ZArith List Bool Ascii String Lia Reals Lra.
Import ListNotations.

Open Scope Z_scope.

(** ** Telemetry values *)

(** Modelled from the spec: the FlightStatus enumeration of the SDK header,
    which is not part of the sources at hand.  The sample compares against
    [ON_GROUND] and [IN_AIR]; any further value of the header is
    [FlightStatus_other]. *)
Inductive FlightStatus : Type :=
| ON_GROUND
| IN_AIR
| FlightStatus_other (code : nat).

(** Modelled from the spec: the DisplayMode enumeration of the SDK header.  The
    six modes are the ones the sample names; any further value of the header
    is [MODE_other]. *)
Inductive DisplayMode : Type :=
| MODE_ENGINE_START
| MODE_ASSISTED_TAKEOFF
| MODE_AUTO_TAKEOFF
| MODE_AUTO_LANDING
| MODE_P_GPS
| MODE_ATTITUDE
| MODE_other (code : nat).

Definition FlightStatus_eqb (a b : FlightStatus) : bool :=
  match a, b with
  | ON_GROUND, ON_GROUND => true
  | IN_AIR, IN_AIR => true
  | FlightStatus_other m, FlightStatus_other n => Nat.eqb m n
  | _, _ => false
  end.

Definition DisplayMode_eqb (a b : DisplayMode) : bool :=
  match a, b with
  | MODE_ENGINE_START, MODE_ENGINE_START => true
  | MODE_ASSISTED_TAKEOFF, MODE_ASSISTED_TAKEOFF => true
  | MODE_AUTO_TAKEOFF, MODE_AUTO_TAKEOFF => true
  | MODE_AUTO_LANDING, MODE_AUTO_LANDING => true
  | MODE_P_GPS, MODE_P_GPS => true
  | MODE_ATTITUDE, MODE_ATTITUDE => true
  | MODE_other m, MODE_other n => Nat.eqb m n
  | _, _ => false
  end.

(** The C++ operator [!=] on the two enumerations. *)
Definition FlightStatus_neqb (a b : FlightStatus) : bool := negb (FlightStatus_eqb a b).
Definition DisplayMode_neqb (a b : DisplayMode) : bool := negb (DisplayMode_eqb a b).

(** [Telemetry::Quaternion] and [Telemetry::GPSFused] (the fields the sample
    reads), and [Telemetry::Vector3f]. *)
Record Quaternion : Type := mkQuaternion { q0 : R; q1 : R; q2 : R; q3 : R }.
Record GPSFused : Type := mkGPSFused { longitude : R; latitude : R; altitude : R }.
Record Vector3f : Type := mkVector3f { vx : R; vy : R; vz : R }.

(** ** Acknowledgements and return values *)

(** [ACK::getError] classifies an acknowledgement as [ACK::SUCCESS] or
    [ACK::FAIL]. *)
Inductive ErrorCode : Type := SUCCESS | FAIL.

Definition is_SUCCESS (a : ErrorCode) : bool :=
  match a with SUCCESS => true | FAIL => false end.

(** [moveByPositionOffset] is declared [int] and returns sometimes a [bool]
    ([false], [pkgStatus]) and sometimes [ACK::FAIL] or [ACK::SUCCESS]; the
    numeric values of the two constants are in a header that is not at hand,
    so the two kinds of return are kept apart. *)
Inductive IntReturn : Type :=
| ret_bool (b : bool)
| ret_ACK (a : ErrorCode).

(** ** The vehicle link *)

Inductive TopicName : Type :=
| TOPIC_STATUS_FLIGHT
| TOPIC_STATUS_DISPLAYMODE
| TOPIC_QUATERNION
| TOPIC_GPS_FUSED.

(** What the link layer answers.  Telemetry is the latest known value at a
    time of the clock (microseconds): it changes while the sample sleeps. *)
Record Vehicle : Type := mkVehicle {
  verify_ack : ErrorCode;
  initPackage_status : bool;
  startPackage_ack : ErrorCode;
  removePackage_ack : ErrorCode;
  takeoff_ack : ErrorCode;
  land_ack : ErrorCode;
  status_flight : Z -> FlightStatus;
  status_displaymode : Z -> DisplayMode;
  quaternion : Z -> Quaternion;
  gps_fused : Z -> GPSFused
}.

(** ** Events, world and monad *)

Inductive Event : Type :=
| EvVerify
| EvInitPackage (pkgIndex : Z) (topics : list TopicName) (freq : Z)
| EvStartPackage (pkgIndex : Z)
| EvRemovePackage (pkgIndex : Z)
| EvTakeoff
| EvLand
| EvPositionAndYawCtrl (x y z yaw : R)
| EvEmergencyBrake
| EvPrint (msg : string).

Record World : Type := mkWorld { clock_us : Z; trace : list Event }.

Definition world0 : World := mkWorld 0 [].

(** A computation returns a value and a new world, or [None] when a loop ran
    out of fuel. *)
Definition M (A : Type) : Type := World -> option (A * World).

Definition ret {A : Type} (a : A) : M A := fun w => Some (a, w).

Definition bind {A B : Type} (m : M A) (f : A -> M B) : M B :=
  fun w => match m w with
           | Some (a, w') => f a w'
           | None => None
           end.

Notation "x <- m ;; k" := (bind m (fun x => k))
  (at level 61, m at next level, right associativity).
Notation "m ;;; k" := (bind m (fun _ => k))
  (at level 61, right associativity).

Definition emit (e : Event) : M unit :=
  fun w => Some (tt, mkWorld (clock_us w) (trace w ++ [e])).

Definition usleep (us : Z) : M unit :=
  fun w => Some (tt, mkWorld (clock_us w + us) (trace w)).

Definition sleep (s : Z) : M unit := usleep (s * 1000000).

Definition cout (msg : string) : M unit := emit (EvPrint msg).

(** A loop body ends its iteration normally or leaves the loop ([break]). *)
Inductive LoopCtl (St : Type) : Type :=
| Continue (s : St)
| Break (s : St).
Arguments Continue {St} s.
Arguments Break {St} s.

Fixpoint while {St : Type} (fuel : nat) (cond : St -> M bool)
         (body : St -> M (LoopCtl St)) (s : St) : M St :=
  match fuel with
  | O => fun _ => None
  | S fuel' =>
      c <- cond s ;;
      if c then
        r <- body s ;;
        match r with
        | Continue s' => while fuel' cond body s'
        | Break s' => ret s'
        end
      else ret s
  end.

(** ** The calls of the sample on the vehicle *)

Definition subscribe_verify (vehicle : Vehicle) (timeout : Z) : M ErrorCode :=
  emit EvVerify ;;; ret (verify_ack vehicle).

Definition subscribe_initPackageFromTopicList (vehicle : Vehicle) (pkgIndex : Z)
           (topics : list TopicName) (enableTimestamp : bool) (freq : Z) : M bool :=
  emit (EvInitPackage pkgIndex topics freq) ;;; ret (initPackage_status vehicle).

Definition subscribe_startPackage (vehicle : Vehicle) (pkgIndex timeout : Z) : M ErrorCode :=
  emit (EvStartPackage pkgIndex) ;;; ret (startPackage_ack vehicle).

Definition subscribe_removePackage (vehicle : Vehicle) (pkgIndex timeout : Z) : M ErrorCode :=
  emit (EvRemovePackage pkgIndex) ;;; ret (removePackage_ack vehicle).

Definition control_takeoff (vehicle : Vehicle) (timeout : Z) : M ErrorCode :=
  emit EvTakeoff ;;; ret (takeoff_ack vehicle).

Definition control_land (vehicle : Vehicle) (timeout : Z) : M ErrorCode :=
  emit EvLand ;;; ret (land_ack vehicle).

Definition control_positionAndYawCtrl (x y z yaw : R) : M unit :=
  emit (EvPositionAndYawCtrl x y z yaw).

Definition control_emergencyBrake : M unit := emit EvEmergencyBrake.

Definition getValue_STATUS_FLIGHT (vehicle : Vehicle) : M FlightStatus :=
  fun w => Some (status_flight vehicle (clock_us w), w).

Definition getValue_STATUS_DISPLAYMODE (vehicle : Vehicle) : M DisplayMode :=
  fun w => Some (status_displaymode vehicle (clock_us w), w).

Definition getValue_QUATERNION (vehicle : Vehicle) : M Quaternion :=
  fun w => Some (quaternion vehicle (clock_us w), w).

Definition getValue_GPS_FUSED (vehicle : Vehicle) : M GPSFused :=
  fun w => Some (gps_fused vehicle (clock_us w), w).

(** The sample removes the package and, when that fails, prints a warning; the
    outcome already decided is returned unchanged. *)
Definition msg_unsubscribe : string :=
  "Error unsubscribing; please restart the drone/FC to get back to a clean state.".

Definition removePackage_warn (vehicle : Vehicle) (pkgIndex timeout : Z) : M unit :=
  ack <- subscribe_removePackage vehicle pkgIndex timeout ;;
  if is_SUCCESS ack then ret tt else cout msg_unsubscribe.

(** ** monitoredTakeoff *)

Definition msg_motors_not_spinning : string := "Takeoff failed. Motors are not spinning.".
Definition msg_motors_spinning : string := "Motors spinning...".
Definition msg_still_on_ground : string :=
  "Takeoff failed. Aircraft is still on the ground, but the motors are spinning.".
Definition msg_ascending : string := "Ascending...".
Definition msg_takeoff_ok : string := "Successful takeoff!".
Definition msg_takeoff_unexpected : string :=
  "Takeoff finished, but the aircraft is in an unexpected mode. Please connect DJI GO.".

(** First check (lines 126-136): the loop counts the polls at which the
    flight status is not [ON_GROUND] and the mode is not [MODE_ENGINE_START]. *)
Definition takeoff_motors_loop (fuel : nat) (vehicle : Vehicle) (timeoutCycles : Z) : M Z :=
  while fuel
    (fun motorsNotStarted =>
       f <- getValue_STATUS_FLIGHT vehicle ;;
       m <- getValue_STATUS_DISPLAYMODE vehicle ;;
       ret (FlightStatus_neqb f ON_GROUND
            && DisplayMode_neqb m MODE_ENGINE_START
            && (motorsNotStarted <? timeoutCycles)))
    (fun motorsNotStarted =>
       usleep 100000 ;;; ret (Continue (motorsNotStarted + 1)))
    0.

(** Second check (lines 151-163). *)
Definition takeoff_in_air_loop (fuel : nat) (vehicle : Vehicle) (timeoutCycles : Z) : M Z :=
  while fuel
    (fun stillOnGround =>
       f <- getValue_STATUS_FLIGHT vehicle ;;
       m1 <- getValue_STATUS_DISPLAYMODE vehicle ;;
       m2 <- getValue_STATUS_DISPLAYMODE vehicle ;;
       ret (FlightStatus_neqb f IN_AIR
            && (DisplayMode_neqb m1 MODE_ASSISTED_TAKEOFF
                || DisplayMode_neqb m2 MODE_AUTO_TAKEOFF)
            && (stillOnGround <? timeoutCycles)))
    (fun stillOnGround =>
       usleep 100000 ;;; ret (Continue (stillOnGround + 1)))
    0.

(** Final check, the wait (lines 180-186). *)
Definition takeoff_finished_loop (fuel : nat) (vehicle : Vehicle) : M unit :=
  while fuel
    (fun _ : unit =>
       m1 <- getValue_STATUS_DISPLAYMODE vehicle ;;
       m2 <- getValue_STATUS_DISPLAYMODE vehicle ;;
       ret (DisplayMode_eqb m1 MODE_ASSISTED_TAKEOFF
            || DisplayMode_eqb m2 MODE_AUTO_TAKEOFF))
    (fun _ => sleep 1 ;;; ret (Continue tt))
    tt.

(** The condition of the last [if] of [monitoredTakeoff] (lines 188-191) and
    of [monitoredLanding] (lines 510-513), on the two values it reads. *)
Definition settled_mode_accepted (m1 m2 : DisplayMode) : bool :=
  DisplayMode_neqb m1 MODE_P_GPS || DisplayMode_neqb m2 MODE_ATTITUDE.

(** The monitoring part of [monitoredTakeoff], after the takeoff command was
    acknowledged (lines 125-211). *)
Definition takeoff_checks (fuel : nat) (vehicle : Vehicle) (pkgIndex timeout : Z) : M bool :=
  let timeoutCycles := 20 in
  motorsNotStarted <- takeoff_motors_loop fuel vehicle timeoutCycles ;;
  if motorsNotStarted =? timeoutCycles then
    cout msg_motors_not_spinning ;;;
    subscribe_removePackage vehicle 0 timeout ;;;
    ret false
  else
  cout msg_motors_spinning ;;;
  let timeoutCycles := 110 in
  stillOnGround <- takeoff_in_air_loop fuel vehicle timeoutCycles ;;
  if stillOnGround =? timeoutCycles then
    cout msg_still_on_ground ;;;
    subscribe_removePackage vehicle 0 timeout ;;;
    ret false
  else
  cout msg_ascending ;;;
  takeoff_finished_loop fuel vehicle ;;;
  m1 <- getValue_STATUS_DISPLAYMODE vehicle ;;
  m2 <- getValue_STATUS_DISPLAYMODE vehicle ;;
  if settled_mode_accepted m1 m2 then
    cout msg_takeoff_ok ;;;
    removePackage_warn vehicle pkgIndex timeout ;;;
    ret true
  else
    cout msg_takeoff_unexpected ;;;
    subscribe_removePackage vehicle 0 timeout ;;;
    ret false.

Definition monitoredTakeoff (fuel : nat) (vehicle : Vehicle) (timeout : Z) : M bool :=
  subscribeStatus <- subscribe_verify vehicle timeout ;;
  if negb (is_SUCCESS subscribeStatus) then ret false else
  let pkgIndex := 0 in
  let freq := 10 in
  let topicList10Hz := [TOPIC_STATUS_FLIGHT; TOPIC_STATUS_DISPLAYMODE] in
  let enableTimestamp := false in
  pkgStatus <- subscribe_initPackageFromTopicList vehicle pkgIndex topicList10Hz
                 enableTimestamp freq ;;
  if negb pkgStatus then ret pkgStatus else
  subscribeStatus <- subscribe_startPackage vehicle pkgIndex timeout ;;
  if negb (is_SUCCESS subscribeStatus) then
    subscribe_removePackage vehicle pkgIndex timeout ;;; ret false
  else
  takeoffStatus <- control_takeoff vehicle timeout ;;
  if negb (is_SUCCESS takeoffStatus) then ret false else
  takeoff_checks fuel vehicle pkgIndex timeout.

(** ** monitoredLanding *)

Definition msg_landing_not_started : string := "Landing failed. Aircraft is still in the air.".
Definition msg_landing : string := "Landing...".
Definition msg_landing_ok : string := "Successful landing!".
Definition msg_landing_unexpected : string :=
  "Landing finished, but the aircraft is in an unexpected mode. Please connect DJI GO.".

(** First check (lines 474-482). *)
Definition landing_started_loop (fuel : nat) (vehicle : Vehicle) (timeoutCycles : Z) : M Z :=
  while fuel
    (fun landingNotStarted =>
       m <- getValue_STATUS_DISPLAYMODE vehicle ;;
       ret (DisplayMode_neqb m MODE_AUTO_LANDING
            && (landingNotStarted <? timeoutCycles)))
    (fun landingNotStarted =>
       usleep 100000 ;;; ret (Continue (landingNotStarted + 1)))
    0.

(** Second check, the wait (lines 502-508). *)
Definition landing_finished_loop (fuel : nat) (vehicle : Vehicle) : M unit :=
  while fuel
    (fun _ : unit =>
       m <- getValue_STATUS_DISPLAYMODE vehicle ;;
       f <- getValue_STATUS_FLIGHT vehicle ;;
       ret (DisplayMode_eqb m MODE_AUTO_LANDING && FlightStatus_eqb f IN_AIR))
    (fun _ => sleep 1 ;;; ret (Continue tt))
    tt.

(** The monitoring part of [monitoredLanding], after the landing command was
    acknowledged (lines 473-537). *)
Definition landing_checks (fuel : nat) (vehicle : Vehicle) (pkgIndex timeout : Z) : M bool :=
  let timeoutCycles := 20 in
  landingNotStarted <- landing_started_loop fuel vehicle timeoutCycles ;;
  if landingNotStarted =? timeoutCycles then
    cout msg_landing_not_started ;;;
    removePackage_warn vehicle pkgIndex timeout ;;;
    ret false
  else
  cout msg_landing ;;;
  landing_finished_loop fuel vehicle ;;;
  m1 <- getValue_STATUS_DISPLAYMODE vehicle ;;
  m2 <- getValue_STATUS_DISPLAYMODE vehicle ;;
  if settled_mode_accepted m1 m2 then
    cout msg_landing_ok ;;;
    removePackage_warn vehicle pkgIndex timeout ;;;
    ret true
  else
    cout msg_landing_unexpected ;;;
    removePackage_warn vehicle pkgIndex timeout ;;;
    ret false.

Definition monitoredLanding (fuel : nat) (vehicle : Vehicle) (timeout : Z) : M bool :=
  subscribeStatus <- subscribe_verify vehicle timeout ;;
  if negb (is_SUCCESS subscribeStatus) then ret false else
  let pkgIndex := 0 in
  let freq := 10 in
  let topicList10Hz := [TOPIC_STATUS_FLIGHT; TOPIC_STATUS_DISPLAYMODE] in
  let enableTimestamp := false in
  pkgStatus <- subscribe_initPackageFromTopicList vehicle pkgIndex topicList10Hz
                 enableTimestamp freq ;;
  if negb pkgStatus then ret pkgStatus else
  subscribeStatus <- subscribe_startPackage vehicle pkgIndex timeout ;;
  if negb (is_SUCCESS subscribeStatus) then
    subscribe_removePackage vehicle pkgIndex timeout ;;; ret false
  else
  landingStatus <- control_land vehicle timeout ;;
  if negb (is_SUCCESS landingStatus) then ret false else
  landing_checks fuel vehicle pkgIndex timeout.

(** ** Helper functions *)

Open Scope R_scope.

(** Comparison of two floating-point values, as a boolean. *)
Definition Rlt_bool (x y : R) : bool := if Rlt_dec x y then true else false.

(** The two-argument arctangent of the C library, as the mathematical
    function: the angle of the point [(x, y)] in (-PI, PI].  The library
    function tells [-0.0] from [0.0] on the negative x axis, where it returns
    [-pi] or [pi]: the reals have one zero, and the value there is [PI]. *)
Definition atan2 (y x : R) : R :=
  if Rlt_dec 0 x then atan (y / x)
  else if Rlt_dec x 0 then
         if Rle_dec 0 y then atan (y / x) + PI else atan (y / x) - PI
       else if Rlt_dec 0 y then PI / 2
            else if Rlt_dec y 0 then - (PI / 2)
                 else 0.

(** The pitch term of [toEulerAngle] after the two clamping assignments
    (lines 567-574): this is the argument passed to [asin]. *)
Definition toEulerAngle_t2 (quaternionData : Quaternion) : R :=
  let t2 := -2 * (q1 quaternionData * q3 quaternionData
                  - q0 quaternionData * q2 quaternionData) in
  let t2 := if Rlt_bool 1 t2 then 1 else t2 in
  let t2 := if Rlt_bool t2 (-1) then -1 else t2 in
  t2.

Definition toEulerAngle (quaternionData : Quaternion) : Vector3f :=
  let q2sqr := q2 quaternionData * q2 quaternionData in
  let t0 := -2 * (q2sqr + q3 quaternionData * q3 quaternionData) + 1 in
  let t1 := 2 * (q1 quaternionData * q2 quaternionData
                 + q0 quaternionData * q3 quaternionData) in
  let t2 := toEulerAngle_t2 quaternionData in
  let t3 := 2 * (q2 quaternionData * q3 quaternionData
                 + q0 quaternionData * q1 quaternionData) in
  let t4 := -2 * (q1 quaternionData * q1 quaternionData + q2sqr) + 1 in
  mkVector3f (asin t2) (atan2 t3 t4) (atan2 t1 t0).

(** *** The pitch term when a field is not a number *)

(** A [double] that holds a number or is NaN.  On numbers the arithmetic is
    that of the reals (rounding and overflow stay outside the model); an
    operation with a NaN operand gives NaN and a comparison with a NaN
    operand is false, as IEEE 754 has it. *)
Inductive Double : Type :=
| Num (r : R)
| NaN.

Definition Double_mul (a b : Double) : Double :=
  match a, b with
  | Num x, Num y => Num (x * y)
  | _, _ => NaN
  end.

Definition Double_sub (a b : Double) : Double :=
  match a, b with
  | Num x, Num y => Num (x - y)
  | _, _ => NaN
  end.

(** The C++ operators [>] and [<]. *)
Definition Double_gt (a b : Double) : bool :=
  match a, b with
  | Num x, Num y => Rlt_bool y x
  | _, _ => false
  end.

Definition Double_lt (a b : Double) : bool :=
  match a, b with
  | Num x, Num y => Rlt_bool x y
  | _, _ => false
  end.

(** The four fields of the quaternion as the arithmetic receives them. *)
Record QuaternionData : Type := mkQuaternionData {
  d0 : Double; d1 : Double; d2 : Double; d3 : Double
}.

Definition Quaternion_numbers (q : Quaternion) : QuaternionData :=
  mkQuaternionData (Num (q0 q)) (Num (q1 q)) (Num (q2 q)) (Num (q3 q)).

(** The pitch term (lines 567-568) and its two clamping assignments
    (lines 573-574): the value passed to [asin] in line 576. *)
Definition toEulerAngle_t2_double (quaternionData : QuaternionData) : Double :=
  let t2 := Double_mul (Num (-2))
              (Double_sub (Double_mul (d1 quaternionData) (d3 quaternionData))
                          (Double_mul (d0 quaternionData) (d2 quaternionData))) in
  let t2 := if Double_gt t2 (Num 1) then Num 1 else t2 in
  let t2 := if Double_lt t2 (Num (-1)) then Num (-1) else t2 in
  t2.

(** ** moveByPositionOffset *)

Definition msg_task_timeout : string := "Task timeout!".

(** The variables of the control loop that live across its iterations. *)
Record LoopState : Type := mkLoopState {
  elapsedTimeInMs : Z;
  withinBoundsCounter : Z;
  outOfBounds : Z;
  xCmd : R;
  yCmd : R
}.

(** The initial command of one horizontal axis (lines 315-321 for x, 323-329
    for y: the same text on the other variable). *)
Definition initialCmd (speedFactor : Z) (offsetDesired : R) : R :=
  if Rlt_bool 0 offsetDesired then
    (if Rlt_bool offsetDesired (IZR speedFactor) then offsetDesired else IZR speedFactor)
  else if Rlt_bool offsetDesired 0 then
    (if Rlt_bool (IZR (-1 * speedFactor)) offsetDesired then offsetDesired
     else IZR (-1 * speedFactor))
  else 0.

(** The three initial commands (lines 315-331). *)
Definition initialSetpoint (speedFactor : Z)
           (xOffsetDesired yOffsetDesired zOffsetDesired : R) (currentGPS : GPSFused)
  : R * R * R :=
  (initialCmd speedFactor xOffsetDesired,
   initialCmd speedFactor yOffsetDesired,
   altitude currentGPS + zOffsetDesired).

(** The setpoint update of one axis in a cycle (lines 355-358). *)
Definition updateCmd (speedFactor : Z) (offsetRemaining cmd : R) : R :=
  if Rlt_bool (Rabs offsetRemaining) (IZR speedFactor) then offsetRemaining else cmd.

(** The counters in a cycle, first part (lines 360-375): [inBounds] is the
    value of the condition of line 360. *)
Definition accumulateCounters (cycleTimeInMs : Z) (inBounds : bool)
           (withinBoundsCounter outOfBounds : Z) : Z * Z :=
  if inBounds then ((withinBoundsCounter + cycleTimeInMs)%Z, outOfBounds)
  else if negb (withinBoundsCounter =? 0)%Z
       then (withinBoundsCounter, (outOfBounds + cycleTimeInMs)%Z)
       else (withinBoundsCounter, outOfBounds).

(** The counters in a cycle, second part (lines 377-381). *)
Definition resetCounters (outOfControlBoundsTimeLimit : Z)
           (withinBoundsCounter outOfBounds : Z) : Z * Z :=
  if (outOfBounds >? outOfControlBoundsTimeLimit)%Z then (0%Z, 0%Z)
  else (withinBoundsCounter, outOfBounds).

Definition updateCounters (cycleTimeInMs outOfControlBoundsTimeLimit : Z)
           (inBounds : bool) (withinBoundsCounter outOfBounds : Z) : Z * Z :=
  let '(withinBoundsCounter, outOfBounds) :=
    accumulateCounters cycleTimeInMs inBounds withinBoundsCounter outOfBounds in
  resetCounters outOfControlBoundsTimeLimit withinBoundsCounter outOfBounds.

(** The state a loop iteration leaves, however it ends. *)
Definition loop_state {St : Type} (r : LoopCtl St) : St :=
  match r with Continue s => s | Break s => s end.

Section PositionControl.

(** The macros [DEG2RAD] and [C_EARTH] come from a header that is not at
    hand: the functions take them as parameters. *)
Variable DEG2RAD : R.
Variable C_EARTH : R.

Definition localOffsetFromGpsOffset (target origin : GPSFused) : Vector3f :=
  let deltaLon := longitude target - longitude origin in
  let deltaLat := latitude target - latitude origin in
  mkVector3f (deltaLat * C_EARTH)
             (deltaLon * C_EARTH * cos (latitude target))
             (altitude target - altitude origin).

(** The local constants of [moveByPositionOffset] (lines 231-236, 303, 308). *)
Definition timeoutInMilSec : Z := 10000.
Definition controlFreqInHz : Z := 50.
Definition cycleTimeInMs : Z := Z.quot 1000 controlFreqInHz.
Definition outOfControlBoundsTimeLimit : Z := 10 * cycleTimeInMs.
Definition withinControlBoundsTimeReqmt : Z := 50 * cycleTimeInMs.
Definition speedFactor : Z := 2.

(** [float zDeadband = 0.12] (line 308): the variable holds the
    single-precision number nearest to 0.12, which is 16106127 / 2^27 and a
    little below 0.12; the comparison of line 362 converts it to [double]
    as it is. *)
Definition zDeadband : R := 16106127 / 134217728.

Variables xOffsetDesired yOffsetDesired zOffsetDesired yawDesired : R.
Variables posThresholdInM yawThresholdInDeg : R.

(** The conversions at entry (lines 291-292). *)
Definition yawDesiredRad : R := DEG2RAD * yawDesired.
Definition yawThresholdInRad : R := DEG2RAD * yawThresholdInDeg.

(** The yaw argument of every [positionAndYawCtrl] call (line 338). *)
Definition yawCmd : R := yawDesiredRad / DEG2RAD.

(** The two sides of the yaw comparison of line 363, from the quaternion
    read in the cycle. *)
Definition yawError (q : Quaternion) : R :=
  let yawInRad := vz (toEulerAngle q) in
  Rabs (yawInRad - yawDesiredRad).

(** The condition of line 360. *)
Definition withinBounds (xOffsetRemaining yOffsetRemaining zOffsetRemaining : R)
           (q : Quaternion) : bool :=
  Rlt_bool (Rabs xOffsetRemaining) posThresholdInM
  && Rlt_bool (Rabs yOffsetRemaining) posThresholdInM
  && Rlt_bool (Rabs zOffsetRemaining) zDeadband
  && Rlt_bool (yawError q) yawThresholdInRad.

(** The offsets still to go in a cycle (lines 347-352). *)
Definition offsetRemaining (originGPS currentGPS : GPSFused) : Vector3f :=
  let localOffset := localOffsetFromGpsOffset currentGPS originGPS in
  let xOffsetRemaining := xOffsetDesired - vx localOffset in
  let yOffsetRemaining := yOffsetDesired - vy localOffset in
  let zOffsetRemaining := zOffsetDesired - (- vz localOffset) in
  mkVector3f xOffsetRemaining yOffsetRemaining zOffsetRemaining.

(** The condition of line 360 on the telemetry of a cycle. *)
Definition cycleInBounds (originGPS : GPSFused) (q : Quaternion)
           (currentGPS : GPSFused) : bool :=
  let remaining := offsetRemaining originGPS currentGPS in
  withinBounds (vx remaining) (vy remaining) (vz remaining) q.

(** What one cycle computes from the telemetry it read (lines 341-386);
    [Break] is the [break] of line 385. *)
Definition controlCycle (originGPS : GPSFused) (s : LoopState)
           (q : Quaternion) (currentGPS : GPSFused) : LoopCtl LoopState :=
  let elapsedTimeInMs := (elapsedTimeInMs s + cycleTimeInMs)%Z in
  let remaining := offsetRemaining originGPS currentGPS in
  let xCmd := updateCmd speedFactor (vx remaining) (xCmd s) in
  let yCmd := updateCmd speedFactor (vy remaining) (yCmd s) in
  let inBounds := cycleInBounds originGPS q currentGPS in
  let '(withinBoundsCounter, outOfBounds) :=
    updateCounters cycleTimeInMs outOfControlBoundsTimeLimit inBounds
                   (withinBoundsCounter s) (outOfBounds s) in
  let s' := mkLoopState elapsedTimeInMs withinBoundsCounter outOfBounds xCmd yCmd in
  if (withinBoundsCounter >=? withinControlBoundsTimeReqmt)%Z then Break s'
  else Continue s'.

(** The main loop (lines 334-387). *)
Definition controlLoop (fuel : nat) (vehicle : Vehicle) (originGPS : GPSFused)
           (zCmd : R) (s : LoopState) : M LoopState :=
  while fuel
    (fun s => ret (elapsedTimeInMs s <? timeoutInMilSec)%Z)
    (fun s =>
       control_positionAndYawCtrl (xCmd s) (yCmd s) zCmd yawCmd ;;;
       usleep (cycleTimeInMs * 1000) ;;;
       q <- getValue_QUATERNION vehicle ;;
       currentGPS <- getValue_GPS_FUSED vehicle ;;
       ret (controlCycle originGPS s q currentGPS))
    s.

(** The brake loop (lines 392-397). *)
Definition brakeLoop (fuel : nat) : M Z :=
  while fuel
    (fun brakeCounter => ret (brakeCounter <? withinControlBoundsTimeReqmt)%Z)
    (fun brakeCounter =>
       control_emergencyBrake ;;;
       usleep cycleTimeInMs ;;;
       ret (Continue (brakeCounter + cycleTimeInMs)%Z))
    0%Z.

(** [moveByPositionOffset] once the package is started (lines 273-420).  The
    local offset, the remaining offsets and the yaw computed before the loop
    (lines 281-297) are assigned again in the first iteration before any
    use, and are left out. *)
Definition moveByPositionOffset_started (fuel : nat) (vehicle : Vehicle)
           (pkgIndex responseTimeout : Z) : M IntReturn :=
  sleep 1 ;;;
  currentGPS <- getValue_GPS_FUSED vehicle ;;
  let originGPS := currentGPS in
  let '(xCmd, yCmd, zCmd) :=
    initialSetpoint speedFactor xOffsetDesired yOffsetDesired zOffsetDesired currentGPS in
  s <- controlLoop fuel vehicle originGPS zCmd (mkLoopState 0 0 0 xCmd yCmd) ;;
  brakeLoop fuel ;;;
  if (elapsedTimeInMs s >=? timeoutInMilSec)%Z then
    cout msg_task_timeout ;;;
    removePackage_warn vehicle pkgIndex responseTimeout ;;;
    ret (ret_ACK FAIL)
  else
    removePackage_warn vehicle pkgIndex responseTimeout ;;;
    ret (ret_ACK SUCCESS).

Definition moveByPositionOffset (fuel : nat) (vehicle : Vehicle) : M IntReturn :=
  let responseTimeout := 1%Z in
  subscribeStatus <- subscribe_verify vehicle responseTimeout ;;
  if negb (is_SUCCESS subscribeStatus) then ret (ret_bool false) else
  let pkgIndex := 0%Z in
  let freq := 50%Z in
  let topicList50Hz := [TOPIC_QUATERNION; TOPIC_GPS_FUSED] in
  let enableTimestamp := false in
  pkgStatus <- subscribe_initPackageFromTopicList vehicle pkgIndex topicList50Hz
                 enableTimestamp freq ;;
  if negb pkgStatus then ret (ret_bool pkgStatus) else
  subscribeStatus <- subscribe_startPackage vehicle pkgIndex responseTimeout ;;
  if negb (is_SUCCESS subscribeStatus) then
    subscribe_removePackage vehicle pkgIndex responseTimeout ;;; ret (ret_bool false)
  else
  moveByPositionOffset_started fuel vehicle pkgIndex responseTimeout.

(** *** Predicates on the control loop used by the statements *)

(** The states at the head of the loop: the initial one, and the one every
    iteration that does not [break] leaves, whatever the telemetry. *)
Inductive reachable (originGPS : GPSFused) : LoopState -> Prop :=
| reachable_init (xCmd yCmd : R) :
    reachable originGPS (mkLoopState 0 0 0 xCmd yCmd)
| reachable_step (s : LoopState) (q : Quaternion) (currentGPS : GPSFused)
                 (s' : LoopState) :
    reachable originGPS s ->
    (elapsedTimeInMs s < timeoutInMilSec)%Z ->
    controlCycle originGPS s q currentGPS = Continue s' ->
    reachable originGPS s'.

(** A position command of the loop: altitude [zCmd], yaw [yawCmd]. *)
Definition is_positionCmd (zCmd : R) (e : Event) : Prop :=
  exists x y, e = EvPositionAndYawCtrl x y zCmd yawCmd.

(** [n] iterations were run from the world [w0]: what the state and the
    world record of them. *)
Definition ran_cycles (zCmd : R) (w0 : World) (n : Z) (s : LoopState) (w : World) : Prop :=
  (elapsedTimeInMs s = cycleTimeInMs * n)%Z
  /\ (clock_us w = clock_us w0 + n * (cycleTimeInMs * 1000))%Z
  /\ exists cmds, trace w = trace w0 ++ cmds
                  /\ Z.of_nat (List.length cmds) = n
                  /\ Forall (is_positionCmd zCmd) cmds.

Definition loop_inv (originGPS : GPSFused) (zCmd : R) (w0 : World)
           (s : LoopState) (w : World) : Prop :=
  reachable originGPS s /\ exists n, (0 <= n)%Z /\ ran_cycles zCmd w0 n s w.

Definition loop_post (originGPS : GPSFused) (zCmd : R) (w0 : World)
           (s : LoopState) (w : World) : Prop :=
  (exists n, (1 <= n <= 500)%Z /\ ran_cycles zCmd w0 n s w)
  /\ (exists s0 q currentGPS,
         reachable originGPS s0 /\ (elapsedTimeInMs s0 < timeoutInMilSec)%Z
         /\ s = loop_state (controlCycle originGPS s0 q currentGPS))
  /\ ((withinControlBoundsTimeReqmt <= withinBoundsCounter s
       /\ elapsedTimeInMs s <= timeoutInMilSec)%Z
      \/ (withinBoundsCounter s < withinControlBoundsTimeReqmt
          /\ elapsedTimeInMs s = timeoutInMilSec)%Z).

End PositionControl.

Close Scope R_scope.

(** * Definitions used by the statements *)

(** ** Polling loops *)

(** The body of the counting loops of the two monitors: count, and sleep a
    tenth of a second. *)
Definition poll_body (n : Z) : M (LoopCtl Z) := usleep 100000 ;;; ret (Continue (n + 1)).

(** After [n] polls from the world [w0] the telemetry condition [test] held
    at each of them, and only time passed. *)
Definition poll_inv (test : Z -> bool) (budget : Z) (w0 : World) (n : Z) (w : World) : Prop :=
  0 <= n <= budget /\
  w = mkWorld (clock_us w0 + n * 100000) (trace w0) /\
  forall j, 0 <= j < n -> test (clock_us w0 + j * 100000) = true.

(** The loop stopped after [n] polls: before its budget only because the
    condition no longer held. *)
Definition poll_post (test : Z -> bool) (budget : Z) (w0 : World) (n : Z) (w : World) : Prop :=
  poll_inv test budget w0 n w /\
  (n < budget -> test (clock_us w0 + n * 100000) = false).

(** The telemetry part of the condition of the first takeoff loop. *)
Definition motors_not_started (vehicle : Vehicle) (t : Z) : bool :=
  FlightStatus_neqb (status_flight vehicle t) ON_GROUND
  && DisplayMode_neqb (status_displaymode vehicle t) MODE_ENGINE_START.

(** ** Events *)

(** A computation adds events to the trace, all of them satisfying [P]. *)
Definition emits (P : Event -> Prop) {A : Type} (m : M A) : Prop :=
  forall w a w', m w = Some (a, w') ->
                 exists evs, trace w' = trace w ++ evs /\ Forall P evs.

Definition setup_events_10Hz : list Event :=
  [EvVerify; EvInitPackage 0 [TOPIC_STATUS_FLIGHT; TOPIC_STATUS_DISPLAYMODE] 10;
   EvStartPackage 0].

Definition setup_events_50Hz : list Event :=
  [EvVerify; EvInitPackage 0 [TOPIC_QUATERNION; TOPIC_GPS_FUSED] 50; EvStartPackage 0].

(** The removal of the package on the way out, with its warning. *)
Definition removal_events (vehicle : Vehicle) : list Event :=
  EvRemovePackage 0
  :: (if is_SUCCESS (removePackage_ack vehicle) then [] else [EvPrint msg_unsubscribe]).

(** The counters of a head state of the control loop are in their ranges. *)
Definition counters_ok (s : LoopState) : Prop :=
  0 <= withinBoundsCounter s < withinControlBoundsTimeReqmt
  /\ 0 <= outOfBounds s <= outOfControlBoundsTimeLimit
  /\ exists n, 0 <= n <= 500 /\ elapsedTimeInMs s = cycleTimeInMs * n.

(** ** Concrete vehicles and parameters *)

Definition quaternion_identity : Quaternion := mkQuaternion 1 0 0 0.
Definition gps_origin : GPSFused := mkGPSFused 0 0 0.

(** Motors start at once, the aircraft is in the air after half a second and
    its display mode then stays [settled]. *)
Definition vehicle_takes_off (settled : DisplayMode) : Vehicle :=
  mkVehicle SUCCESS true SUCCESS SUCCESS SUCCESS SUCCESS
    (fun t => if t <? 500000 then ON_GROUND else IN_AIR)
    (fun t => if t <? 500000 then MODE_ENGINE_START else settled)
    (fun _ => quaternion_identity) (fun _ => gps_origin).

(** The aircraft lands automatically for three seconds and is then on the
    ground, its display mode staying [settled]. *)
Definition vehicle_lands (settled : DisplayMode) : Vehicle :=
  mkVehicle SUCCESS true SUCCESS SUCCESS SUCCESS SUCCESS
    (fun t => if t <? 3000000 then IN_AIR else ON_GROUND)
    (fun t => if t <? 3000000 then MODE_AUTO_LANDING else settled)
    (fun _ => quaternion_identity) (fun _ => gps_origin).

(** The flight status never leaves [ON_GROUND]. *)
Definition vehicle_stuck_on_ground : Vehicle :=
  mkVehicle SUCCESS true SUCCESS SUCCESS SUCCESS SUCCESS
    (fun _ => ON_GROUND) (fun _ => MODE_P_GPS)
    (fun _ => quaternion_identity) (fun _ => gps_origin).

(** The flight status is [ON_GROUND] for three seconds (thirty polls), then
    the aircraft is in the air in GPS position hold. *)
Definition vehicle_late_liftoff : Vehicle :=
  mkVehicle SUCCESS true SUCCESS SUCCESS SUCCESS SUCCESS
    (fun t => if t <=? 3000000 then ON_GROUND else IN_AIR)
    (fun t => if t <=? 3000000 then MODE_ENGINE_START else MODE_P_GPS)
    (fun _ => quaternion_identity) (fun _ => gps_origin).

(** The motors never report: the flight status is neither [ON_GROUND] nor
    [IN_AIR], and the display mode is not [MODE_ENGINE_START]. *)
Definition vehicle_motors_off : Vehicle :=
  mkVehicle SUCCESS true SUCCESS SUCCESS SUCCESS SUCCESS
    (fun _ => FlightStatus_other 0) (fun _ => MODE_P_GPS)
    (fun _ => quaternion_identity) (fun _ => gps_origin).

(** The aircraft hovers where it is, level and heading north. *)
Definition vehicle_hovering : Vehicle :=
  mkVehicle SUCCESS true SUCCESS SUCCESS SUCCESS SUCCESS
    (fun _ => IN_AIR) (fun _ => MODE_P_GPS)
    (fun _ => quaternion_identity) (fun _ => gps_origin).

(** Values of the two macros for the concrete runs: a degree in radians to
    eleven digits, and the equatorial radius of the Earth in metres. *)
Definition DEG2RAD_value : R := (1745329252 / 100000000000)%R.
Definition C_EARTH_value : R := 6378137%R.

(** The first move of the sample's [main] (line 61), with the default
    thresholds 0.2 m and 1 degree. *)
Definition sample_move (fuel : nat) (vehicle : Vehicle) : M IntReturn :=
  moveByPositionOffset DEG2RAD_value C_EARTH_value 0 6 6 30 (2 / 10) 1 fuel vehicle.

(** One cycle of that move. *)
Definition sample_cycle (originGPS : GPSFused) (s : LoopState) (q : Quaternion)
           (currentGPS : GPSFused) : LoopCtl LoopState :=
  controlCycle DEG2RAD_value C_EARTH_value 0 6 6 30 (2 / 10) 1 originGPS s q currentGPS.

(** An event is a printed message. *)
Definition is_print (e : Event) : Prop := exists msg, e = EvPrint msg.

(** The aircraft is 1 m too high for the first 450 cycles of a move and at
    its goal from then on. *)
Definition vehicle_settles_late : Vehicle :=
  mkVehicle SUCCESS true SUCCESS SUCCESS SUCCESS SUCCESS
    (fun _ => IN_AIR) (fun _ => MODE_P_GPS)
    (fun _ => quaternion_identity)
    (fun t => if t <=? 1000000 then gps_origin
              else if t <=? 10000000 then mkGPSFused 0 0 1
                   else gps_origin).

(** A move by no offset, with the default thresholds. *)
Definition hold_move (fuel : nat) (vehicle : Vehicle) : M IntReturn :=
  moveByPositionOffset DEG2RAD_value C_EARTH_value 0 0 0 0 (2 / 10) 1 fuel vehicle.

Definition hold_loop (fuel : nat) (vehicle : Vehicle) (originGPS : GPSFused) (zCmd : R)
           (s : LoopState) : M LoopState :=
  controlLoop DEG2RAD_value C_EARTH_value 0 0 0 0 (2 / 10) 1 fuel vehicle originGPS zCmd s.

(** After [k] cycles of the held move on [vehicle_settles_late]. *)
Definition settles_late_inv (s : LoopState) (w : World) : Prop :=
  exists k, 0 <= k <= 500
            /\ elapsedTimeInMs s = 20 * k
            /\ clock_us w = 1000000 + 20000 * k
            /\ outOfBounds s = 0
            /\ withinBoundsCounter s = 20 * Z.max 0 (k - 450).

(** ** Orientations about one axis *)

(** The unit quaternions of a rotation by [angle] about the vertical axis
    (yaw), the lateral axis (pitch) and the longitudinal axis (roll). *)
Definition quaternion_of_yaw (angle : R) : Quaternion :=
  mkQuaternion (cos (angle / 2)) 0 0 (sin (angle / 2)).
Definition quaternion_of_pitch (angle : R) : Quaternion :=
  mkQuaternion (cos (angle / 2)) 0 (sin (angle / 2)) 0.
Definition quaternion_of_roll (angle : R) : Quaternion :=
  mkQuaternion (cos (angle / 2)) (sin (angle / 2)) 0 0.

(** ** The telemetry of the cycles of a move *)

(** The time at which the [k]-th cycle of a move called in the world [w]
    reads its telemetry: one second of wait, then one cycle time per cycle.
    The origin is read at [cycle_time w 0]. *)
Definition cycle_time (w : World) (k : Z) : Z :=
  clock_us w + 1 * 1000000 + k * (cycleTimeInMs * 1000).

(** The condition of line 360 in the [k]-th cycle of a move on [vehicle]. *)
Definition inBoundsAt (DEG2RAD C_EARTH xOffsetDesired yOffsetDesired zOffsetDesired
                       yawDesired posThresholdInM yawThresholdInDeg : R)
           (vehicle : Vehicle) (w : World) (k : Z) : bool :=
  cycleInBounds DEG2RAD C_EARTH xOffsetDesired yOffsetDesired zOffsetDesired
                yawDesired posThresholdInM yawThresholdInDeg
                (gps_fused vehicle (cycle_time w 0))
                (quaternion vehicle (cycle_time w k))
                (gps_fused vehicle (cycle_time w k)).

(** The world in which the control loop of a move called in [w] starts. *)
Definition loop_start (w : World) : World :=
  mkWorld (clock_us w + 1 * 1000000) (trace w ++ setup_events_50Hz).

(** The world a move leaves: [n] cycles of 20 ms after the second of wait,
    then 50 brake commands 20 microseconds apart, then [finish]. *)
Definition move_end (w : World) (n : Z) (cmds finish : list Event) : World :=
  mkWorld (cycle_time w n + 50 * cycleTimeInMs)
          (trace w ++ setup_events_50Hz ++ cmds
           ++ repeat EvEmergencyBrake 50 ++ finish).

(** The aircraft is at the origin when the move reads it and 6 m higher in
    every cycle of the move. *)
Definition vehicle_climbs : Vehicle :=
  mkVehicle SUCCESS true SUCCESS SUCCESS SUCCESS SUCCESS
    (fun _ => IN_AIR) (fun _ => MODE_P_GPS)
    (fun _ => quaternion_identity)
    (fun t => if t <=? 1000000 then gps_origin else mkGPSFused 0 0 6).

(** ** The telemetry conditions of the monitors *)

(** The telemetry part of the condition of the second takeoff loop
    (lines 151-156), of the wait of [monitoredTakeoff] (lines 180-183), of
    the first landing loop (lines 474-476) and of the wait of
    [monitoredLanding] (lines 502-505), at the time [t]. *)
Definition still_on_ground (vehicle : Vehicle) (t : Z) : bool :=
  FlightStatus_neqb (status_flight vehicle t) IN_AIR
  && (DisplayMode_neqb (status_displaymode vehicle t) MODE_ASSISTED_TAKEOFF
      || DisplayMode_neqb (status_displaymode vehicle t) MODE_AUTO_TAKEOFF).

Definition takeoff_in_progress (vehicle : Vehicle) (t : Z) : bool :=
  DisplayMode_eqb (status_displaymode vehicle t) MODE_ASSISTED_TAKEOFF
  || DisplayMode_eqb (status_displaymode vehicle t) MODE_AUTO_TAKEOFF.

Definition landing_not_started (vehicle : Vehicle) (t : Z) : bool :=
  DisplayMode_neqb (status_displaymode vehicle t) MODE_AUTO_LANDING.

Definition landing_in_progress (vehicle : Vehicle) (t : Z) : bool :=
  DisplayMode_eqb (status_displaymode vehicle t) MODE_AUTO_LANDING
  && FlightStatus_eqb (status_flight vehicle t) IN_AIR.

(** The motors start at once, the aircraft is in the air after half a
    second, climbs in automatic takeoff until two seconds and then holds its
    position. *)
Definition vehicle_climbs_out : Vehicle :=
  mkVehicle SUCCESS true SUCCESS SUCCESS SUCCESS SUCCESS
    (fun t => if t <? 500000 then ON_GROUND else IN_AIR)
    (fun t => if t <? 500000 then MODE_ENGINE_START
              else if t <? 2000000 then MODE_AUTO_TAKEOFF else MODE_P_GPS)
    (fun _ => quaternion_identity) (fun _ => gps_origin).

(** The landing starts after three tenths of a second and the aircraft
    descends for ever. *)
Definition vehicle_keeps_descending : Vehicle :=
  mkVehicle SUCCESS true SUCCESS SUCCESS SUCCESS SUCCESS
    (fun _ => IN_AIR)
    (fun t => if t <? 300000 then MODE_P_GPS else MODE_AUTO_LANDING)
    (fun _ => quaternion_identity) (fun _ => gps_origin).

(** The landing command is acknowledged and the display mode never changes
    to automatic landing. *)
Definition vehicle_ignores_landing : Vehicle :=
  mkVehicle SUCCESS true SUCCESS FAIL SUCCESS SUCCESS
    (fun _ => IN_AIR) (fun _ => MODE_P_GPS)
    (fun _ => quaternion_identity) (fun _ => gps_origin).

(** ** monitoredTakeoff after its first check *)

(** [monitoredTakeoff] from its second check on (lines 149-211), as it is in
    [takeoff_checks]. *)
Definition takeoff_in_air_checks (fuel : nat) (vehicle : Vehicle) (pkgIndex timeout : Z)
  : M bool :=
  let timeoutCycles := 110 in
  stillOnGround <- takeoff_in_air_loop fuel vehicle timeoutCycles ;;
  if stillOnGround =? timeoutCycles then
    cout msg_still_on_ground ;;;
    subscribe_removePackage vehicle 0 timeout ;;;
    ret false
  else
  cout msg_ascending ;;;
  takeoff_finished_loop fuel vehicle ;;;
  m1 <- getValue_STATUS_DISPLAYMODE vehicle ;;
  m2 <- getValue_STATUS_DISPLAYMODE vehicle ;;
  if settled_mode_accepted m1 m2 then
    cout msg_takeoff_ok ;;;
    removePackage_warn vehicle pkgIndex timeout ;;;
    ret true
  else
    cout msg_takeoff_unexpected ;;;
    subscribe_removePackage vehicle 0 timeout ;;;
    ret false.

(** ** Head states of the held move *)

(** One cycle of the held move from the head state [s], the aircraft level
    and at the origin ([true]) or 1 m above it ([false]). *)
Definition hold_cycle (atGoal : bool) (s : LoopState) : LoopState :=
  loop_state
    (controlCycle DEG2RAD_value C_EARTH_value 0 0 0 0 (2 / 10) 1 gps_origin s
                  quaternion_identity
                  (if atGoal then gps_origin else mkGPSFused 0 0 1)).

Definition hold_cycles (flags : list bool) (s : LoopState) : LoopState :=
  fold_left (fun s atGoal => hold_cycle atGoal s) flags s.

(** The head state after one cycle at the goal and ten cycles above it. *)
Definition excursion_limit_state : LoopState :=
  hold_cycles (true :: repeat false 10) (mkLoopState 0 0 0 0 0).

(** ** The counters over a run of cycles *)

(** The two counters of the control loop, the within-bounds counter first,
    after the cycles whose conditions (line 360) are [flags], from the
    counters [c]. *)
Definition countersAfter (flags : list bool) (c : Z * Z) : Z * Z :=
  fold_left (fun c inBounds =>
               updateCounters cycleTimeInMs outOfControlBoundsTimeLimit inBounds
                              (fst c) (snd c))
            flags c.

(** ** Position commands *)

(** A position command keeps its two horizontal setpoints within [limit]. *)
Definition setpoint_within (limit : R) (e : Event) : Prop :=
  forall x y z yaw, e = EvPositionAndYawCtrl x y z yaw ->
                    (Rabs x <= limit /\ Rabs y <= limit)%R.

(** ** main *)

Section Main.

(** The default arguments of the calls of [main] are declared in the header
    that is not at hand: the timeout of the two monitors and the two
    thresholds of [moveByPositionOffset] are parameters, as the two macros
    are. *)
Variables DEG2RAD C_EARTH : R.
Variable timeout : Z.
Variables posThresholdInM yawThresholdInDeg : R.

(** The [switch] of [main] on the character read (lines 53-69).  The values
    that the calls return are dropped. *)
Definition main_switch (fuel : nat) (vehicle : Vehicle) (inputChar : ascii) : M unit :=
  if Ascii.eqb inputChar "a" then
    monitoredTakeoff fuel vehicle timeout ;;;
    monitoredLanding fuel vehicle timeout ;;;
    ret tt
  else if Ascii.eqb inputChar "b" then
    monitoredTakeoff fuel vehicle timeout ;;;
    moveByPositionOffset DEG2RAD C_EARTH 0 6 6 30
                         posThresholdInM yawThresholdInDeg fuel vehicle ;;;
    moveByPositionOffset DEG2RAD C_EARTH 6 0 (-3) (-30)
                         posThresholdInM yawThresholdInDeg fuel vehicle ;;;
    moveByPositionOffset DEG2RAD C_EARTH (-6) (-6) 0 0
                         posThresholdInM yawThresholdInDeg fuel vehicle ;;;
    monitoredLanding fuel vehicle timeout ;;;
    ret tt
  else ret tt.

End Main.

(** * Properties *)

(** ** The monad and its loops *)

Lemma bind_Some {A B : Type} (m : M A) (f : A -> M B) (w : World) (b : B) (w' : World) :
  bind m f w = Some (b, w') <->
  exists a w1, m w = Some (a, w1) /\ f a w1 = Some (b, w').
Proof.
  unfold bind. split.
  - destruct (m w) as [[a w1]|]; [|discriminate].
    intros H. exists a, w1. split; [reflexivity | exact H].
  - intros (a & w1 & Hm & Hf). rewrite Hm. exact Hf.
Qed.

Section WhileRules.

Context {St : Type}.
Variable cond : St -> M bool.
Variable body : St -> M (LoopCtl St).

(** The conditions of the sample read the world and leave it as it is. *)
Variable cb : St -> World -> bool.
Hypothesis cond_reads : forall s w, cond s w = Some (cb s w, w).

Variable Inv : St -> World -> Prop.
Variable Post : St -> World -> Prop.

(** Partial correctness: what holds when the loop returns. *)
Lemma while_rule :
  (forall s w r w', Inv s w -> cb s w = true -> body s w = Some (r, w') ->
                    match r with
                    | Continue s' => Inv s' w'
                    | Break s' => Post s' w'
                    end) ->
  (forall s w, Inv s w -> cb s w = false -> Post s w) ->
  forall fuel s w s' w',
    Inv s w -> while fuel cond body s w = Some (s', w') -> Post s' w'.
Proof.
  intros Hbody Hexit fuel.
  induction fuel as [|fuel IH]; intros s w s' w' HI Hrun; [discriminate|].
  cbn [while] in Hrun. unfold bind in Hrun. rewrite cond_reads in Hrun.
  destruct (cb s w) eqn:Hc.
  - destruct (body s w) as [[r w1]|] eqn:Hb; [|discriminate].
    specialize (Hbody s w r w1 HI Hc Hb).
    destruct r as [s1|s1].
    + exact (IH s1 w1 s' w' Hbody Hrun).
    + unfold ret in Hrun. injection Hrun as <- <-. exact Hbody.
  - unfold ret in Hrun. injection Hrun as <- <-. exact (Hexit s w HI Hc).
Qed.

(** Total correctness: with a measure that decreases in every iteration
    that continues, fuel above the measure is enough for the loop to
    return. *)
Variable measure : St -> nat.

Lemma while_total :
  (forall s w, Inv s w -> cb s w = true ->
               exists r w', body s w = Some (r, w') /\
                            match r with
                            | Continue s' => Inv s' w' /\ (measure s' < measure s)%nat
                            | Break s' => Post s' w'
                            end) ->
  (forall s w, Inv s w -> cb s w = false -> Post s w) ->
  forall fuel s w,
    Inv s w -> (measure s < fuel)%nat ->
    exists s' w', while fuel cond body s w = Some (s', w') /\ Post s' w'.
Proof.
  intros Hbody Hexit fuel.
  induction fuel as [|fuel IH]; intros s w HI Hm; [lia|].
  cbn [while]. unfold bind. rewrite cond_reads.
  destruct (cb s w) eqn:Hc.
  - destruct (Hbody s w HI Hc) as (r & w1 & Hb & Hr).
    rewrite Hb. destruct r as [s1|s1].
    + destruct Hr as [HI1 Hlt]. apply IH; [exact HI1 | lia].
    + exists s1, w1. split; [reflexivity | exact Hr].
  - exists s, w. split; [reflexivity | exact (Hexit s w HI Hc)].
Qed.

End WhileRules.

Section PollLoop.

Variable cond : Z -> M bool.
Variable test : Z -> bool.
Variable budget : Z.
Hypothesis budget_nonneg : 0 <= budget.
Hypothesis cond_polls :
  forall n w, cond n w = Some (test (clock_us w) && (n <? budget), w).

Variable w0 : World.

Local Abbreviation inv := (poll_inv test budget w0).
Local Abbreviation post := (poll_post test budget w0).

Lemma poll_inv_init : inv 0 w0.
Proof.
  unfold poll_inv. repeat split; try lia.
  destruct w0; cbn. f_equal. lia.
Qed.

Lemma poll_step n w :
  inv n w -> test (clock_us w) && (n <? budget) = true ->
  exists r w', poll_body n w = Some (r, w') /\
    match r with
    | Continue n' => inv n' w' /\ (Z.to_nat (budget - n') < Z.to_nat (budget - n))%nat
    | Break n' => post n' w'
    end.
Proof.
  intros (Hn & Hw & Hj) Hc.
  apply andb_true_iff in Hc. destruct Hc as [Ht Hlt]. apply Z.ltb_lt in Hlt.
  eexists _, _. split; [reflexivity|].
  split; [|lia].
  subst w. cbn in *. repeat split; try lia.
  - f_equal. lia.
  - intros j Hjr. destruct (Z.eq_dec j n) as [->|Hne]; [exact Ht|apply Hj; lia].
Qed.

Lemma poll_exit n w :
  inv n w -> test (clock_us w) && (n <? budget) = false -> post n w.
Proof.
  intros HI Hc. split; [exact HI|].
  intros Hlt. destruct HI as (Hn & Hw & Hj).
  apply andb_false_iff in Hc. destruct Hc as [Ht|Hc].
  - subst w. exact Ht.
  - apply Z.ltb_ge in Hc. lia.
Qed.

Lemma poll_loop_returns (fuel : nat) :
  (Z.to_nat budget < fuel)%nat ->
  exists n w, while fuel cond poll_body 0 w0 = Some (n, w) /\ post n w.
Proof.
  intros Hfuel.
  apply (while_total cond poll_body (fun n w => test (clock_us w) && (n <? budget))
           cond_polls inv post (fun n => Z.to_nat (budget - n))).
  - intros s w HI Hc. exact (poll_step s w HI Hc).
  - exact poll_exit.
  - exact poll_inv_init.
  - rewrite Z.sub_0_r. exact Hfuel.
Qed.

Lemma poll_loop_result (fuel : nat) (n : Z) (w : World) :
  while fuel cond poll_body 0 w0 = Some (n, w) -> post n w.
Proof.
  apply (while_rule cond poll_body (fun n w => test (clock_us w) && (n <? budget))
           cond_polls inv post).
  - intros s w1 r w' HI Hc Hb.
    destruct (poll_step s w1 HI Hc) as (r' & w'' & Hb' & Hr).
    rewrite Hb in Hb'. injection Hb' as <- <-.
    destruct r; [exact (proj1 Hr) | exact Hr].
  - exact poll_exit.
  - exact poll_inv_init.
Qed.

End PollLoop.

Section Emits.

Variable P : Event -> Prop.

Lemma emits_ret {A : Type} (a : A) : emits P (ret a).
Proof.
  intros w a' w' H. injection H as <- <-. exists []. split; [|constructor].
  symmetry. apply app_nil_r.
Qed.

Lemma emits_bind {A B : Type} (m : M A) (f : A -> M B) :
  emits P m -> (forall a, emits P (f a)) -> emits P (bind m f).
Proof.
  intros Hm Hf w b w' H. apply bind_Some in H. destruct H as (a & w1 & H1 & H2).
  destruct (Hm _ _ _ H1) as (e1 & E1 & F1).
  destruct (Hf a _ _ _ H2) as (e2 & E2 & F2).
  exists (e1 ++ e2). split.
  - rewrite E2, E1. symmetry. apply app_assoc.
  - apply Forall_app. split; assumption.
Qed.

Lemma emits_emit (e : Event) : P e -> emits P (emit e).
Proof.
  intros He w a w' H. injection H as <- <-. exists [e]. split; [reflexivity|].
  constructor; [exact He | constructor].
Qed.

Lemma emits_read {A : Type} (f : World -> A) : emits P (fun w => Some (f w, w)).
Proof.
  intros w a w' H. injection H as <- <-. exists []. split; [|constructor].
  symmetry. apply app_nil_r.
Qed.

Lemma emits_usleep (us : Z) : emits P (usleep us).
Proof.
  intros w a w' H. injection H as <- <-. exists []. split; [|constructor].
  symmetry. apply app_nil_r.
Qed.

Lemma emits_while {St : Type} (cond : St -> M bool) (body : St -> M (LoopCtl St)) :
  (forall s, emits P (cond s)) -> (forall s, emits P (body s)) ->
  forall fuel s, emits P (while fuel cond body s).
Proof.
  intros Hc Hb fuel. induction fuel as [|fuel IH]; intros s.
  - intros w a w' H. discriminate H.
  - cbn [while]. apply emits_bind; [apply Hc|]. intros [|]; [|apply emits_ret].
    apply emits_bind; [apply Hb|]. intros [s'|s']; [apply IH | apply emits_ret].
Qed.

End Emits.

Lemma settled_mode_accepted_same (m : DisplayMode) : settled_mode_accepted m m = true.
Proof. destruct m; reflexivity. Qed.

(** The last [if] of the two monitors reads the mode twice at the same time
    of the clock: its [else] branch is never taken. *)
Lemma emits_settled_check (P : Event -> Prop) {A : Type} (vehicle : Vehicle)
      (accepted unexpected : M A) :
  emits P accepted ->
  emits P (m1 <- getValue_STATUS_DISPLAYMODE vehicle ;;
           m2 <- getValue_STATUS_DISPLAYMODE vehicle ;;
           if settled_mode_accepted m1 m2 then accepted else unexpected).
Proof.
  intros Ha w a w' H. unfold bind, getValue_STATUS_DISPLAYMODE in H.
  rewrite settled_mode_accepted_same in H. exact (Ha w a w' H).
Qed.

Ltac emits_step :=
  first
    [ apply emits_settled_check
    | apply emits_ret
    | apply emits_usleep
    | apply emits_read
    | apply emits_emit
    | apply emits_while; intros ?
    | apply emits_bind; [|intros ?]
    | match goal with
      | |- emits _ (if ?b then _ else _) => destruct b
      | |- emits _ (let _ := _ in _) => cbv zeta
      end ].

Ltac emits_unfold :=
  unfold takeoff_motors_loop, takeoff_in_air_loop, takeoff_finished_loop,
    landing_started_loop, landing_finished_loop, removePackage_warn,
    subscribe_verify, subscribe_initPackageFromTopicList, subscribe_startPackage,
    subscribe_removePackage, control_takeoff, control_land, cout, sleep,
    getValue_STATUS_FLIGHT.

Lemma monitoredTakeoff_never_unexpected fuel vehicle timeout :
  emits (fun e => e <> EvPrint msg_takeoff_unexpected) (monitoredTakeoff fuel vehicle timeout).
Proof.
  unfold monitoredTakeoff, takeoff_checks. emits_unfold.
  repeat emits_step; try discriminate.
  all: unfold getValue_STATUS_DISPLAYMODE; try apply emits_read.
Qed.

Lemma monitoredLanding_never_unexpected fuel vehicle timeout :
  emits (fun e => e <> EvPrint msg_landing_unexpected) (monitoredLanding fuel vehicle timeout).
Proof.
  unfold monitoredLanding, landing_checks. emits_unfold.
  repeat emits_step; try discriminate.
  all: unfold getValue_STATUS_DISPLAYMODE; try apply emits_read.
Qed.

(** C1 (the code departs from the claim): the last check of both monitors
    accepts every display mode.  The condition "mode is not P-GPS or mode is
    not attitude" holds of every mode read twice at the same time, so neither
    monitor ever prints its unexpected-mode message; a takeoff whose mode
    settles in automatic landing, and a landing whose mode settles in engine
    start, both print their success message and return [true]. *)
Theorem settled_mode_check_accepts_every_mode :
  (forall m, settled_mode_accepted m m = true)
  /\ (forall fuel vehicle timeout,
         emits (fun e => e <> EvPrint msg_takeoff_unexpected)
               (monitoredTakeoff fuel vehicle timeout))
  /\ (forall fuel vehicle timeout,
         emits (fun e => e <> EvPrint msg_landing_unexpected)
               (monitoredLanding fuel vehicle timeout))
  /\ monitoredTakeoff 200 (vehicle_takes_off MODE_AUTO_LANDING) 1 world0
     = Some (true,
             mkWorld 500000
               (setup_events_10Hz ++
                [EvTakeoff; EvPrint msg_motors_spinning; EvPrint msg_ascending;
                 EvPrint msg_takeoff_ok; EvRemovePackage 0]))
  /\ monitoredLanding 200 (vehicle_lands MODE_ENGINE_START) 1 world0
     = Some (true,
             mkWorld 3000000
               (setup_events_10Hz ++
                [EvLand; EvPrint msg_landing; EvPrint msg_landing_ok;
                 EvRemovePackage 0])).
Proof.
  split; [exact settled_mode_accepted_same|].
  split; [exact monitoredTakeoff_never_unexpected|].
  split; [exact monitoredLanding_never_unexpected|].
  split; vm_compute; reflexivity.
Qed.

(** C3 (the code departs from the claim): when the package was started and
    the takeoff command (resp. the landing command) is rejected,
    [monitoredTakeoff] (resp. [monitoredLanding]) returns [false] having
    added exactly the three setup events and the command: the started
    package is not removed.  This holds for every fuel, timeout and
    telemetry. *)
Theorem rejected_command_leaves_package_started :
  forall (fuel : nat) (timeout : Z) (removeAck takeoffAck landAck : ErrorCode)
         (flight : Z -> FlightStatus) (mode : Z -> DisplayMode)
         (q : Z -> Quaternion) (gps : Z -> GPSFused) (w : World),
    monitoredTakeoff fuel
      (mkVehicle SUCCESS true SUCCESS removeAck FAIL landAck flight mode q gps) timeout w
    = Some (false, mkWorld (clock_us w) (trace w ++ setup_events_10Hz ++ [EvTakeoff]))
    /\ monitoredLanding fuel
         (mkVehicle SUCCESS true SUCCESS removeAck takeoffAck FAIL flight mode q gps) timeout w
       = Some (false, mkWorld (clock_us w) (trace w ++ setup_events_10Hz ++ [EvLand]))
    /\ In (EvStartPackage 0) setup_events_10Hz
    /\ (forall i, ~ In (EvRemovePackage i) (setup_events_10Hz ++ [EvTakeoff]))
    /\ (forall i, ~ In (EvRemovePackage i) (setup_events_10Hz ++ [EvLand])).
Proof.
  intros. split; [|split; [|split; [|split]]].
  - unfold monitoredTakeoff, bind, subscribe_verify, subscribe_initPackageFromTopicList,
      subscribe_startPackage, control_takeoff, emit, ret. cbn.
    rewrite <- !app_assoc. reflexivity.
  - unfold monitoredLanding, bind, subscribe_verify, subscribe_initPackageFromTopicList,
      subscribe_startPackage, control_land, emit, ret. cbn.
    rewrite <- !app_assoc. reflexivity.
  - cbn. auto.
  - intros i H. cbn in H. repeat (destruct H as [H|H]; [discriminate H|]). exact H.
  - intros i H. cbn in H. repeat (destruct H as [H|H]; [discriminate H|]). exact H.
Qed.

Lemma FlightStatus_neqb_true (a b : FlightStatus) :
  FlightStatus_neqb a b = true <-> a <> b.
Proof.
  unfold FlightStatus_neqb. rewrite negb_true_iff.
  destruct a as [| |m], b as [| |n]; cbn; split; try congruence; try discriminate.
  - intros H E. injection E as ->. rewrite Nat.eqb_refl in H. discriminate.
  - intros H. apply Nat.eqb_neq. congruence.
Qed.

Lemma DisplayMode_neqb_true (a b : DisplayMode) :
  DisplayMode_neqb a b = true <-> a <> b.
Proof.
  unfold DisplayMode_neqb. rewrite negb_true_iff.
  destruct a as [| | | | | |m], b as [| | | | | |n]; cbn; split;
    try congruence; try discriminate.
  - intros H E. injection E as ->. rewrite Nat.eqb_refl in H. discriminate.
  - intros H. apply Nat.eqb_neq. congruence.
Qed.

Lemma takeoff_motors_loop_returns (fuel : nat) (vehicle : Vehicle) (budget : Z) (w : World) :
  0 <= budget -> (Z.to_nat budget < fuel)%nat ->
  exists n w', takeoff_motors_loop fuel vehicle budget w = Some (n, w')
               /\ poll_post (motors_not_started vehicle) budget w n w'.
Proof.
  intros Hb Hfuel. unfold takeoff_motors_loop.
  apply (poll_loop_returns _ (motors_not_started vehicle) budget Hb); [|exact Hfuel].
  intros; reflexivity.
Qed.

Lemma takeoff_motors_loop_result (fuel : nat) (vehicle : Vehicle) (budget : Z)
      (w : World) (n : Z) (w' : World) :
  0 <= budget ->
  takeoff_motors_loop fuel vehicle budget w = Some (n, w') ->
  poll_post (motors_not_started vehicle) budget w n w'.
Proof.
  intros Hb. unfold takeoff_motors_loop.
  apply (poll_loop_result _ (motors_not_started vehicle) budget Hb).
  intros; reflexivity.
Qed.

Lemma monitoredTakeoff_acknowledged (fuel : nat) (vehicle : Vehicle) (timeout : Z) (w : World) :
  verify_ack vehicle = SUCCESS ->
  initPackage_status vehicle = true ->
  startPackage_ack vehicle = SUCCESS ->
  takeoff_ack vehicle = SUCCESS ->
  monitoredTakeoff fuel vehicle timeout w
  = takeoff_checks fuel vehicle 0 timeout
      (mkWorld (clock_us w) (trace w ++ setup_events_10Hz ++ [EvTakeoff])).
Proof.
  intros Hv Hi Hs Ht.
  unfold monitoredTakeoff, bind, subscribe_verify, subscribe_initPackageFromTopicList,
    subscribe_startPackage, control_takeoff, emit, ret.
  cbn. rewrite Hv, Hi, Hs, Ht. cbn. rewrite <- !app_assoc. reflexivity.
Qed.

Lemma takeoff_checks_emits (P : Event -> Prop) fuel vehicle pkgIndex timeout :
  P (EvPrint msg_motors_not_spinning) -> P (EvPrint msg_motors_spinning) ->
  P (EvPrint msg_still_on_ground) -> P (EvPrint msg_ascending) ->
  P (EvPrint msg_takeoff_ok) -> P (EvPrint msg_unsubscribe) ->
  P (EvRemovePackage 0) -> P (EvRemovePackage pkgIndex) ->
  emits P (takeoff_checks fuel vehicle pkgIndex timeout).
Proof.
  intros. unfold takeoff_checks. emits_unfold.
  repeat emits_step; try assumption.
  all: unfold getValue_STATUS_DISPLAYMODE; try apply emits_read.
Qed.

Lemma stuck_on_ground_passes_motors_phase :
  (forall t, status_flight vehicle_stuck_on_ground t = ON_GROUND)
  /\ monitoredTakeoff 200 vehicle_stuck_on_ground 1 world0
     = Some (false,
             mkWorld 11000000
               (setup_events_10Hz ++
                [EvTakeoff; EvPrint msg_motors_spinning; EvPrint msg_still_on_ground;
                 EvRemovePackage 0]))
  /\ (forall t, t <= 30 * 100000 -> status_flight vehicle_late_liftoff t = ON_GROUND)
  /\ monitoredTakeoff 200 vehicle_late_liftoff 1 world0
     = Some (true,
             mkWorld 3100000
               (setup_events_10Hz ++
                [EvTakeoff; EvPrint msg_motors_spinning; EvPrint msg_ascending;
                 EvPrint msg_takeoff_ok; EvRemovePackage 0])).
Proof.
  split; [reflexivity|].
  split; [vm_compute; reflexivity|].
  split; [|vm_compute; reflexivity].
  intros t Ht. cbn. destruct (Z.leb_spec t 3000000); [reflexivity | lia].
Qed.

(** ** Helper functions and setpoints *)

Lemma Rlt_bool_true (x y : R) : (x < y)%R -> Rlt_bool x y = true.
Proof. intros H. unfold Rlt_bool. destruct (Rlt_dec x y); [reflexivity | contradiction]. Qed.

Lemma Rlt_bool_false (x y : R) : (y <= x)%R -> Rlt_bool x y = false.
Proof. intros H. unfold Rlt_bool. destruct (Rlt_dec x y); [lra | reflexivity]. Qed.

Lemma Rlt_bool_spec (x y : R) : BoolSpec (x < y)%R (y <= x)%R (Rlt_bool x y).
Proof.
  unfold Rlt_bool. destruct (Rlt_dec x y); constructor; lra.
Qed.

Lemma toEulerAngle_t2_range (q : Quaternion) : (-1 <= toEulerAngle_t2 q <= 1)%R.
Proof.
  unfold toEulerAngle_t2. cbv zeta.
  set (t2 := (-2 * (q1 q * q3 q - q0 q * q2 q))%R).
  destruct (Rlt_bool_spec 1 t2) as [H1|H1].
  - rewrite Rlt_bool_false by lra. lra.
  - destruct (Rlt_bool_spec t2 (-1)); lra.
Qed.

Lemma atan2_0_1 : atan2 0 1 = 0%R.
Proof.
  unfold atan2. destruct (Rlt_dec 0 1) as [_|H]; [|lra].
  replace (0 / 1)%R with 0%R by lra. exact atan_0.
Qed.

Lemma toEulerAngle_identity : toEulerAngle quaternion_identity = mkVector3f 0 0 0.
Proof.
  unfold toEulerAngle, toEulerAngle_t2, quaternion_identity. cbn [q0 q1 q2 q3].
  replace (-2 * (0 * 0 - 1 * 0))%R with 0%R by lra.
  rewrite (Rlt_bool_false 1 0) by lra.
  rewrite (Rlt_bool_false 0 (-1)) by lra.
  replace (2 * (0 * 0 + 1 * 0))%R with 0%R by lra.
  replace (-2 * (0 * 0 + 0 * 0) + 1)%R with 1%R by lra.
  rewrite asin_0, atan2_0_1. reflexivity.
Qed.

(** The two assignments of lines 573-574 clamp the pitch term. *)
Lemma toEulerAngle_t2_clamp (q : Quaternion) :
  toEulerAngle_t2 q = Rmax (-1) (Rmin 1 (-2 * (q1 q * q3 q - q0 q * q2 q)))%R.
Proof.
  unfold toEulerAngle_t2. cbv zeta.
  set (t2 := (-2 * (q1 q * q3 q - q0 q * q2 q))%R).
  destruct (Rlt_bool_spec 1 t2) as [H1|H1].
  - rewrite Rlt_bool_false by lra.
    rewrite (Rmin_left 1 t2) by lra. rewrite Rmax_right by lra. reflexivity.
  - rewrite (Rmin_right 1 t2) by lra.
    destruct (Rlt_bool_spec t2 (-1)) as [H2|H2].
    + rewrite Rmax_left by lra. reflexivity.
    + rewrite Rmax_right by lra. reflexivity.
Qed.

(** On numbers the pitch term over doubles is the one over the reals. *)
Lemma toEulerAngle_t2_double_numbers (q : Quaternion) :
  toEulerAngle_t2_double (Quaternion_numbers q) = Num (toEulerAngle_t2 q).
Proof.
  unfold toEulerAngle_t2_double, toEulerAngle_t2, Quaternion_numbers.
  cbn [d0 d1 d2 d3 Double_mul Double_sub Double_gt]. cbv zeta.
  set (t2 := (-2 * (q1 q * q3 q - q0 q * q2 q))%R).
  destruct (Rlt_bool 1 t2); cbn [Double_lt];
    match goal with |- context [Rlt_bool ?a ?b] => destruct (Rlt_bool a b) end;
    reflexivity.
Qed.

(** The pitch term of a unit quaternion needs no clamping. *)
Lemma unit_quaternion_t2_range (q : Quaternion) :
  (q0 q * q0 q + q1 q * q1 q + q2 q * q2 q + q3 q * q3 q = 1)%R ->
  (-1 <= -2 * (q1 q * q3 q - q0 q * q2 q) <= 1)%R.
Proof.
  intros Hunit.
  pose proof (Rle_0_sqr (q1 q - q3 q)) as H1. pose proof (Rle_0_sqr (q1 q + q3 q)) as H2.
  pose proof (Rle_0_sqr (q0 q - q2 q)) as H3. pose proof (Rle_0_sqr (q0 q + q2 q)) as H4.
  unfold Rsqr in *. lra.
Qed.

(** C8, as amended: [toEulerAngle] maps the identity quaternion to three
    zero angles.  For every quaternion whose four fields are numbers, the
    value passed to [asin] is the pitch term [-2 (q1 q3 - q0 q2)] clamped to
    [-1, 1]: it lies in the domain of [asin], and it is the pitch term itself
    when that lies in [-1, 1], as it does for every unit quaternion.  When a
    field is NaN, the pitch term is NaN, the two comparisons of the clamp
    are false, and NaN is passed to [asin]. *)
Theorem toEulerAngle_identity_and_clamp :
  toEulerAngle (mkQuaternion 1 0 0 0) = mkVector3f 0 0 0
  /\ (forall q : Quaternion,
        let t2 := (-2 * (q1 q * q3 q - q0 q * q2 q))%R in
        toEulerAngle_t2_double (Quaternion_numbers q) = Num (Rmax (-1) (Rmin 1 t2))
        /\ vx (toEulerAngle q) = asin (Rmax (-1) (Rmin 1 t2))
        /\ (-1 <= Rmax (-1) (Rmin 1 t2) <= 1)%R
        /\ ((-1 <= t2 <= 1)%R -> vx (toEulerAngle q) = asin t2)
        /\ ((q0 q * q0 q + q1 q * q1 q + q2 q * q2 q + q3 q * q3 q = 1)%R ->
            vx (toEulerAngle q) = asin t2))
  /\ (forall q : QuaternionData,
        d0 q = NaN \/ d1 q = NaN \/ d2 q = NaN \/ d3 q = NaN ->
        toEulerAngle_t2_double q = NaN).
Proof.
  split; [exact toEulerAngle_identity|]. split.
  - intros q t2.
    assert (Hx : vx (toEulerAngle q) = asin (Rmax (-1) (Rmin 1 t2))).
    { unfold toEulerAngle, t2. cbn [vx]. rewrite toEulerAngle_t2_clamp. reflexivity. }
    assert (Hin : forall x : R, (-1 <= x <= 1)%R -> Rmax (-1) (Rmin 1 x) = x).
    { intros x Hr. rewrite Rmin_right by lra. apply Rmax_right. lra. }
    split; [unfold t2; rewrite toEulerAngle_t2_double_numbers, toEulerAngle_t2_clamp;
            reflexivity|].
    split; [exact Hx|].
    split.
    { unfold t2. rewrite <- toEulerAngle_t2_clamp. apply toEulerAngle_t2_range. }
    split.
    + intros Hr. rewrite Hx, (Hin t2 Hr). reflexivity.
    + intros Hunit. rewrite Hx, (Hin t2 (unit_quaternion_t2_range q Hunit)). reflexivity.
  - intros [a b c d] H. cbn [d0 d1 d2 d3] in H. unfold toEulerAngle_t2_double.
    cbn [d0 d1 d2 d3].
    destruct H as [-> | [-> | [-> | ->]]];
      repeat match goal with
             | x : Double |- _ => destruct x
             end; reflexivity.
Qed.

(** With the field [q1] not a number, what reaches [asin] is NaN, not a
    number of [-1, 1]. *)
Lemma nan_component_is_not_clamped :
  toEulerAngle_t2_double (mkQuaternionData (Num 1) NaN (Num 0) (Num 0)) = NaN
  /\ ~ (exists r : R,
          toEulerAngle_t2_double (mkQuaternionData (Num 1) NaN (Num 0) (Num 0)) = Num r
          /\ (-1 <= r <= 1)%R).
Proof.
  split; [reflexivity|]. intros (r & H & _). discriminate H.
Qed.

Lemma initialCmd_spec (d : R) :
  ((Rabs d < 2)%R -> initialCmd speedFactor d = d)
  /\ ((2 <= d)%R -> initialCmd speedFactor d = 2%R)
  /\ ((d <= -2)%R -> initialCmd speedFactor d = (-2)%R)
  /\ (d = 0%R -> initialCmd speedFactor d = 0%R).
Proof.
  unfold initialCmd, speedFactor. cbn [Z.mul Z.opp Pos.mul].
  change (IZR (-1 * 2)) with (-2)%R.
  repeat split; intros H.
  - apply Rabs_def2 in H.
    destruct (Rlt_bool_spec 0 d).
    + rewrite Rlt_bool_true by lra. reflexivity.
    + destruct (Rlt_bool_spec d 0).
      * rewrite Rlt_bool_true by lra. reflexivity.
      * lra.
  - rewrite (Rlt_bool_true 0 d) by lra. rewrite Rlt_bool_false by lra. reflexivity.
  - rewrite (Rlt_bool_false 0 d) by lra. rewrite (Rlt_bool_true d 0) by lra.
    rewrite Rlt_bool_false by lra. reflexivity.
  - subst d. rewrite !(Rlt_bool_false 0 0) by lra. reflexivity.
Qed.

(** C7: the initial x command is the desired x offset when its magnitude is
    below [speedFactor], [speedFactor] when the offset is at least that,
    [- speedFactor] when it is at most the opposite, and 0 for a zero offset;
    likewise for y; the z command is the current altitude plus the desired z
    offset; the x command does not depend on the other inputs, nor does the
    y command. *)
Theorem initialSetpoint_clamps_x_and_y_only :
  forall (xOffsetDesired yOffsetDesired zOffsetDesired : R) (currentGPS : GPSFused),
    let '(xCmd, yCmd, zCmd) :=
      initialSetpoint speedFactor xOffsetDesired yOffsetDesired zOffsetDesired currentGPS in
    (((Rabs xOffsetDesired < IZR speedFactor)%R -> xCmd = xOffsetDesired)
     /\ ((IZR speedFactor <= xOffsetDesired)%R -> xCmd = IZR speedFactor)
     /\ ((xOffsetDesired <= - IZR speedFactor)%R -> xCmd = (- IZR speedFactor)%R)
     /\ (xOffsetDesired = 0%R -> xCmd = 0%R))
    /\ (((Rabs yOffsetDesired < IZR speedFactor)%R -> yCmd = yOffsetDesired)
        /\ ((IZR speedFactor <= yOffsetDesired)%R -> yCmd = IZR speedFactor)
        /\ ((yOffsetDesired <= - IZR speedFactor)%R -> yCmd = (- IZR speedFactor)%R)
        /\ (yOffsetDesired = 0%R -> yCmd = 0%R))
    /\ zCmd = (altitude currentGPS + zOffsetDesired)%R
    /\ (forall y' z' gps',
           fst (fst (initialSetpoint speedFactor xOffsetDesired y' z' gps')) = xCmd)
    /\ (forall x' z' gps',
           snd (fst (initialSetpoint speedFactor x' yOffsetDesired z' gps')) = yCmd).
Proof.
  intros xd yd zd gps. unfold initialSetpoint.
  change (IZR speedFactor) with 2%R.
  split; [exact (initialCmd_spec xd)|].
  split; [exact (initialCmd_spec yd)|].
  split; [reflexivity|]. split; reflexivity.
Qed.

(** ** The control loop of moveByPositionOffset *)

Section PositionControlProperties.

Variables DEG2RAD C_EARTH : R.
Variables xOffsetDesired yOffsetDesired zOffsetDesired yawDesired : R.
Variables posThresholdInM yawThresholdInDeg : R.

Local Abbreviation remaining :=
  (offsetRemaining C_EARTH xOffsetDesired yOffsetDesired zOffsetDesired).
Local Abbreviation inBounds :=
  (cycleInBounds DEG2RAD C_EARTH xOffsetDesired yOffsetDesired zOffsetDesired
                 yawDesired posThresholdInM yawThresholdInDeg).
Local Abbreviation cycle :=
  (controlCycle DEG2RAD C_EARTH xOffsetDesired yOffsetDesired zOffsetDesired
                yawDesired posThresholdInM yawThresholdInDeg).
Local Abbreviation loop :=
  (controlLoop DEG2RAD C_EARTH xOffsetDesired yOffsetDesired zOffsetDesired
               yawDesired posThresholdInM yawThresholdInDeg).
Local Abbreviation move :=
  (moveByPositionOffset DEG2RAD C_EARTH xOffsetDesired yOffsetDesired zOffsetDesired
                        yawDesired posThresholdInM yawThresholdInDeg).

Local Abbreviation reachable :=
  (reachable DEG2RAD C_EARTH xOffsetDesired yOffsetDesired zOffsetDesired
     yawDesired posThresholdInM yawThresholdInDeg).
Local Abbreviation reachable_init :=
  (reachable_init DEG2RAD C_EARTH xOffsetDesired yOffsetDesired zOffsetDesired
     yawDesired posThresholdInM yawThresholdInDeg).
Local Abbreviation reachable_step :=
  (reachable_step DEG2RAD C_EARTH xOffsetDesired yOffsetDesired zOffsetDesired
     yawDesired posThresholdInM yawThresholdInDeg).
Local Abbreviation is_positionCmd := (is_positionCmd DEG2RAD yawDesired).
Local Abbreviation ran_cycles := (ran_cycles DEG2RAD yawDesired).
Local Abbreviation loop_inv :=
  (loop_inv DEG2RAD C_EARTH xOffsetDesired yOffsetDesired zOffsetDesired
     yawDesired posThresholdInM yawThresholdInDeg).
Local Abbreviation loop_post :=
  (loop_post DEG2RAD C_EARTH xOffsetDesired yOffsetDesired zOffsetDesired
     yawDesired posThresholdInM yawThresholdInDeg).

Lemma cycle_fields (originGPS : GPSFused) (s : LoopState) (q : Quaternion)
      (currentGPS : GPSFused) :
  let s' := loop_state (cycle originGPS s q currentGPS) in
  let wo := updateCounters cycleTimeInMs outOfControlBoundsTimeLimit
              (inBounds originGPS q currentGPS)
              (withinBoundsCounter s) (outOfBounds s) in
  elapsedTimeInMs s' = elapsedTimeInMs s + cycleTimeInMs
  /\ withinBoundsCounter s' = fst wo
  /\ outOfBounds s' = snd wo
  /\ xCmd s' = updateCmd speedFactor (vx (remaining originGPS currentGPS)) (xCmd s)
  /\ yCmd s' = updateCmd speedFactor (vy (remaining originGPS currentGPS)) (yCmd s)
  /\ (withinControlBoundsTimeReqmt <= withinBoundsCounter s' <->
      cycle originGPS s q currentGPS = Break s')
  /\ (withinBoundsCounter s' < withinControlBoundsTimeReqmt <->
      cycle originGPS s q currentGPS = Continue s').
Proof.
  cbv zeta. unfold controlCycle.
  destruct (updateCounters _ _ _ _ _) as [w o]. cbv zeta. cbn [fst snd].
  destruct (Z.geb_spec w withinControlBoundsTimeReqmt) as [Hge|Hlt]; cbn [loop_state];
    cbn [elapsedTimeInMs withinBoundsCounter outOfBounds xCmd yCmd];
    repeat split; try reflexivity; try lia; try discriminate; intros; lia.
Qed.

Lemma updateCounters_ok (b : bool) (w o : Z) :
  0 <= w < withinControlBoundsTimeReqmt ->
  0 <= o <= outOfControlBoundsTimeLimit ->
  let wo := updateCounters cycleTimeInMs outOfControlBoundsTimeLimit b w o in
  0 <= fst wo <= withinControlBoundsTimeReqmt + cycleTimeInMs
  /\ 0 <= snd wo <= outOfControlBoundsTimeLimit.
Proof.
  unfold updateCounters, accumulateCounters, resetCounters,
    withinControlBoundsTimeReqmt, outOfControlBoundsTimeLimit, cycleTimeInMs,
    controlFreqInHz.
  change (Z.quot 1000 50) with 20. intros Hw Ho. cbv zeta.
  destruct b; [|destruct (w =? 0); cbn [negb]];
    match goal with |- context [ (?x >? ?y) ] => destruct (Z.gtb_spec x y) end;
    cbn [fst snd]; lia.
Qed.

Lemma reachable_counters_ok (originGPS : GPSFused) (s : LoopState) :
  reachable originGPS s -> counters_ok s.
Proof.
  induction 1 as [xc yc | s q gps s' Hs IH Hlt Hc].
  - unfold counters_ok. cbn. repeat split; try (vm_compute; congruence).
    exists 0. split; [lia | reflexivity].
  - destruct IH as (Hw & Ho & n & Hn & He).
    destruct (cycle_fields originGPS s q gps) as (E & W & O & _ & _ & _ & HC).
    rewrite Hc in E, W, O, HC. cbn [loop_state] in E, W, O, HC.
    destruct (updateCounters_ok (inBounds originGPS q gps) _ _ Hw Ho) as [Hw' Ho'].
    rewrite <- W in Hw'. rewrite <- O in Ho'.
    assert (Hlt' : withinBoundsCounter s' < withinControlBoundsTimeReqmt)
      by (apply HC; reflexivity).
    unfold counters_ok. split; [lia|]. split; [lia|].
    exists (n + 1). unfold timeoutInMilSec in Hlt.
    change cycleTimeInMs with 20 in *. lia.
Qed.

(** No [int] of the loop leaves the range of 32 bits. *)
Lemma control_loop_counters_in_int_range (originGPS : GPSFused) (s : LoopState)
      (q : Quaternion) (currentGPS : GPSFused) :
  reachable originGPS s ->
  elapsedTimeInMs s < timeoutInMilSec ->
  let s' := loop_state (cycle originGPS s q currentGPS) in
  0 <= elapsedTimeInMs s' <= timeoutInMilSec
  /\ 0 <= withinBoundsCounter s' < 2 ^ 31
  /\ 0 <= outOfBounds s' < 2 ^ 31.
Proof.
  intros Hs Hlt s'.
  destruct (reachable_counters_ok originGPS s Hs) as (Hw & Ho & n & Hn & He).
  destruct (cycle_fields originGPS s q currentGPS) as (E & W & O & _).
  destruct (updateCounters_ok (inBounds originGPS q currentGPS) _ _ Hw Ho) as [Hw' Ho'].
  fold s' in E, W, O. rewrite <- W in Hw'. rewrite <- O in Ho'.
  unfold withinControlBoundsTimeReqmt, outOfControlBoundsTimeLimit, timeoutInMilSec in *.
  change cycleTimeInMs with 20 in *. lia.
Qed.

(** C4: at every head state of the control loop both counters are
    non-negative, and so are they after the cycle run from it; in the cycle
    [outOfBounds] is increased only if [withinBoundsCounter] was not zero
    (and the cycle was out of bounds); when the accumulated [outOfBounds]
    exceeds the limit of 10 cycles both counters are zero at the end of the
    cycle, and otherwise they keep their accumulated values. *)
Theorem convergence_counters_invariant :
  forall (originGPS : GPSFused) (s : LoopState) (q : Quaternion) (currentGPS : GPSFused),
    reachable originGPS s ->
    let s' := loop_state (cycle originGPS s q currentGPS) in
    let accumulated :=
      accumulateCounters cycleTimeInMs (inBounds originGPS q currentGPS)
                         (withinBoundsCounter s) (outOfBounds s) in
    (0 <= withinBoundsCounter s /\ 0 <= outOfBounds s)
    /\ (0 <= withinBoundsCounter s' /\ 0 <= outOfBounds s')
    /\ (outOfBounds s < snd accumulated ->
        withinBoundsCounter s <> 0 /\ inBounds originGPS q currentGPS = false)
    /\ (outOfControlBoundsTimeLimit < snd accumulated ->
        withinBoundsCounter s' = 0 /\ outOfBounds s' = 0)
    /\ (snd accumulated <= outOfControlBoundsTimeLimit ->
        withinBoundsCounter s' = fst accumulated /\ outOfBounds s' = snd accumulated).
Proof.
  intros originGPS s q gps Hs s' acc.
  destruct (reachable_counters_ok originGPS s Hs) as (Hw & Ho & _).
  destruct (cycle_fields originGPS s q gps) as (_ & W & O & _).
  destruct (updateCounters_ok (inBounds originGPS q gps) _ _ Hw Ho) as [Hw' Ho'].
  fold s' in W, O. rewrite <- W in Hw'. rewrite <- O in Ho'.
  split; [lia|]. split; [lia|].
  unfold updateCounters in W, O. fold acc in W, O.
  subst acc. unfold accumulateCounters, resetCounters in *.
  change cycleTimeInMs with 20 in *.
  destruct (inBounds originGPS q gps); [|destruct (Z.eqb_spec (withinBoundsCounter s) 0)];
    cbn [negb fst snd] in *;
    match type of W with context [ (?x >? ?y) ] => destruct (Z.gtb_spec x y) end;
    cbn [fst snd] in *; repeat split; try lia; try reflexivity; try congruence.
Qed.

(** C10: in a cycle the x command becomes the remaining x offset when the
    magnitude of that offset is below [speedFactor], and keeps its previous
    value otherwise, whatever that value was; likewise for y. *)
Theorem setpoint_update_only_in_precision_mode :
  forall (originGPS : GPSFused) (s : LoopState) (q : Quaternion) (currentGPS : GPSFused),
    let s' := loop_state (cycle originGPS s q currentGPS) in
    let xOffsetRemaining := vx (remaining originGPS currentGPS) in
    let yOffsetRemaining := vy (remaining originGPS currentGPS) in
    ((Rabs xOffsetRemaining < IZR speedFactor)%R -> xCmd s' = xOffsetRemaining)
    /\ ((IZR speedFactor <= Rabs xOffsetRemaining)%R -> xCmd s' = xCmd s)
    /\ ((Rabs yOffsetRemaining < IZR speedFactor)%R -> yCmd s' = yOffsetRemaining)
    /\ ((IZR speedFactor <= Rabs yOffsetRemaining)%R -> yCmd s' = yCmd s).
Proof.
  intros originGPS s q gps s' xr yr.
  destruct (cycle_fields originGPS s q gps) as (_ & _ & _ & X & Y & _).
  fold s' in X, Y. fold xr in X. fold yr in Y. rewrite X, Y. unfold updateCmd.
  repeat split; intros H;
    first [ rewrite Rlt_bool_true by exact H | rewrite Rlt_bool_false by exact H ];
    reflexivity.
Qed.

(** *** The loop as a whole *)

Lemma controlLoop_body (vehicle : Vehicle) (originGPS : GPSFused) (zCmd : R)
      (s : LoopState) (w : World) :
  (control_positionAndYawCtrl (xCmd s) (yCmd s) zCmd (yawCmd DEG2RAD yawDesired) ;;;
   usleep (cycleTimeInMs * 1000) ;;;
   q <- getValue_QUATERNION vehicle ;;
   currentGPS <- getValue_GPS_FUSED vehicle ;;
   ret (cycle originGPS s q currentGPS)) w
  = Some (cycle originGPS s
            (quaternion vehicle (clock_us w + cycleTimeInMs * 1000))
            (gps_fused vehicle (clock_us w + cycleTimeInMs * 1000)),
          mkWorld (clock_us w + cycleTimeInMs * 1000)
                  (trace w ++ [EvPositionAndYawCtrl (xCmd s) (yCmd s) zCmd
                                 (yawCmd DEG2RAD yawDesired)])).
Proof. reflexivity. Qed.

Lemma ran_cycles_step (zCmd : R) (w0 : World) (n : Z) (s s' : LoopState)
      (w : World) (x y : R) :
  0 <= n ->
  ran_cycles zCmd w0 n s w ->
  elapsedTimeInMs s' = elapsedTimeInMs s + cycleTimeInMs ->
  ran_cycles zCmd w0 (n + 1) s'
    (mkWorld (clock_us w + cycleTimeInMs * 1000)
             (trace w ++ [EvPositionAndYawCtrl x y zCmd (yawCmd DEG2RAD yawDesired)])).
Proof.
  intros Hn (He & Hc & cmds & Ht & Hl & Hf) He'.
  split; [rewrite He', He; ring|].
  split; [cbn [clock_us]; rewrite Hc; ring|].
  exists (cmds ++ [EvPositionAndYawCtrl x y zCmd (yawCmd DEG2RAD yawDesired)]).
  cbn [trace]. split; [rewrite Ht; symmetry; apply app_assoc|].
  split.
  - rewrite length_app. cbn [List.length]. lia.
  - apply Forall_app. split; [exact Hf|].
    constructor; [|constructor]. exists x, y. reflexivity.
Qed.

Lemma controlLoop_returns (extra : nat) (vehicle : Vehicle) (originGPS : GPSFused)
      (zCmd xCmd0 yCmd0 : R) (w0 : World) :
  exists s w,
    loop (501 + extra)%nat vehicle originGPS zCmd (mkLoopState 0 0 0 xCmd0 yCmd0) w0
    = Some (s, w)
    /\ loop_post originGPS zCmd w0 s w.
Proof.
  unfold controlLoop.
  apply (while_total _ _ (fun s _ => elapsedTimeInMs s <? timeoutInMilSec)
           (fun s w => eq_refl) (loop_inv originGPS zCmd w0)
           (loop_post originGPS zCmd w0)
           (fun s => Z.to_nat ((timeoutInMilSec - elapsedTimeInMs s) / cycleTimeInMs))).
  - intros s w (Hr & n & Hn & Hran) Hc. apply Z.ltb_lt in Hc.
    rewrite controlLoop_body.
    set (q := quaternion vehicle _). set (gps := gps_fused vehicle _).
    eexists _, _. split; [reflexivity|].
    destruct (cycle_fields originGPS s q gps) as (E & _ & _ & _ & _ & HB & HC).
    destruct (reachable_counters_ok originGPS s Hr) as (_ & _ & m & Hm & Em).
    assert (Hnm : n = m).
    { destruct Hran as (En & _). rewrite En in Em. change cycleTimeInMs with 20 in Em. lia. }
    subst m.
    destruct (cycle originGPS s q gps) as [s'|s'] eqn:Hcyc; cbn [loop_state] in E, HB, HC.
    + split.
      * split; [exact (reachable_step originGPS s q gps s' Hr Hc Hcyc)|].
        exists (n + 1). split; [lia|].
        exact (ran_cycles_step zCmd w0 n s s' w _ _ Hn Hran E).
      * change cycleTimeInMs with 20 in *. unfold timeoutInMilSec in *.
        Z.div_mod_to_equations. lia.
    + split; [|split].
      * exists (n + 1). split.
        -- unfold timeoutInMilSec in Hc. destruct Hran as (En & _).
           change cycleTimeInMs with 20 in En. lia.
        -- exact (ran_cycles_step zCmd w0 n s s' w _ _ Hn Hran E).
      * exists s, q, gps. rewrite Hcyc. auto.
      * left. split; [apply HB; reflexivity|].
        destruct Hran as (En & _). change cycleTimeInMs with 20 in *.
        unfold timeoutInMilSec in *. lia.
  - intros s w (Hr & n & Hn & Hran) Hc. apply Z.ltb_ge in Hc.
    destruct (reachable_counters_ok originGPS s Hr) as (Hw & _ & m & Hm & Em).
    assert (Hnm : n = m).
    { destruct Hran as (En & _). rewrite En in Em. change cycleTimeInMs with 20 in Em. lia. }
    subst m.
    assert (He : elapsedTimeInMs s = timeoutInMilSec).
    { change cycleTimeInMs with 20 in Em. unfold timeoutInMilSec in *. lia. }
    split; [|split].
    + exists n. split; [|exact Hran].
      change cycleTimeInMs with 20 in Em. unfold timeoutInMilSec in *. lia.
    + inversion Hr as [xc yc Hs | s0 q gps s1 Hr0 Hlt Hcyc Hs].
      * subst s. cbn in He. discriminate He.
      * exists s0, q, gps. rewrite Hcyc. auto.
    + right. split; [lia | exact He].
  - split; [apply reachable_init|].
    exists 0. split; [lia|]. split; [reflexivity|]. split; [cbn; lia|].
    exists []. split; [symmetry; apply app_nil_r|]. split; [reflexivity | constructor].
  - cbn [elapsedTimeInMs]. change ((timeoutInMilSec - 0) / cycleTimeInMs) with 500. lia.
Qed.

Lemma brakeLoop_returns (extra : nat) (w : World) :
  brakeLoop (51 + extra) w
  = Some (withinControlBoundsTimeReqmt,
          mkWorld (clock_us w + 50 * cycleTimeInMs)
                  (trace w ++ repeat EvEmergencyBrake 50)).
Proof.
  pose (inv := fun (b : Z) (w' : World) =>
                 exists k : nat,
                   (k <= 50)%nat /\ b = cycleTimeInMs * Z.of_nat k
                   /\ w' = mkWorld (clock_us w + Z.of_nat k * cycleTimeInMs)
                                   (trace w ++ repeat EvEmergencyBrake k)).
  pose (post := fun (b : Z) (w' : World) =>
                  b = withinControlBoundsTimeReqmt
                  /\ w' = mkWorld (clock_us w + 50 * cycleTimeInMs)
                                  (trace w ++ repeat EvEmergencyBrake 50)).
  destruct (while_total
              (fun brakeCounter => ret (brakeCounter <? withinControlBoundsTimeReqmt))
              (fun brakeCounter =>
                 control_emergencyBrake ;;;
                 usleep cycleTimeInMs ;;;
                 ret (Continue (brakeCounter + cycleTimeInMs)))
              (fun b _ => b <? withinControlBoundsTimeReqmt)
              (fun b w' => eq_refl) inv post
              (fun b => Z.to_nat ((withinControlBoundsTimeReqmt - b) / cycleTimeInMs)))
    with (fuel := (51 + extra)%nat) (s := 0) (w := w) as (b & w' & Hrun & Hb & Hw).
  - intros b w1 (k & Hk & Hb & Hw) Hc. apply Z.ltb_lt in Hc.
    eexists _, _. split; [reflexivity|]. cbv beta iota. split.
    + exists (S k). change cycleTimeInMs with 20 in *.
      unfold withinControlBoundsTimeReqmt in Hc. change cycleTimeInMs with 20 in Hc.
      split; [lia|]. split; [lia|].
      subst w1. cbn [clock_us trace]. f_equal; [lia|].
      rewrite <- app_assoc. f_equal.
      change [EvEmergencyBrake] with (repeat EvEmergencyBrake 1).
      rewrite <- repeat_app. f_equal. lia.
    + change cycleTimeInMs with 20 in *. unfold withinControlBoundsTimeReqmt in *.
      change cycleTimeInMs with 20 in *. Z.div_mod_to_equations. lia.
  - intros b w1 (k & Hk & Hb & Hw) Hc. apply Z.ltb_ge in Hc.
    unfold withinControlBoundsTimeReqmt in *. change cycleTimeInMs with 20 in *.
    assert (k = 50%nat) as -> by lia.
    split; [lia | exact Hw].
  - exists 0%nat. split; [lia|]. split; [reflexivity|].
    destruct w; cbn. f_equal; [lia | symmetry; apply app_nil_r].
  - change ((withinControlBoundsTimeReqmt - 0) / cycleTimeInMs) with 50. lia.
  - unfold brakeLoop. rewrite Hrun, Hb, Hw. reflexivity.
Qed.

Lemma removePackage_warn_run (vehicle : Vehicle) (timeout : Z) (w : World) :
  removePackage_warn vehicle 0 timeout w
  = Some (tt, mkWorld (clock_us w) (trace w ++ removal_events vehicle)).
Proof.
  unfold removePackage_warn, removal_events, subscribe_removePackage, cout, bind, emit, ret.
  destruct (removePackage_ack vehicle); cbn; [reflexivity|].
  rewrite <- app_assoc. reflexivity.
Qed.

Lemma moveByPositionOffset_acknowledged (fuel : nat) (vehicle : Vehicle) (w : World) :
  verify_ack vehicle = SUCCESS ->
  initPackage_status vehicle = true ->
  startPackage_ack vehicle = SUCCESS ->
  move fuel vehicle w
  = moveByPositionOffset_started DEG2RAD C_EARTH xOffsetDesired yOffsetDesired
      zOffsetDesired yawDesired posThresholdInM yawThresholdInDeg fuel vehicle 0 1
      (mkWorld (clock_us w) (trace w ++ setup_events_50Hz)).
Proof.
  intros Hv Hi Hs.
  unfold moveByPositionOffset, bind, subscribe_verify, subscribe_initPackageFromTopicList,
    subscribe_startPackage, emit, ret.
  cbn. rewrite Hv, Hi, Hs. cbn. rewrite <- !app_assoc. reflexivity.
Qed.

(** What a call does once its package is started. *)
Lemma moveByPositionOffset_run (extra : nat) (vehicle : Vehicle) (w : World) :
  verify_ack vehicle = SUCCESS ->
  initPackage_status vehicle = true ->
  startPackage_ack vehicle = SUCCESS ->
  let originGPS := gps_fused vehicle (clock_us w + 1 * 1000000) in
  let zCmd := (altitude originGPS + zOffsetDesired)%R in
  exists (s : LoopState) (n : Z) (cmds : list Event) (r : IntReturn) (w' : World),
    move (501 + extra)%nat vehicle w = Some (r, w')
    /\ (exists w2,
           loop (501 + extra)%nat vehicle originGPS zCmd
                (mkLoopState 0 0 0 (initialCmd speedFactor xOffsetDesired)
                             (initialCmd speedFactor yOffsetDesired))
                (mkWorld (clock_us w + 1 * 1000000) (trace w ++ setup_events_50Hz))
           = Some (s, w2))
    /\ 1 <= n <= 500
    /\ elapsedTimeInMs s = cycleTimeInMs * n
    /\ Z.of_nat (List.length cmds) = n
    /\ Forall (is_positionCmd zCmd) cmds
    /\ (exists s0 q currentGPS,
           reachable originGPS s0 /\ elapsedTimeInMs s0 < timeoutInMilSec
           /\ s = loop_state (cycle originGPS s0 q currentGPS))
    /\ ((withinControlBoundsTimeReqmt <= withinBoundsCounter s
         /\ elapsedTimeInMs s < timeoutInMilSec
         /\ r = ret_ACK SUCCESS
         /\ trace w' = trace w ++ setup_events_50Hz ++ cmds
                       ++ repeat EvEmergencyBrake 50 ++ removal_events vehicle)
        \/ (elapsedTimeInMs s = timeoutInMilSec
            /\ r = ret_ACK FAIL
            /\ trace w' = trace w ++ setup_events_50Hz ++ cmds
                          ++ repeat EvEmergencyBrake 50
                          ++ EvPrint msg_task_timeout :: removal_events vehicle)).
Proof.
  intros Hv Hi Hs originGPS zCmd.
  rewrite (moveByPositionOffset_acknowledged _ _ _ Hv Hi Hs).
  unfold moveByPositionOffset_started, initialSetpoint.
  cbv beta iota delta [bind sleep usleep getValue_GPS_FUSED].
  cbn [clock_us trace]. fold originGPS. fold zCmd.
  destruct (controlLoop_returns extra vehicle originGPS zCmd
              (initialCmd speedFactor xOffsetDesired)
              (initialCmd speedFactor yOffsetDesired)
              (mkWorld (clock_us w + 1 * 1000000) (trace w ++ setup_events_50Hz)))
    as (s & w2 & Hloop & (n & Hn & He & Hclk & cmds & Htr & Hlen & Hcmds) & Hfrom & Hexit).
  rewrite Hloop.
  change (brakeLoop (501 + extra)%nat) with (brakeLoop (51 + (450 + extra))%nat).
  rewrite brakeLoop_returns. cbn [trace] in Htr.
  exists s, n, cmds.
  destruct (Z.geb_spec (elapsedTimeInMs s) timeoutInMilSec) as [Hge|Hlt].
  - unfold cout, emit. rewrite removePackage_warn_run. cbn [clock_us trace].
    eexists _, _. split; [reflexivity|].
    split; [exists w2; reflexivity|].
    repeat (split; [assumption|]). right.
    split; [destruct Hexit as [[_ Hle]|[_ Heq]]; lia|].
    split; [reflexivity|].
    cbn [trace]. rewrite Htr. rewrite <- !app_assoc. reflexivity.
  - rewrite removePackage_warn_run. cbn [clock_us trace].
    eexists _, _. split; [reflexivity|].
    split; [exists w2; reflexivity|].
    repeat (split; [assumption|]). left.
    split; [destruct Hexit as [[Hw _]|[_ Heq]]; lia|].
    split; [exact Hlt|]. split; [reflexivity|].
    cbn [trace]. rewrite Htr. rewrite <- !app_assoc. reflexivity.
Qed.

(** C6: once the package is started, every run of [moveByPositionOffset]
    ends, on success and on timeout alike, with the position commands of
    the loop, then 50 brake commands (the dwell requirement in cycles), then
    only the timeout message, if any, and the removal of the package. *)
Theorem brake_before_return :
  forall (extra : nat) (vehicle : Vehicle) (w : World),
    verify_ack vehicle = SUCCESS ->
    initPackage_status vehicle = true ->
    startPackage_ack vehicle = SUCCESS ->
    exists (r : IntReturn) (w' : World) (cmds finish : list Event),
      move (501 + extra)%nat vehicle w = Some (r, w')
      /\ trace w' = trace w ++ setup_events_50Hz ++ cmds
                    ++ repeat EvEmergencyBrake
                         (Z.to_nat (withinControlBoundsTimeReqmt / cycleTimeInMs))
                    ++ finish
      /\ (0 < Z.to_nat (withinControlBoundsTimeReqmt / cycleTimeInMs))%nat
      /\ Forall (fun e => exists x y z yaw, e = EvPositionAndYawCtrl x y z yaw) cmds
      /\ ((r = ret_ACK SUCCESS /\ finish = removal_events vehicle)
          \/ (r = ret_ACK FAIL
              /\ finish = EvPrint msg_task_timeout :: removal_events vehicle)).
Proof.
  intros extra vehicle w Hv Hi Hs.
  destruct (moveByPositionOffset_run extra vehicle w Hv Hi Hs)
    as (s & n & cmds & r & w' & Hrun & _ & _ & _ & _ & Hcmds & _ & Hexit).
  change (Z.to_nat (withinControlBoundsTimeReqmt / cycleTimeInMs)) with 50%nat.
  assert (Hc : Forall (fun e => exists x y z yaw, e = EvPositionAndYawCtrl x y z yaw) cmds).
  { eapply Forall_impl; [|exact Hcmds]. intros e (x & y & He). eauto. }
  destruct Hexit as [(_ & _ & Hr & Htr) | (_ & Hr & Htr)].
  - exists r, w', cmds, (removal_events vehicle).
    split; [exact Hrun|]. split; [exact Htr|]. split; [lia|]. split; [exact Hc|].
    left. auto.
  - exists r, w', cmds, (EvPrint msg_task_timeout :: removal_events vehicle).
    split; [exact Hrun|]. split; [exact Htr|]. split; [lia|]. split; [exact Hc|].
    right. auto.
Qed.

Lemma yawCmd_is_yawDesired : DEG2RAD <> 0%R -> yawCmd DEG2RAD yawDesired = yawDesired.
Proof. intros H. unfold yawCmd, yawDesiredRad. field. exact H. Qed.

(** C9, as amended: the two degree inputs are converted to radians once,
    by a multiplication with [DEG2RAD]; the yaw comparison of a cycle is
    between the yaw of [toEulerAngle], less the desired yaw in radians, and
    the threshold in radians; and the yaw sent with every position command
    is the desired yaw in degrees, as it was passed in. *)
Theorem yaw_command_in_degrees_comparison_in_radians :
  forall (extra : nat) (vehicle : Vehicle) (w : World),
    DEG2RAD <> 0%R ->
    verify_ack vehicle = SUCCESS ->
    initPackage_status vehicle = true ->
    startPackage_ack vehicle = SUCCESS ->
    (yawDesiredRad DEG2RAD yawDesired = (DEG2RAD * yawDesired)%R
     /\ yawThresholdInRad DEG2RAD yawThresholdInDeg = (DEG2RAD * yawThresholdInDeg)%R)
    /\ (forall xRemaining yRemaining zRemaining q,
           withinBounds DEG2RAD yawDesired posThresholdInM yawThresholdInDeg
                        xRemaining yRemaining zRemaining q = true ->
           (Rabs (vz (toEulerAngle q) - DEG2RAD * yawDesired)
            < DEG2RAD * yawThresholdInDeg)%R)
    /\ exists (r : IntReturn) (w' : World) (cmds finish : list Event),
        move (501 + extra)%nat vehicle w = Some (r, w')
        /\ trace w' = trace w ++ setup_events_50Hz ++ cmds ++ finish
        /\ cmds <> []
        /\ Forall (fun e => exists x y z, e = EvPositionAndYawCtrl x y z yawDesired) cmds
        /\ Forall (fun e => forall x y z yaw, e <> EvPositionAndYawCtrl x y z yaw) finish.
Proof.
  intros extra vehicle w HD Hv Hi Hs.
  split; [split; reflexivity|]. split.
  - intros xr yr zr q H. unfold withinBounds in H.
    apply andb_true_iff in H. destruct H as [_ H].
    unfold yawError, yawThresholdInRad, yawDesiredRad in H. cbv zeta in H.
    destruct (Rlt_bool_spec (Rabs (vz (toEulerAngle q) - DEG2RAD * yawDesired))
                            (DEG2RAD * yawThresholdInDeg)); [assumption | discriminate].
  - destruct (moveByPositionOffset_run extra vehicle w Hv Hi Hs)
      as (s & n & cmds & r & w' & Hrun & _ & Hn & _ & Hlen & Hcmds & _ & Hexit).
    assert (Hc : Forall (fun e => exists x y z, e = EvPositionAndYawCtrl x y z yawDesired) cmds).
    { eapply Forall_impl; [|exact Hcmds]. intros e (x & y & He).
      rewrite (yawCmd_is_yawDesired HD) in He. eauto. }
    assert (Hne : cmds <> []).
    { intros ->. cbn in Hlen. lia. }
    assert (Hrm : Forall (fun e => forall x y z yaw, e <> EvPositionAndYawCtrl x y z yaw)
                         (removal_events vehicle)).
    { unfold removal_events. destruct (is_SUCCESS _); repeat constructor; discriminate. }
    assert (Hbr : Forall (fun e => forall x y z yaw, e <> EvPositionAndYawCtrl x y z yaw)
                         (repeat EvEmergencyBrake 50)).
    { apply Forall_forall. intros e He. apply repeat_spec in He. subst e. discriminate. }
    destruct Hexit as [(_ & _ & Hr & Htr) | (_ & Hr & Htr)].
    + exists r, w', cmds, (repeat EvEmergencyBrake 50 ++ removal_events vehicle).
      split; [exact Hrun|]. split; [exact Htr|]. split; [exact Hne|]. split; [exact Hc|].
      apply Forall_app. split; assumption.
    + exists r, w', cmds,
        (repeat EvEmergencyBrake 50 ++ EvPrint msg_task_timeout :: removal_events vehicle).
      split; [exact Hrun|]. split; [exact Htr|]. split; [exact Hne|]. split; [exact Hc|].
      apply Forall_app. split; [assumption|].
      constructor; [discriminate | assumption].
Qed.

End PositionControlProperties.

(** ** The sample's first move, on a hovering vehicle *)

Lemma DEG2RAD_value_nonzero : DEG2RAD_value <> 0%R.
Proof. unfold DEG2RAD_value. lra. Qed.

Lemma brake_before_return_witness :
  exists (r : IntReturn) (w' : World) (cmds finish : list Event),
    sample_move (501 + 0) vehicle_hovering world0 = Some (r, w')
    /\ trace w' = trace world0 ++ setup_events_50Hz ++ cmds
                  ++ repeat EvEmergencyBrake
                       (Z.to_nat (withinControlBoundsTimeReqmt / cycleTimeInMs))
                  ++ finish
    /\ (0 < Z.to_nat (withinControlBoundsTimeReqmt / cycleTimeInMs))%nat
    /\ Forall (fun e => exists x y z yaw, e = EvPositionAndYawCtrl x y z yaw) cmds
    /\ ((r = ret_ACK SUCCESS /\ finish = removal_events vehicle_hovering)
        \/ (r = ret_ACK FAIL
            /\ finish = EvPrint msg_task_timeout :: removal_events vehicle_hovering)).
Proof.
  exact (brake_before_return DEG2RAD_value C_EARTH_value 0 6 6 30 (2 / 10) 1
           0%nat vehicle_hovering world0 eq_refl eq_refl eq_refl).
Defined.

Lemma yaw_command_in_degrees_comparison_in_radians_witness :
  exists (r : IntReturn) (w' : World) (cmds finish : list Event),
    sample_move (501 + 0) vehicle_hovering world0 = Some (r, w')
    /\ trace w' = trace world0 ++ setup_events_50Hz ++ cmds ++ finish
    /\ cmds <> []
    /\ Forall (fun e => exists x y z, e = EvPositionAndYawCtrl x y z 30) cmds
    /\ Forall (fun e => forall x y z yaw, e <> EvPositionAndYawCtrl x y z yaw) finish.
Proof.
  exact (proj2 (proj2 (yaw_command_in_degrees_comparison_in_radians
                         DEG2RAD_value C_EARTH_value 0 6 6 30 (2 / 10) 1
                         0%nat vehicle_hovering world0
                         DEG2RAD_value_nonzero eq_refl eq_refl eq_refl))).
Defined.

(** The claim C9 as it was stated fails: in the first move of the sample the
    yaw sent with a position command is 30, the desired yaw in degrees, and
    not its value in radians. *)
Lemma yaw_command_is_not_in_radians :
  exists (r : IntReturn) (w' : World) (x y z : R),
    sample_move 501 vehicle_hovering world0 = Some (r, w')
    /\ In (EvPositionAndYawCtrl x y z 30) (trace w')
    /\ (30 <> yawDesiredRad DEG2RAD_value 30)%R.
Proof.
  destruct (moveByPositionOffset_run DEG2RAD_value C_EARTH_value 0 6 6 30 (2 / 10) 1
              0%nat vehicle_hovering world0 eq_refl eq_refl eq_refl)
    as (s & n & cmds & r & w' & Hrun & _ & Hn & _ & Hlen & Hcmds & _ & Hexit).
  destruct cmds as [|e cmds]; [cbn in Hlen; lia|].
  apply Forall_inv in Hcmds. destruct Hcmds as (x & y & He).
  rewrite (yawCmd_is_yawDesired DEG2RAD_value 30 DEG2RAD_value_nonzero) in He.
  exists r, w', x, y,
    (altitude (gps_fused vehicle_hovering (clock_us world0 + 1 * 1000000)) + 6)%R.
  split; [exact Hrun|]. split.
  - rewrite <- He.
    destruct Hexit as [(_ & _ & _ & Htr) | (_ & _ & Htr)]; rewrite Htr;
      rewrite !in_app_iff; right; right; left; left; reflexivity.
  - unfold yawDesiredRad, DEG2RAD_value. lra.
Qed.

(** ** Removal of the package on the other paths *)

Lemma emits_nothing {A : Type} (m : M A) (w : World) (a : A) (w' : World) :
  emits (fun _ => False) m -> m w = Some (a, w') -> trace w' = trace w.
Proof.
  intros Hm H. destruct (Hm w a w' H) as (evs & E & F).
  destruct evs as [|e evs]; [rewrite E; apply app_nil_r|].
  inversion F as [|? ? Hfalse _]. contradiction.
Qed.

Lemma monitor_loops_silent (fuel : nat) (vehicle : Vehicle) (budget : Z) :
  emits (fun _ => False) (takeoff_motors_loop fuel vehicle budget)
  /\ emits (fun _ => False) (takeoff_in_air_loop fuel vehicle budget)
  /\ emits (fun _ => False) (takeoff_finished_loop fuel vehicle)
  /\ emits (fun _ => False) (landing_started_loop fuel vehicle budget)
  /\ emits (fun _ => False) (landing_finished_loop fuel vehicle).
Proof.
  repeat split; emits_unfold; repeat emits_step;
    unfold getValue_STATUS_DISPLAYMODE; apply emits_read.
Qed.

Lemma removePackage_warn_tail (vehicle : Vehicle) :
  exists tail, removal_events vehicle = EvRemovePackage 0 :: tail /\ Forall is_print tail.
Proof.
  unfold removal_events. destruct (is_SUCCESS _); eexists; split; try reflexivity.
  - constructor.
  - repeat constructor. eexists; reflexivity.
Qed.

Lemma takeoff_checks_remove (fuel : nat) (vehicle : Vehicle) (timeout : Z)
      (w : World) (b : bool) (w' : World) :
  takeoff_checks fuel vehicle 0 timeout w = Some (b, w') ->
  exists prints tail,
    trace w' = trace w ++ prints ++ EvRemovePackage 0 :: tail
    /\ Forall is_print prints /\ Forall is_print tail.
Proof.
  destruct (monitor_loops_silent fuel vehicle 20) as (S1 & _).
  destruct (monitor_loops_silent fuel vehicle 110) as (_ & S2 & S3 & _).
  destruct (removePackage_warn_tail vehicle) as (tl & Htl & Ftl).
  unfold takeoff_checks. cbv zeta. intros H.
  apply bind_Some in H. destruct H as (n1 & w1 & L1 & H).
  apply (emits_nothing _ _ _ _ S1) in L1.
  destruct (n1 =? 20).
  { injection H as <- <-. exists [EvPrint msg_motors_not_spinning], [].
    cbn. rewrite L1, <- app_assoc. repeat split; repeat constructor.
    eexists; reflexivity. }
  apply bind_Some in H. destruct H as ([] & w2 & P2 & H). injection P2 as <-.
  apply bind_Some in H. destruct H as (n2 & w3 & L2 & H).
  apply (emits_nothing _ _ _ _ S2) in L2. cbn [trace] in L2.
  destruct (n2 =? 110).
  { injection H as <- <-.
    exists [EvPrint msg_motors_spinning; EvPrint msg_still_on_ground], [].
    cbn. rewrite L2, L1, <- !app_assoc. repeat split; repeat constructor;
      eexists; reflexivity. }
  apply bind_Some in H. destruct H as ([] & w4 & P4 & H). injection P4 as <-.
  apply bind_Some in H. destruct H as ([] & w5 & L3 & H).
  apply (emits_nothing _ _ _ _ S3) in L3. cbn [trace] in L3.
  unfold bind at 1 2 in H. unfold getValue_STATUS_DISPLAYMODE in H.
  rewrite settled_mode_accepted_same in H.
  unfold bind, cout, emit in H. rewrite removePackage_warn_run in H.
  injection H as <- <-.
  exists [EvPrint msg_motors_spinning; EvPrint msg_ascending; EvPrint msg_takeoff_ok], tl.
  cbn [trace]. rewrite Htl, L3, L2, L1, <- !app_assoc.
  repeat split; try assumption; repeat constructor; eexists; reflexivity.
Qed.

Lemma monitoredLanding_acknowledged (fuel : nat) (vehicle : Vehicle) (timeout : Z) (w : World) :
  verify_ack vehicle = SUCCESS ->
  initPackage_status vehicle = true ->
  startPackage_ack vehicle = SUCCESS ->
  land_ack vehicle = SUCCESS ->
  monitoredLanding fuel vehicle timeout w
  = landing_checks fuel vehicle 0 timeout
      (mkWorld (clock_us w) (trace w ++ setup_events_10Hz ++ [EvLand])).
Proof.
  intros Hv Hi Hs Ht.
  unfold monitoredLanding, bind, subscribe_verify, subscribe_initPackageFromTopicList,
    subscribe_startPackage, control_land, emit, ret.
  cbn. rewrite Hv, Hi, Hs, Ht. cbn. rewrite <- !app_assoc. reflexivity.
Qed.

Lemma landing_checks_remove (fuel : nat) (vehicle : Vehicle) (timeout : Z)
      (w : World) (b : bool) (w' : World) :
  landing_checks fuel vehicle 0 timeout w = Some (b, w') ->
  exists prints tail,
    trace w' = trace w ++ prints ++ EvRemovePackage 0 :: tail
    /\ Forall is_print prints /\ Forall is_print tail.
Proof.
  destruct (monitor_loops_silent fuel vehicle 20) as (_ & _ & _ & S1 & S2).
  destruct (removePackage_warn_tail vehicle) as (tl & Htl & Ftl).
  unfold landing_checks. cbv zeta. intros H.
  apply bind_Some in H. destruct H as (n1 & w1 & L1 & H).
  apply (emits_nothing _ _ _ _ S1) in L1.
  destruct (n1 =? 20).
  { unfold bind, cout, emit in H. rewrite removePackage_warn_run in H.
    injection H as <- <-. exists [EvPrint msg_landing_not_started], tl.
    cbn [trace]. rewrite Htl, L1, <- !app_assoc.
    repeat split; try assumption; repeat constructor; eexists; reflexivity. }
  apply bind_Some in H. destruct H as ([] & w2 & P2 & H). injection P2 as <-.
  apply bind_Some in H. destruct H as ([] & w3 & L2 & H).
  apply (emits_nothing _ _ _ _ S2) in L2. cbn [trace] in L2.
  unfold bind at 1 2 in H. unfold getValue_STATUS_DISPLAYMODE in H.
  rewrite settled_mode_accepted_same in H.
  unfold bind, cout, emit in H. rewrite removePackage_warn_run in H.
  injection H as <- <-.
  exists [EvPrint msg_landing; EvPrint msg_landing_ok], tl.
  cbn [trace]. rewrite Htl, L2, L1, <- !app_assoc.
  repeat split; try assumption; repeat constructor; eexists; reflexivity.
Qed.

(** X1: in both monitors, once the package is started, every return other
    than the one after a rejected command removes it: when the start itself
    fails the package is removed at once, and when the command is
    acknowledged every return of the function has, after the command, only
    messages and then the removal of package 0 (followed at most by the
    unsubscribe warning). *)
Theorem monitors_remove_package_on_other_paths :
  forall (fuel : nat) (vehicle : Vehicle) (timeout : Z) (w : World),
    verify_ack vehicle = SUCCESS ->
    initPackage_status vehicle = true ->
    (startPackage_ack vehicle = FAIL ->
     monitoredTakeoff fuel vehicle timeout w
     = Some (false, mkWorld (clock_us w)
                            (trace w ++ setup_events_10Hz ++ [EvRemovePackage 0]))
     /\ monitoredLanding fuel vehicle timeout w
        = Some (false, mkWorld (clock_us w)
                               (trace w ++ setup_events_10Hz ++ [EvRemovePackage 0])))
    /\ (startPackage_ack vehicle = SUCCESS -> takeoff_ack vehicle = SUCCESS ->
        forall b w',
          monitoredTakeoff fuel vehicle timeout w = Some (b, w') ->
          exists prints tail,
            trace w' = trace w ++ setup_events_10Hz
                       ++ EvTakeoff :: prints ++ EvRemovePackage 0 :: tail
            /\ Forall is_print prints /\ Forall is_print tail)
    /\ (startPackage_ack vehicle = SUCCESS -> land_ack vehicle = SUCCESS ->
        forall b w',
          monitoredLanding fuel vehicle timeout w = Some (b, w') ->
          exists prints tail,
            trace w' = trace w ++ setup_events_10Hz
                       ++ EvLand :: prints ++ EvRemovePackage 0 :: tail
            /\ Forall is_print prints /\ Forall is_print tail).
Proof.
  intros fuel vehicle timeout w Hv Hi. split; [|split].
  - intros Hs. split.
    + unfold monitoredTakeoff, bind, subscribe_verify, subscribe_initPackageFromTopicList,
        subscribe_startPackage, subscribe_removePackage, emit, ret.
      cbn. rewrite Hv, Hi, Hs. cbn. rewrite <- !app_assoc. reflexivity.
    + unfold monitoredLanding, bind, subscribe_verify, subscribe_initPackageFromTopicList,
        subscribe_startPackage, subscribe_removePackage, emit, ret.
      cbn. rewrite Hv, Hi, Hs. cbn. rewrite <- !app_assoc. reflexivity.
  - intros Hs Ht b w' H.
    rewrite (monitoredTakeoff_acknowledged _ _ _ _ Hv Hi Hs Ht) in H.
    apply takeoff_checks_remove in H. destruct H as (prints & tail & E & F1 & F2).
    exists prints, tail. cbn [trace] in E. rewrite E, <- !app_assoc. auto.
  - intros Hs Ht b w' H.
    rewrite (monitoredLanding_acknowledged _ _ _ _ Hv Hi Hs Ht) in H.
    apply landing_checks_remove in H. destruct H as (prints & tail & E & F1 & F2).
    exists prints, tail. cbn [trace] in E. rewrite E, <- !app_assoc. auto.
Qed.

Lemma monitors_remove_package_on_other_paths_witness :
  exists prints tail,
    setup_events_10Hz ++
      [EvTakeoff; EvPrint msg_motors_spinning; EvPrint msg_ascending;
       EvPrint msg_takeoff_ok; EvRemovePackage 0]
    = trace world0 ++ setup_events_10Hz
      ++ EvTakeoff :: prints ++ EvRemovePackage 0 :: tail
    /\ Forall is_print prints /\ Forall is_print tail.
Proof.
  refine (proj1 (proj2 (monitors_remove_package_on_other_paths
                          200 (vehicle_takes_off MODE_P_GPS) 1 world0 eq_refl eq_refl))
                eq_refl eq_refl true
                (mkWorld 500000
                   (setup_events_10Hz ++
                    [EvTakeoff; EvPrint msg_motors_spinning; EvPrint msg_ascending;
                     EvPrint msg_takeoff_ok; EvRemovePackage 0])) _).
  vm_compute. reflexivity.
Defined.

(** X2: [moveByPositionOffset] removes the package it started on every
    return: at once when the start fails, and otherwise after the position
    and brake commands and the timeout message, if any.  Between the start
    and the removal no package is started or removed, and after the removal
    there is at most the unsubscribe warning. *)
Theorem moveByPositionOffset_removes_package :
  forall (DEG2RAD C_EARTH xOffsetDesired yOffsetDesired zOffsetDesired yawDesired
          posThresholdInM yawThresholdInDeg : R)
         (extra : nat) (vehicle : Vehicle) (w : World),
    verify_ack vehicle = SUCCESS ->
    initPackage_status vehicle = true ->
    exists (r : IntReturn) (w' : World) (between tail : list Event),
      moveByPositionOffset DEG2RAD C_EARTH xOffsetDesired yOffsetDesired zOffsetDesired
        yawDesired posThresholdInM yawThresholdInDeg (501 + extra) vehicle w
      = Some (r, w')
      /\ trace w' = trace w ++ setup_events_50Hz ++ between ++ EvRemovePackage 0 :: tail
      /\ Forall (fun e => forall i, e <> EvStartPackage i /\ e <> EvRemovePackage i) between
      /\ Forall is_print tail.
Proof.
  intros D C xd yd zd yaw pt yt extra vehicle w Hv Hi.
  destruct (startPackage_ack vehicle) eqn:Hs.
  - destruct (moveByPositionOffset_run D C xd yd zd yaw pt yt extra vehicle w Hv Hi Hs)
      as (s & n & cmds & r & w' & Hrun & _ & _ & _ & _ & Hcmds & _ & Hexit).
    destruct (removePackage_warn_tail vehicle) as (tl & Htl & Ftl).
    assert (Hc : Forall (fun e => forall i, e <> EvStartPackage i /\ e <> EvRemovePackage i)
                        cmds).
    { eapply Forall_impl; [|exact Hcmds]. intros e (x & y & ->) i. split; discriminate. }
    assert (Hb : Forall (fun e => forall i, e <> EvStartPackage i /\ e <> EvRemovePackage i)
                        (repeat EvEmergencyBrake 50)).
    { apply Forall_forall. intros e He i. apply repeat_spec in He. subst e.
      split; discriminate. }
    destruct Hexit as [(_ & _ & _ & Htr) | (_ & _ & Htr)].
    + exists r, w', (cmds ++ repeat EvEmergencyBrake 50), tl.
      split; [exact Hrun|]. split; [rewrite Htr, Htl, <- !app_assoc; reflexivity|].
      split; [apply Forall_app; split; assumption | exact Ftl].
    + exists r, w', (cmds ++ repeat EvEmergencyBrake 50 ++ [EvPrint msg_task_timeout]), tl.
      split; [exact Hrun|]. split; [rewrite Htr, Htl, <- !app_assoc; reflexivity|].
      split; [|exact Ftl].
      apply Forall_app; split; [assumption|]. apply Forall_app; split; [assumption|].
      repeat constructor; discriminate.
  - eexists _, _, [], []. split.
    + unfold moveByPositionOffset, bind, subscribe_verify,
        subscribe_initPackageFromTopicList, subscribe_startPackage,
        subscribe_removePackage, emit, ret.
      cbn. rewrite Hv, Hi, Hs. cbn. reflexivity.
    + cbn [trace]. split; [rewrite <- !app_assoc; reflexivity|].
      split; constructor.
Qed.

Lemma moveByPositionOffset_removes_package_witness :
  exists (r : IntReturn) (w' : World) (between tail : list Event),
    sample_move (501 + 0) vehicle_hovering world0 = Some (r, w')
    /\ trace w' = trace world0 ++ setup_events_50Hz ++ between ++ EvRemovePackage 0 :: tail
    /\ Forall (fun e => forall i, e <> EvStartPackage i /\ e <> EvRemovePackage i) between
    /\ Forall is_print tail.
Proof.
  exact (moveByPositionOffset_removes_package DEG2RAD_value C_EARTH_value 0 6 6 30 (2 / 10) 1
           0%nat vehicle_hovering world0 eq_refl eq_refl).
Defined.

(** ** The dwell completed in the last cycle *)

Lemma hold_too_high_out_of_bounds :
  cycleInBounds DEG2RAD_value C_EARTH_value 0 0 0 0 (2 / 10) 1
                gps_origin quaternion_identity (mkGPSFused 0 0 1) = false.
Proof.
  unfold cycleInBounds, withinBounds, offsetRemaining, localOffsetFromGpsOffset, zDeadband.
  cbn [vx vy vz longitude latitude altitude gps_origin].
  rewrite (Rlt_bool_false (Rabs (0 - - (1 - 0)))).
  - rewrite andb_false_r. reflexivity.
  - replace (0 - - (1 - 0))%R with 1%R by lra. rewrite Rabs_R1. lra.
Qed.

Lemma hold_at_goal_in_bounds :
  cycleInBounds DEG2RAD_value C_EARTH_value 0 0 0 0 (2 / 10) 1
                gps_origin quaternion_identity gps_origin = true.
Proof.
  unfold cycleInBounds, withinBounds, offsetRemaining, localOffsetFromGpsOffset, zDeadband,
    yawError, yawThresholdInRad, yawDesiredRad, DEG2RAD_value.
  rewrite toEulerAngle_identity.
  cbn [vx vy vz longitude latitude altitude gps_origin].
  replace (0 - (0 - 0) * C_EARTH_value)%R with 0%R by lra.
  replace (0 - (0 - 0) * C_EARTH_value * cos 0)%R with 0%R by (rewrite cos_0; lra).
  replace (0 - - (0 - 0))%R with 0%R by lra.
  replace (0 - 1745329252 / 100000000000 * 0)%R with 0%R by lra.
  rewrite Rabs_R0.
  rewrite !Rlt_bool_true by lra. reflexivity.
Qed.

Lemma settles_late_loop (fuel : nat) (zCmd : R) (s0 s : LoopState) (w0 w : World) :
  settles_late_inv s0 w0 ->
  hold_loop fuel vehicle_settles_late gps_origin zCmd s0 w0 = Some (s, w) ->
  withinBoundsCounter s = withinControlBoundsTimeReqmt
  /\ elapsedTimeInMs s = timeoutInMilSec.
Proof.
  unfold hold_loop, controlLoop.
  apply (while_rule _ _ (fun s _ => elapsedTimeInMs s <? timeoutInMilSec)
           (fun s w => eq_refl) settles_late_inv
           (fun s _ => withinBoundsCounter s = withinControlBoundsTimeReqmt
                       /\ elapsedTimeInMs s = timeoutInMilSec)).
  - intros s1 w1 r w' (k & Hk & He & Hc & Ho & Hw) Hlt Hb.
    apply Z.ltb_lt in Hlt. unfold timeoutInMilSec in Hlt.
    rewrite controlLoop_body in Hb. injection Hb as <- <-.
    match goal with
    | |- context [controlCycle _ _ _ _ _ _ _ _ _ _ _ ?g] => set (gps := g)
    end.
    destruct (cycle_fields DEG2RAD_value C_EARTH_value 0 0 0 0 (2 / 10) 1
                gps_origin s1 quaternion_identity gps) as (E & W & O & _ & _ & HB & HC).
    assert (Hin : cycleInBounds DEG2RAD_value C_EARTH_value 0 0 0 0 (2 / 10) 1
                    gps_origin quaternion_identity gps = negb (k + 1 <=? 450)).
    { subst gps. rewrite Hc.
      destruct (Z.leb_spec (1000000 + 20000 * k + 20000) 1000000); [lia|].
      destruct (Z.leb_spec (1000000 + 20000 * k + 20000) 10000000);
        destruct (Z.leb_spec (k + 1) 450); try lia; cbn [negb].
      - exact hold_too_high_out_of_bounds.
      - exact hold_at_goal_in_bounds. }
    rewrite Hin in W, O.
    unfold updateCounters, accumulateCounters, resetCounters,
      outOfControlBoundsTimeLimit in W, O.
    unfold withinControlBoundsTimeReqmt in HB, HC.
    change cycleTimeInMs with 20 in *.
    rewrite Ho, Hw in W, O.
    destruct (Z.leb_spec (k + 1) 450) as [Hle|Hgt]; cbn [negb] in W, O.
    + replace (Z.max 0 (k - 450)) with 0 in * by lia.
      cbn in W, O.
      destruct (controlCycle _ _ _ _ _ _ _ _ _ _ _ _) as [s'|s'] eqn:Hcyc;
        cbn [loop_state] in *.
      * exists (k + 1). cbn [clock_us]. repeat split; try lia.
      * assert (50 * 20 <= withinBoundsCounter s') by (apply HB; reflexivity). lia.
    + change (0 >? 10 * 20) with false in W, O. cbn [fst snd] in W, O.
      destruct (controlCycle _ _ _ _ _ _ _ _ _ _ _ _) as [s'|s'] eqn:Hcyc;
        cbn [loop_state] in *.
      * assert (withinBoundsCounter s' < 50 * 20) by (apply HC; reflexivity).
        exists (k + 1). cbn [clock_us]. repeat split; try lia.
      * assert (50 * 20 <= withinBoundsCounter s') by (apply HB; reflexivity).
        unfold withinControlBoundsTimeReqmt, timeoutInMilSec.
        change cycleTimeInMs with 20. lia.
  - intros s1 w1 (k & Hk & He & Hc & Ho & Hw) Hge. apply Z.ltb_ge in Hge.
    unfold withinControlBoundsTimeReqmt, timeoutInMilSec in *.
    change cycleTimeInMs with 20. lia.
Qed.

(** X3: when the dwell requirement is completed in the very cycle in which
    the elapsed time reaches the ceiling, the loop is left by its [break]
    with the dwell met, and the function still prints the timeout and
    returns [ACK::FAIL]. *)
Theorem dwell_completed_at_ceiling_is_timeout :
  exists (s : LoopState) (w2 w' : World),
    hold_loop 501 vehicle_settles_late gps_origin (altitude gps_origin + 0)%R
              (mkLoopState 0 0 0 (initialCmd speedFactor 0) (initialCmd speedFactor 0))
              (mkWorld 1000000 setup_events_50Hz)
    = Some (s, w2)
    /\ withinBoundsCounter s = withinControlBoundsTimeReqmt
    /\ elapsedTimeInMs s = timeoutInMilSec
    /\ hold_move 501 vehicle_settles_late world0 = Some (ret_ACK FAIL, w')
    /\ In (EvPrint msg_task_timeout) (trace w').
Proof.
  destruct (moveByPositionOffset_run DEG2RAD_value C_EARTH_value 0 0 0 0 (2 / 10) 1
              0%nat vehicle_settles_late world0 eq_refl eq_refl eq_refl)
    as (s & n & cmds & r & w' & Hrun & (w2 & Hloop) & _ & _ & _ & _ & _ & Hexit).
  assert (Hinv : settles_late_inv
                   (mkLoopState 0 0 0 (initialCmd speedFactor 0) (initialCmd speedFactor 0))
                   (mkWorld 1000000 setup_events_50Hz)).
  { exists 0. cbn. repeat split; lia. }
  destruct (settles_late_loop 501 _ _ s _ w2 Hinv Hloop) as [Hw He].
  exists s, w2, w'. split; [exact Hloop|]. split; [exact Hw|]. split; [exact He|].
  destruct Hexit as [(_ & Hlt & _) | (_ & Hr & Htr)]; [lia|].
  subst r. split; [exact Hrun|].
  rewrite Htr. rewrite !in_app_iff. do 4 right. left. reflexivity.
Qed.


(** * Further properties of the helper functions *)

(** ** The two-argument arctangent *)

(** Decides the comparisons of [atan2] from the hypotheses at hand. *)
Ltac atan2_cases :=
  repeat match goal with
         | |- context [Rlt_dec ?a ?b] => destruct (Rlt_dec a b); try lra
         | |- context [Rle_dec ?a ?b] => destruct (Rle_dec a b); try lra
         end.

Lemma atan2_sin_cos (angle : R) :
  (- PI < angle <= PI)%R -> atan2 (sin angle) (cos angle) = angle.
Proof.
  intros [Hlo Hhi]. pose proof PI_RGT_0 as HPI. unfold atan2.
  destruct (Rtotal_order angle (- (PI / 2))) as [H1|[H1|H1]].
  - (* third quadrant *)
    assert (Hc : (cos angle < 0)%R).
    { rewrite <- cos_neg. apply cos_lt_0; lra. }
    assert (Hs : (sin angle < 0)%R).
    { assert (0 < sin (- angle))%R by (apply sin_gt_0; lra).
      rewrite sin_neg in H. lra. }
    destruct (Rlt_dec 0 (cos angle)); [lra|].
    destruct (Rlt_dec (cos angle) 0); [|lra].
    destruct (Rle_dec 0 (sin angle)); [lra|].
    change (sin angle / cos angle)%R with (tan angle).
    rewrite <- (Rtrigo_facts.tan_pi_plus angle) by lra.
    rewrite atan_tan by lra. lra.
  - subst angle. rewrite cos_neg, sin_neg, cos_PI2, sin_PI2. atan2_cases.
  - destruct (Rtotal_order angle (PI / 2)) as [H2|[H2|H2]].
    + assert (Hc : (0 < cos angle)%R) by (apply cos_gt_0; lra).
      destruct (Rlt_dec 0 (cos angle)); [|lra].
      change (sin angle / cos angle)%R with (tan angle).
      apply atan_tan. lra.
    + subst angle. rewrite cos_PI2, sin_PI2. atan2_cases.
    + assert (Hc : (cos angle < 0)%R) by (apply cos_lt_0; lra).
      assert (Hs : (0 <= sin angle)%R) by (apply sin_ge_0; lra).
      destruct (Rlt_dec 0 (cos angle)); [lra|].
      destruct (Rlt_dec (cos angle) 0); [|lra].
      destruct (Rle_dec 0 (sin angle)); [|lra].
      change (sin angle / cos angle)%R with (tan angle).
      assert (Hc' : cos (angle - PI) <> 0%R).
      { replace (angle - PI)%R with (- (PI - angle))%R by ring.
        rewrite cos_neg. replace (PI - angle)%R with (- angle + PI)%R by ring.
        rewrite neg_cos, cos_neg. lra. }
      replace (tan angle) with (tan (angle - PI)).
      * rewrite atan_tan by lra. lra.
      * rewrite <- (Rtrigo_facts.tan_pi_plus (angle - PI)) by exact Hc'.
        f_equal. ring.
Qed.

Lemma atan2_0_nonneg (x : R) : (0 <= x)%R -> atan2 0 x = 0%R.
Proof.
  intros Hx. unfold atan2.
  destruct (Rlt_dec 0 x).
  - unfold Rdiv. rewrite Rmult_0_l. exact atan_0.
  - atan2_cases.
Qed.

Lemma sin_half_angle (angle : R) :
  (2 * (cos (angle / 2) * sin (angle / 2)) = sin angle)%R.
Proof.
  replace angle with (2 * (angle / 2))%R at 3 by field.
  rewrite sin_2a. ring.
Qed.

Lemma cos_half_angle (angle : R) :
  (-2 * (sin (angle / 2) * sin (angle / 2)) + 1 = cos angle)%R.
Proof.
  replace angle with (2 * (angle / 2))%R at 3 by field.
  rewrite cos_2a_sin. ring.
Qed.

(** ** toEulerAngle *)

(** The angles of a rotation about the vertical axis. *)
Lemma toEulerAngle_of_yaw (yaw : R) :
  (- PI < yaw <= PI)%R -> toEulerAngle (quaternion_of_yaw yaw) = mkVector3f 0 0 yaw.
Proof.
  intros Hyaw.
  unfold toEulerAngle, toEulerAngle_t2, quaternion_of_yaw. cbn [q0 q1 q2 q3].
  replace (-2 * (0 * sin (yaw / 2) - cos (yaw / 2) * 0))%R with 0%R by ring.
  rewrite (Rlt_bool_false 1 0), (Rlt_bool_false 0 (-1)) by lra.
  replace (2 * (0 * sin (yaw / 2) + cos (yaw / 2) * 0))%R with 0%R by ring.
  replace (-2 * (0 * 0 + 0 * 0) + 1)%R with 1%R by ring.
  replace (2 * (0 * 0 + cos (yaw / 2) * sin (yaw / 2)))%R with (sin yaw)
    by (rewrite <- sin_half_angle; ring).
  replace (-2 * (0 * 0 + sin (yaw / 2) * sin (yaw / 2)) + 1)%R with (cos yaw)
    by (rewrite <- cos_half_angle; ring).
  rewrite asin_0, atan2_0_1, (atan2_sin_cos yaw Hyaw). reflexivity.
Qed.

(** X4: [toEulerAngle] gives back the angle of a rotation about one axis.
    For a rotation about the vertical axis by an angle in (-PI, PI] the
    third component is the angle and the other two are 0; likewise the
    second component for a rotation about the longitudinal axis; and for a
    rotation about the lateral axis by an angle in [-PI/2, PI/2] the first
    component is the angle and the other two are 0. *)
Theorem toEulerAngle_axis_round_trip :
  (forall yaw : R, (- PI < yaw <= PI)%R ->
                   toEulerAngle (quaternion_of_yaw yaw) = mkVector3f 0 0 yaw)
  /\ (forall roll : R, (- PI < roll <= PI)%R ->
                       toEulerAngle (quaternion_of_roll roll) = mkVector3f 0 roll 0)
  /\ (forall pitch : R, (- (PI / 2) <= pitch <= PI / 2)%R ->
                        toEulerAngle (quaternion_of_pitch pitch) = mkVector3f pitch 0 0).
Proof.
  split; [|split].
  - exact toEulerAngle_of_yaw.
  - intros roll Hroll.
    unfold toEulerAngle, toEulerAngle_t2, quaternion_of_roll. cbn [q0 q1 q2 q3].
    replace (-2 * (sin (roll / 2) * 0 - cos (roll / 2) * 0))%R with 0%R by ring.
    rewrite (Rlt_bool_false 1 0), (Rlt_bool_false 0 (-1)) by lra.
    replace (2 * (0 * 0 + cos (roll / 2) * sin (roll / 2)))%R with (sin roll)
      by (rewrite <- sin_half_angle; ring).
    replace (-2 * (sin (roll / 2) * sin (roll / 2) + 0 * 0) + 1)%R with (cos roll)
      by (rewrite <- cos_half_angle; ring).
    replace (2 * (sin (roll / 2) * 0 + cos (roll / 2) * 0))%R with 0%R by ring.
    replace (-2 * (0 * 0 + 0 * 0) + 1)%R with 1%R by ring.
    rewrite asin_0, atan2_0_1, (atan2_sin_cos roll Hroll). reflexivity.
  - intros pitch Hpitch.
    assert (Hcos : (0 <= cos pitch)%R) by (apply cos_ge_0; lra).
    pose proof (SIN_bound pitch) as Hsin.
    unfold toEulerAngle, toEulerAngle_t2, quaternion_of_pitch. cbn [q0 q1 q2 q3].
    replace (-2 * (0 * 0 - cos (pitch / 2) * sin (pitch / 2)))%R with (sin pitch)
      by (rewrite <- sin_half_angle; ring).
    rewrite (Rlt_bool_false 1 (sin pitch)), (Rlt_bool_false (sin pitch) (-1)) by lra.
    replace (2 * (sin (pitch / 2) * 0 + cos (pitch / 2) * 0))%R with 0%R by ring.
    replace (-2 * (0 * 0 + sin (pitch / 2) * sin (pitch / 2)) + 1)%R with (cos pitch)
      by (rewrite <- cos_half_angle; ring).
    replace (2 * (0 * sin (pitch / 2) + cos (pitch / 2) * 0))%R with 0%R by ring.
    replace (-2 * (sin (pitch / 2) * sin (pitch / 2) + 0 * 0) + 1)%R with (cos pitch)
      by (rewrite <- cos_half_angle; ring).
    rewrite (asin_sin pitch Hpitch), (atan2_0_nonneg _ Hcos). reflexivity.
Qed.

(** ** localOffsetFromGpsOffset *)

(** X6: the local offset of a position from itself is zero.  Its north
    component is [C_EARTH] times the difference of latitude and its vertical
    component the difference of altitude: both change sign when target and
    origin are exchanged and add up along a path through a third position.
    Its east component is [C_EARTH] times the difference of longitude scaled
    by the cosine of the latitude of the target, not of the origin: it is
    the unscaled product for a target on the equator and zero for a target
    at latitude [PI / 2], whatever the latitude of the origin; exchanging
    target and origin changes it by more than the sign when the latitudes
    differ; and it is bounded in magnitude by [C_EARTH] times the difference
    of longitude. *)
Theorem localOffsetFromGpsOffset_properties :
  forall (C_EARTH : R) (a b c : GPSFused),
    localOffsetFromGpsOffset C_EARTH a a = mkVector3f 0 0 0
    /\ (vx (localOffsetFromGpsOffset C_EARTH a b)
        = C_EARTH * (latitude a - latitude b))%R
    /\ (vz (localOffsetFromGpsOffset C_EARTH a b) = altitude a - altitude b)%R
    /\ (vx (localOffsetFromGpsOffset C_EARTH a b)
        = - vx (localOffsetFromGpsOffset C_EARTH b a))%R
    /\ (vz (localOffsetFromGpsOffset C_EARTH a b)
        = - vz (localOffsetFromGpsOffset C_EARTH b a))%R
    /\ (vx (localOffsetFromGpsOffset C_EARTH c a)
        = vx (localOffsetFromGpsOffset C_EARTH c b)
          + vx (localOffsetFromGpsOffset C_EARTH b a))%R
    /\ (vz (localOffsetFromGpsOffset C_EARTH c a)
        = vz (localOffsetFromGpsOffset C_EARTH c b)
          + vz (localOffsetFromGpsOffset C_EARTH b a))%R
    /\ (vy (localOffsetFromGpsOffset C_EARTH a b)
        = C_EARTH * (longitude a - longitude b) * cos (latitude a))%R
    /\ (latitude a = 0%R ->
        vy (localOffsetFromGpsOffset C_EARTH a b)
        = C_EARTH * (longitude a - longitude b))%R
    /\ (latitude a = (PI / 2)%R -> vy (localOffsetFromGpsOffset C_EARTH a b) = 0%R)
    /\ (vy (localOffsetFromGpsOffset C_EARTH a b)
        + vy (localOffsetFromGpsOffset C_EARTH b a)
        = C_EARTH * (longitude a - longitude b)
          * (cos (latitude a) - cos (latitude b)))%R
    /\ (longitude a = longitude b ->
        vy (localOffsetFromGpsOffset C_EARTH a b) = 0%R)
    /\ (Rabs (vy (localOffsetFromGpsOffset C_EARTH a b))
        <= Rabs C_EARTH * Rabs (longitude a - longitude b))%R.
Proof.
  intros C a b c. unfold localOffsetFromGpsOffset. cbn [vx vy vz].
  split; [f_equal; ring|].
  repeat (split; [ring|]).
  split; [intros ->; rewrite cos_0; ring|].
  split; [intros ->; rewrite cos_PI2; ring|].
  split; [ring|].
  split.
  - intros ->. ring.
  - rewrite !Rabs_mult.
    pose proof (COS_bound (latitude a)) as Hcos.
    assert (Rabs (cos (latitude a)) <= 1)%R by (apply Rabs_le; lra).
    pose proof (Rabs_pos (longitude a - longitude b)).
    pose proof (Rabs_pos C).
    assert (0 <= Rabs (longitude a - longitude b) * Rabs C)%R by nra.
    nra.
Qed.

(** * Further properties of moveByPositionOffset *)

Section PositionControlRuns.

Variables DEG2RAD C_EARTH : R.
Variables xOffsetDesired yOffsetDesired zOffsetDesired yawDesired : R.
Variables posThresholdInM yawThresholdInDeg : R.

Local Abbreviation remaining :=
  (offsetRemaining C_EARTH xOffsetDesired yOffsetDesired zOffsetDesired).
Local Abbreviation cycle :=
  (controlCycle DEG2RAD C_EARTH xOffsetDesired yOffsetDesired zOffsetDesired
                yawDesired posThresholdInM yawThresholdInDeg).
Local Abbreviation loop :=
  (controlLoop DEG2RAD C_EARTH xOffsetDesired yOffsetDesired zOffsetDesired
               yawDesired posThresholdInM yawThresholdInDeg).
Local Abbreviation move :=
  (moveByPositionOffset DEG2RAD C_EARTH xOffsetDesired yOffsetDesired zOffsetDesired
                        yawDesired posThresholdInM yawThresholdInDeg).
Local Abbreviation inBoundsCycle :=
  (inBoundsAt DEG2RAD C_EARTH xOffsetDesired yOffsetDesired zOffsetDesired
              yawDesired posThresholdInM yawThresholdInDeg).
Local Abbreviation initialState :=
  (mkLoopState 0 0 0 (initialCmd speedFactor xOffsetDesired)
               (initialCmd speedFactor yOffsetDesired)).

(** The function after its loop: the brake commands, the timeout message
    when the elapsed time is at the ceiling, and the removal. *)
Lemma moveByPositionOffset_after_loop (extra : nat) (vehicle : Vehicle) (w : World)
      (s : LoopState) (w2 : World) :
  verify_ack vehicle = SUCCESS ->
  initPackage_status vehicle = true ->
  startPackage_ack vehicle = SUCCESS ->
  loop (501 + extra)%nat vehicle (gps_fused vehicle (cycle_time w 0))
       (altitude (gps_fused vehicle (cycle_time w 0)) + zOffsetDesired)%R
       initialState (loop_start w) = Some (s, w2) ->
  move (501 + extra)%nat vehicle w
  = Some (ret_ACK (if elapsedTimeInMs s >=? timeoutInMilSec then FAIL else SUCCESS),
          mkWorld (clock_us w2 + 50 * cycleTimeInMs)
                  (trace w2 ++ repeat EvEmergencyBrake 50
                   ++ (if elapsedTimeInMs s >=? timeoutInMilSec
                       then [EvPrint msg_task_timeout] else [])
                   ++ removal_events vehicle)).
Proof.
  intros Hv Hi Hs Hloop.
  rewrite (moveByPositionOffset_acknowledged _ _ _ _ _ _ _ _ _ _ _ Hv Hi Hs).
  unfold moveByPositionOffset_started, initialSetpoint.
  cbv beta iota delta [bind sleep usleep getValue_GPS_FUSED].
  cbn [clock_us trace].
  unfold cycle_time, loop_start in Hloop. rewrite Z.mul_0_l, Z.add_0_r in Hloop.
  rewrite Hloop.
  change (brakeLoop (501 + extra)%nat) with (brakeLoop (51 + (450 + extra))%nat).
  rewrite brakeLoop_returns.
  destruct (elapsedTimeInMs s >=? timeoutInMilSec).
  - unfold cout, emit. rewrite removePackage_warn_run. cbn [clock_us trace].
    unfold ret. rewrite <- !app_assoc. reflexivity.
  - rewrite removePackage_warn_run. cbn [clock_us trace].
    unfold ret. rewrite <- !app_assoc. reflexivity.
Qed.

(** A rule for the loop with the cycles counted: a predicate [J] on the
    number of cycles run and the state is kept by every cycle on the
    telemetry of its time, and gives [Q] when the loop is left. *)
Lemma controlLoop_indexed (vehicle : Vehicle) (w : World) (zCmd : R)
      (J Q : Z -> LoopState -> Prop) :
  let originGPS := gps_fused vehicle (cycle_time w 0) in
  (forall k s, 0 <= k -> J k s -> elapsedTimeInMs s = cycleTimeInMs * k ->
               elapsedTimeInMs s < timeoutInMilSec ->
               match cycle originGPS s (quaternion vehicle (cycle_time w (k + 1)))
                           (gps_fused vehicle (cycle_time w (k + 1))) with
               | Continue s' => J (k + 1) s'
               | Break s' => Q (k + 1) s'
               end) ->
  (forall k s, 0 <= k -> J k s -> elapsedTimeInMs s = cycleTimeInMs * k ->
               timeoutInMilSec <= elapsedTimeInMs s -> Q k s) ->
  forall fuel s0 s w2,
    J 0 s0 -> elapsedTimeInMs s0 = 0 ->
    loop fuel vehicle originGPS zCmd s0 (loop_start w) = Some (s, w2) ->
    exists n, 0 <= n /\ Q n s /\ elapsedTimeInMs s = cycleTimeInMs * n
              /\ clock_us w2 = cycle_time w n.
Proof.
  intros originGPS Hstep Hexit fuel s0 s w2 HJ0 He0.
  unfold controlLoop.
  apply (while_rule _ _ (fun s _ => elapsedTimeInMs s <? timeoutInMilSec)
           (fun s w => eq_refl)
           (fun s w1 => exists k, 0 <= k /\ J k s
                                  /\ elapsedTimeInMs s = cycleTimeInMs * k
                                  /\ clock_us w1 = cycle_time w k)
           (fun s w1 => exists n, 0 <= n /\ Q n s
                                  /\ elapsedTimeInMs s = cycleTimeInMs * n
                                  /\ clock_us w1 = cycle_time w n)).
  - intros s1 w1 r w' (k & Hk & HJ & He & Hc) Hlt Hb. apply Z.ltb_lt in Hlt.
    rewrite controlLoop_body in Hb.
    assert (Ht : clock_us w1 + cycleTimeInMs * 1000 = cycle_time w (k + 1)).
    { rewrite Hc. unfold cycle_time. ring. }
    rewrite Ht in Hb. injection Hb as <- <-.
    specialize (Hstep k s1 Hk HJ He Hlt).
    destruct (cycle_fields DEG2RAD C_EARTH xOffsetDesired yOffsetDesired zOffsetDesired
                yawDesired posThresholdInM yawThresholdInDeg originGPS s1
                (quaternion vehicle (cycle_time w (k + 1)))
                (gps_fused vehicle (cycle_time w (k + 1)))) as (E & _).
    fold originGPS.
    destruct (cycle originGPS s1 _ _) as [s'|s']; cbn [loop_state] in E;
      exists (k + 1); (split; [lia|]); (split; [exact Hstep|]);
      (split; [rewrite E, He; ring | reflexivity]).
  - intros s1 w1 (k & Hk & HJ & He & Hc) Hge. apply Z.ltb_ge in Hge.
    exists k. split; [exact Hk|]. split; [exact (Hexit k s1 Hk HJ He Hge)|].
    split; assumption.
  - exists 0. split; [lia|]. split; [exact HJ0|]. split; [rewrite He0; ring|].
    unfold cycle_time, loop_start. cbn [clock_us]. ring.
Qed.

(** What a started move does, with the cycles counted: [Q] holds of the
    number of cycles and of the state the loop leaves. *)
Lemma moveByPositionOffset_outcome (extra : nat) (vehicle : Vehicle) (w : World)
      (J Q : Z -> LoopState -> Prop) :
  let originGPS := gps_fused vehicle (cycle_time w 0) in
  let zCmd := (altitude originGPS + zOffsetDesired)%R in
  verify_ack vehicle = SUCCESS ->
  initPackage_status vehicle = true ->
  startPackage_ack vehicle = SUCCESS ->
  (forall k s, 0 <= k -> J k s -> elapsedTimeInMs s = cycleTimeInMs * k ->
               elapsedTimeInMs s < timeoutInMilSec ->
               match cycle originGPS s (quaternion vehicle (cycle_time w (k + 1)))
                           (gps_fused vehicle (cycle_time w (k + 1))) with
               | Continue s' => J (k + 1) s'
               | Break s' => Q (k + 1) s'
               end) ->
  (forall k s, 0 <= k -> J k s -> elapsedTimeInMs s = cycleTimeInMs * k ->
               timeoutInMilSec <= elapsedTimeInMs s -> Q k s) ->
  J 0 initialState ->
  exists (n : Z) (s : LoopState) (cmds : list Event),
    1 <= n <= 500 /\ Q n s
    /\ elapsedTimeInMs s = cycleTimeInMs * n
    /\ ((withinControlBoundsTimeReqmt <= withinBoundsCounter s
         /\ elapsedTimeInMs s <= timeoutInMilSec)
        \/ (withinBoundsCounter s < withinControlBoundsTimeReqmt
            /\ elapsedTimeInMs s = timeoutInMilSec))
    /\ Z.of_nat (List.length cmds) = n
    /\ Forall (is_positionCmd DEG2RAD yawDesired zCmd) cmds
    /\ move (501 + extra)%nat vehicle w
       = Some (ret_ACK (if elapsedTimeInMs s >=? timeoutInMilSec then FAIL else SUCCESS),
               move_end w n cmds
                 ((if elapsedTimeInMs s >=? timeoutInMilSec
                   then [EvPrint msg_task_timeout] else [])
                  ++ removal_events vehicle)).
Proof.
  intros originGPS zCmd Hv Hi Hs Hstep Hexit HJ0.
  destruct (controlLoop_returns DEG2RAD C_EARTH xOffsetDesired yOffsetDesired
              zOffsetDesired yawDesired posThresholdInM yawThresholdInDeg
              extra vehicle originGPS zCmd
              (initialCmd speedFactor xOffsetDesired)
              (initialCmd speedFactor yOffsetDesired) (loop_start w))
    as (s & w2 & Hloop & (n' & Hn' & He' & Hc' & cmds & Htr & Hlen & Hcmds) & _ & Hout).
  destruct (controlLoop_indexed vehicle w zCmd J Q Hstep Hexit _ _ _ _ HJ0 eq_refl Hloop)
    as (n & Hn & HQ & He & Hc).
  assert (n' = n) as -> by (rewrite He in He'; change cycleTimeInMs with 20 in He'; lia).
  exists n, s, cmds.
  split; [exact Hn'|]. split; [exact HQ|]. split; [exact He|]. split; [exact Hout|].
  split; [exact Hlen|]. split; [exact Hcmds|].
  rewrite (moveByPositionOffset_after_loop extra vehicle w s w2 Hv Hi Hs Hloop).
  unfold move_end. rewrite Hc, Htr. cbn [loop_start trace].
  rewrite <- !app_assoc. reflexivity.
Qed.

(** The counters of a cycle, from those before it. *)
Lemma cycle_counters (originGPS : GPSFused) (s : LoopState) (q : Quaternion)
      (currentGPS : GPSFused) :
  let inBounds := cycleInBounds DEG2RAD C_EARTH xOffsetDesired yOffsetDesired
                    zOffsetDesired yawDesired posThresholdInM yawThresholdInDeg
                    originGPS q currentGPS in
  let wo := updateCounters 20 200 inBounds (withinBoundsCounter s) (outOfBounds s) in
  match cycle originGPS s q currentGPS with
  | Continue s' => withinBoundsCounter s' = fst wo /\ outOfBounds s' = snd wo
                   /\ fst wo < 1000
  | Break s' => withinBoundsCounter s' = fst wo /\ outOfBounds s' = snd wo
                /\ 1000 <= fst wo
  end.
Proof.
  cbv zeta.
  destruct (cycle_fields DEG2RAD C_EARTH xOffsetDesired yOffsetDesired zOffsetDesired
              yawDesired posThresholdInM yawThresholdInDeg originGPS s q currentGPS)
    as (_ & W & O & _ & _ & HB & HC).
  change (outOfControlBoundsTimeLimit) with 200 in W, O.
  change cycleTimeInMs with 20 in W, O.
  change withinControlBoundsTimeReqmt with 1000 in HB, HC.
  destruct (cycle originGPS s q currentGPS) as [s'|s']; cbn [loop_state] in *.
  - split; [exact W|]. split; [exact O|]. rewrite <- W. apply HC. reflexivity.
  - split; [exact W|]. split; [exact O|]. rewrite <- W. apply HB. reflexivity.
Qed.

(** When no cycle is within bounds the loop runs its 500 cycles and the
    function reports the timeout. *)
Lemma never_in_bounds_run (extra : nat) (vehicle : Vehicle) (w : World) :
  verify_ack vehicle = SUCCESS ->
  initPackage_status vehicle = true ->
  startPackage_ack vehicle = SUCCESS ->
  (forall k, 1 <= k <= 500 -> inBoundsCycle vehicle w k = false) ->
  exists cmds : list Event,
    Z.of_nat (List.length cmds) = 500
    /\ Forall (is_positionCmd DEG2RAD yawDesired
                 (altitude (gps_fused vehicle (cycle_time w 0)) + zOffsetDesired)%R) cmds
    /\ move (501 + extra)%nat vehicle w
       = Some (ret_ACK FAIL,
               move_end w 500 cmds (EvPrint msg_task_timeout :: removal_events vehicle)).
Proof.
  intros Hv Hi Hs Hnever.
  destruct (moveByPositionOffset_outcome extra vehicle w
              (fun k s => withinBoundsCounter s = 0 /\ outOfBounds s = 0 /\ k <= 500)
              (fun n s => elapsedTimeInMs s = timeoutInMilSec) Hv Hi Hs)
    as (n & s & cmds & Hn & HQ & He & _ & Hlen & Hcmds & Hrun).
  - intros k s Hk (Hw & Ho & _) He Hlt.
    assert (Hk1 : k + 1 <= 500).
    { unfold timeoutInMilSec in Hlt. change cycleTimeInMs with 20 in He. lia. }
    assert (Hin : inBoundsCycle vehicle w (k + 1) = false) by (apply Hnever; lia).
    unfold inBoundsAt in Hin.
    pose proof (cycle_counters (gps_fused vehicle (cycle_time w 0)) s
                  (quaternion vehicle (cycle_time w (k + 1)))
                  (gps_fused vehicle (cycle_time w (k + 1)))) as Hcc.
    cbv zeta in Hcc. rewrite Hin, Hw, Ho in Hcc.
    destruct (cycle _ s _ _) as [s'|s']; cbn in Hcc.
    + destruct Hcc as (W & O & _). auto.
    + destruct Hcc as (_ & _ & Hge). lia.
  - intros k s Hk (_ & _ & Hk5) He Hge.
    unfold timeoutInMilSec in *. change cycleTimeInMs with 20 in He. lia.
  - repeat split; lia.
  - rewrite HQ in Hrun, He. rewrite Z.geb_leb, Z.leb_refl in Hrun.
    assert (n = 500) as ->
      by (unfold timeoutInMilSec in He; change cycleTimeInMs with 20 in He; lia).
    exists cmds. split; [exact Hlen|]. split; [exact Hcmds|]. exact Hrun.
Qed.

(** When the first fifty cycles are all within bounds the loop leaves after
    the fiftieth and the function reports success. *)
Lemma always_in_bounds_run (extra : nat) (vehicle : Vehicle) (w : World) :
  verify_ack vehicle = SUCCESS ->
  initPackage_status vehicle = true ->
  startPackage_ack vehicle = SUCCESS ->
  (forall k, 1 <= k <= 50 -> inBoundsCycle vehicle w k = true) ->
  exists cmds : list Event,
    Z.of_nat (List.length cmds) = 50
    /\ Forall (is_positionCmd DEG2RAD yawDesired
                 (altitude (gps_fused vehicle (cycle_time w 0)) + zOffsetDesired)%R) cmds
    /\ move (501 + extra)%nat vehicle w
       = Some (ret_ACK SUCCESS, move_end w 50 cmds (removal_events vehicle)).
Proof.
  intros Hv Hi Hs Halways.
  destruct (moveByPositionOffset_outcome extra vehicle w
              (fun k s => withinBoundsCounter s = 20 * k /\ outOfBounds s = 0 /\ k < 50)
              (fun n s => n = 50) Hv Hi Hs)
    as (n & s & cmds & Hn & HQ & He & _ & Hlen & Hcmds & Hrun).
  - intros k s Hk (Hw & Ho & Hk5) He Hlt.
    assert (Hin : inBoundsCycle vehicle w (k + 1) = true) by (apply Halways; lia).
    unfold inBoundsAt in Hin.
    pose proof (cycle_counters (gps_fused vehicle (cycle_time w 0)) s
                  (quaternion vehicle (cycle_time w (k + 1)))
                  (gps_fused vehicle (cycle_time w (k + 1)))) as Hcc.
    cbv zeta in Hcc. rewrite Hin, Hw, Ho in Hcc.
    unfold updateCounters, accumulateCounters, resetCounters in Hcc.
    change (0 >? 200) with false in Hcc. cbn [fst snd] in Hcc.
    destruct (cycle _ s _ _) as [s'|s'].
    + destruct Hcc as (W & O & Hlt'). repeat split; lia.
    + lia.
  - intros k s Hk (_ & _ & Hk5) He Hge.
    unfold timeoutInMilSec in *. change cycleTimeInMs with 20 in He. lia.
  - repeat split; lia.
  - subst n. rewrite He in Hrun.
    change (cycleTimeInMs * 50 >=? timeoutInMilSec) with false in Hrun.
    exists cmds. split; [exact Hlen|]. split; [exact Hcmds|]. exact Hrun.
Qed.

(** C5 (the code departs from the claim): the dwell completed in the cycle
    that reaches the ceiling.  When
    the condition of line 360 is false in the first 450 cycles and true in
    the last 50, the within-bounds counter reaches the dwell requirement in
    the 500th cycle, the loop is left there by its [break], the elapsed time
    is the ceiling, and [moveByPositionOffset] prints the timeout and returns
    [ACK::FAIL], not [ACK::SUCCESS]: the test after the loop looks at the
    elapsed time only. *)
Theorem dwell_reached_at_ceiling_returns_FAIL :
  forall (extra : nat) (vehicle : Vehicle) (w : World),
    verify_ack vehicle = SUCCESS ->
    initPackage_status vehicle = true ->
    startPackage_ack vehicle = SUCCESS ->
    (forall k, 1 <= k <= 450 -> inBoundsCycle vehicle w k = false) ->
    (forall k, 451 <= k <= 500 -> inBoundsCycle vehicle w k = true) ->
    exists (s s0 : LoopState) (w2 : World) (cmds : list Event),
      loop (501 + extra)%nat vehicle (gps_fused vehicle (cycle_time w 0))
           (altitude (gps_fused vehicle (cycle_time w 0)) + zOffsetDesired)%R
           initialState (loop_start w) = Some (s, w2)
      /\ cycle (gps_fused vehicle (cycle_time w 0)) s0
               (quaternion vehicle (cycle_time w 500))
               (gps_fused vehicle (cycle_time w 500)) = Break s
      /\ withinBoundsCounter s = withinControlBoundsTimeReqmt
      /\ elapsedTimeInMs s = timeoutInMilSec
      /\ Z.of_nat (List.length cmds) = 500
      /\ move (501 + extra)%nat vehicle w
         = Some (ret_ACK FAIL,
                 move_end w 500 cmds (EvPrint msg_task_timeout :: removal_events vehicle)).
Proof.
  intros extra vehicle w Hv Hi Hs Hout Hin.
  set (originGPS := gps_fused vehicle (cycle_time w 0)).
  set (zCmd := (altitude originGPS + zOffsetDesired)%R).
  destruct (controlLoop_returns DEG2RAD C_EARTH xOffsetDesired yOffsetDesired
              zOffsetDesired yawDesired posThresholdInM yawThresholdInDeg
              extra vehicle originGPS zCmd
              (initialCmd speedFactor xOffsetDesired)
              (initialCmd speedFactor yOffsetDesired) (loop_start w))
    as (s & w2 & Hloop & (n' & Hn' & He' & Hc' & cmds & Htr & Hlen & Hcmds) & _ & _).
  set (J := fun (k : Z) (s : LoopState) =>
              outOfBounds s = 0
              /\ withinBoundsCounter s = 20 * Z.max 0 (k - 450)
              /\ k <= 499).
  set (Q := fun (n : Z) (s : LoopState) =>
              n = 500
              /\ withinBoundsCounter s = 1000
              /\ exists s0,
                  cycle originGPS s0 (quaternion vehicle (cycle_time w 500))
                        (gps_fused vehicle (cycle_time w 500)) = Break s).
  pose proof (controlLoop_indexed vehicle w zCmd J Q) as Hidx.
  cbv zeta in Hidx. fold originGPS in Hidx.
  match type of Hidx with ?A -> _ => assert (Hstep : A) end.
  { intros k s1 Hk (Ho & Hw & Hk9) He Hlt.
    pose proof (cycle_counters originGPS s1
                  (quaternion vehicle (cycle_time w (k + 1)))
                  (gps_fused vehicle (cycle_time w (k + 1)))) as Hcc.
    cbv zeta in Hcc.
    assert (Hflag : cycleInBounds DEG2RAD C_EARTH xOffsetDesired yOffsetDesired
                      zOffsetDesired yawDesired posThresholdInM yawThresholdInDeg
                      originGPS (quaternion vehicle (cycle_time w (k + 1)))
                      (gps_fused vehicle (cycle_time w (k + 1)))
                    = negb (k + 1 <=? 450)).
    { unfold timeoutInMilSec in Hlt. change cycleTimeInMs with 20 in He.
      destruct (Z.leb_spec (k + 1) 450); cbn [negb].
      - apply (Hout (k + 1)). lia.
      - apply (Hin (k + 1)). lia. }
    rewrite Hflag, Ho, Hw in Hcc.
    unfold updateCounters, accumulateCounters, resetCounters in Hcc.
    destruct (Z.leb_spec (k + 1) 450) as [Hle|Hgt]; cbn [negb] in Hcc.
    - replace (Z.max 0 (k - 450)) with 0 in Hcc by lia.
      cbn in Hcc.
      destruct (cycle originGPS s1 _ _) as [s'|s']; [|lia].
      destruct Hcc as (W & O & _). unfold J. repeat split; lia.
    - change (0 >? 200) with false in Hcc. cbn [fst snd] in Hcc.
      destruct (cycle originGPS s1 _ _) as [s'|s'] eqn:Hcyc;
        destruct Hcc as (W & O & Hb).
      + unfold J. repeat split; lia.
      + assert (k + 1 = 500) as E by lia.
        unfold Q. split; [exact E|]. split; [lia|].
        exists s1. rewrite <- E. exact Hcyc. }
  specialize (Hidx Hstep).
  match type of Hidx with ?A -> _ => assert (Hexit : A) end.
  { intros k s1 Hk (_ & _ & Hk9) He Hge.
    unfold timeoutInMilSec in Hge. change cycleTimeInMs with 20 in He. lia. }
  specialize (Hidx Hexit).
  assert (HJ0 : J 0 initialState) by (unfold J; cbn; repeat split; lia).
  destruct (Hidx _ _ _ _ HJ0 eq_refl Hloop) as (n & Hn & (-> & Hw & s0 & Hbreak) & He & Hc).
  exists s, s0, w2, cmds.
  assert (n' = 500) as -> by (rewrite He in He'; change cycleTimeInMs with 20 in He'; lia).
  split; [exact Hloop|]. split; [exact Hbreak|].
  split; [exact Hw|]. split; [rewrite He; reflexivity|]. split; [exact Hlen|].
  rewrite (moveByPositionOffset_after_loop extra vehicle w s w2 Hv Hi Hs Hloop).
  rewrite He. change (cycleTimeInMs * 500 >=? timeoutInMilSec) with true.
  unfold move_end. rewrite Hc, Htr. cbn [loop_start trace app].
  rewrite <- !app_assoc. reflexivity.
Qed.

(** The condition of line 360 in terms of the telemetry. *)
Lemma cycleInBounds_true_iff (originGPS : GPSFused) (q : Quaternion)
      (currentGPS : GPSFused) :
  cycleInBounds DEG2RAD C_EARTH xOffsetDesired yOffsetDesired zOffsetDesired
                yawDesired posThresholdInM yawThresholdInDeg originGPS q currentGPS = true
  <-> (Rabs (xOffsetDesired - (latitude currentGPS - latitude originGPS) * C_EARTH)
       < posThresholdInM
       /\ Rabs (yOffsetDesired - (longitude currentGPS - longitude originGPS) * C_EARTH
                                 * cos (latitude currentGPS))
          < posThresholdInM
       /\ Rabs (zOffsetDesired + (altitude currentGPS - altitude originGPS)) < zDeadband
       /\ Rabs (vz (toEulerAngle q) - DEG2RAD * yawDesired)
          < DEG2RAD * yawThresholdInDeg)%R.
Proof.
  unfold cycleInBounds, withinBounds, offsetRemaining, localOffsetFromGpsOffset,
    yawError, yawDesiredRad, yawThresholdInRad.
  cbn [vx vy vz].
  replace (zOffsetDesired - - (altitude currentGPS - altitude originGPS))%R
    with (zOffsetDesired + (altitude currentGPS - altitude originGPS))%R by ring.
  rewrite !andb_true_iff.
  repeat match goal with
         | |- context [Rlt_bool ?a ?b] => destruct (Rlt_bool_spec a b)
         end; intuition (try discriminate; try lra).
Qed.

Lemma cycleInBounds_false (originGPS : GPSFused) (q : Quaternion) (currentGPS : GPSFused) :
  (posThresholdInM
   <= Rabs (xOffsetDesired - (latitude currentGPS - latitude originGPS) * C_EARTH)
   \/ posThresholdInM
      <= Rabs (yOffsetDesired - (longitude currentGPS - longitude originGPS) * C_EARTH
                                * cos (latitude currentGPS))
   \/ zDeadband <= Rabs (zOffsetDesired + (altitude currentGPS - altitude originGPS))
   \/ DEG2RAD * yawThresholdInDeg <= Rabs (vz (toEulerAngle q) - DEG2RAD * yawDesired))%R ->
  cycleInBounds DEG2RAD C_EARTH xOffsetDesired yOffsetDesired zOffsetDesired
                yawDesired posThresholdInM yawThresholdInDeg originGPS q currentGPS = false.
Proof.
  intros H.
  destruct (cycleInBounds DEG2RAD C_EARTH xOffsetDesired yOffsetDesired zOffsetDesired
              yawDesired posThresholdInM yawThresholdInDeg originGPS q currentGPS) eqn:E;
    [|reflexivity].
  apply cycleInBounds_true_iff in E. lra.
Qed.

(** The within-bounds counter grows by at most one cycle time per cycle. *)
Lemma updateCounters_within_le (b : bool) (w o : Z) :
  0 <= w -> 0 <= fst (updateCounters 20 200 b w o) <= w + 20.
Proof.
  intros Hw. unfold updateCounters, accumulateCounters, resetCounters.
  destruct b; [|destruct (negb (w =? 0))]; cbn [fst snd];
    match goal with |- context [?a >? ?b] => destruct (a >? b) end; cbn [fst]; lia.
Qed.

(** X7: when the condition of line 360 is false in each of the 500 cycles,
    [moveByPositionOffset] sends 500 position commands, brakes, prints the
    timeout message, removes the package and returns [ACK::FAIL]. *)
Theorem never_within_bounds_times_out :
  forall (extra : nat) (vehicle : Vehicle) (w : World),
    verify_ack vehicle = SUCCESS ->
    initPackage_status vehicle = true ->
    startPackage_ack vehicle = SUCCESS ->
    (forall k, 1 <= k <= 500 -> inBoundsCycle vehicle w k = false) ->
    exists cmds : list Event,
      Z.of_nat (List.length cmds) = 500
      /\ Forall (is_positionCmd DEG2RAD yawDesired
                   (altitude (gps_fused vehicle (cycle_time w 0)) + zOffsetDesired)%R) cmds
      /\ move (501 + extra)%nat vehicle w
         = Some (ret_ACK FAIL,
                 move_end w 500 cmds (EvPrint msg_task_timeout :: removal_events vehicle)).
Proof. exact never_in_bounds_run. Qed.

(** X8: when the condition of line 360 holds in each of the first fifty
    cycles, [moveByPositionOffset] leaves its loop after the fiftieth, one
    second after the loop started, brakes, removes the package and returns
    [ACK::SUCCESS], without a message about a timeout. *)
Theorem within_bounds_from_start_succeeds :
  forall (extra : nat) (vehicle : Vehicle) (w : World),
    verify_ack vehicle = SUCCESS ->
    initPackage_status vehicle = true ->
    startPackage_ack vehicle = SUCCESS ->
    (forall k, 1 <= k <= 50 -> inBoundsCycle vehicle w k = true) ->
    exists cmds : list Event,
      Z.of_nat (List.length cmds) = 50
      /\ Forall (is_positionCmd DEG2RAD yawDesired
                   (altitude (gps_fused vehicle (cycle_time w 0)) + zOffsetDesired)%R) cmds
      /\ move (501 + extra)%nat vehicle w
         = Some (ret_ACK SUCCESS, move_end w 50 cmds (removal_events vehicle)).
Proof. exact always_in_bounds_run. Qed.

(** A started move returns, after 50 to 500 cycles. *)
Lemma moveByPositionOffset_returns (extra : nat) (vehicle : Vehicle) (w : World) :
  verify_ack vehicle = SUCCESS ->
  initPackage_status vehicle = true ->
  startPackage_ack vehicle = SUCCESS ->
  exists (n : Z) (cmds : list Event) (r : ErrorCode) (finish : list Event),
    move (501 + extra)%nat vehicle w
    = Some (ret_ACK r, move_end w n cmds (finish ++ removal_events vehicle))
    /\ Z.of_nat (List.length cmds) = n
    /\ Forall (is_positionCmd DEG2RAD yawDesired
                 (altitude (gps_fused vehicle (cycle_time w 0)) + zOffsetDesired)%R) cmds
    /\ ((r = SUCCESS /\ 50 <= n < 500 /\ finish = [])
        \/ (r = FAIL /\ n = 500 /\ finish = [EvPrint msg_task_timeout])).
Proof.
  intros Hv Hi Hs.
  destruct (moveByPositionOffset_outcome extra vehicle w
              (fun k s => 0 <= withinBoundsCounter s <= 20 * k)
              (fun n s => 0 <= withinBoundsCounter s <= 20 * n) Hv Hi Hs)
    as (n & s & cmds & Hn & HQ & He & Hout & Hlen & Hcmds & Hrun).
  - intros k s Hk Hw He Hlt.
    pose proof (cycle_counters (gps_fused vehicle (cycle_time w 0)) s
                  (quaternion vehicle (cycle_time w (k + 1)))
                  (gps_fused vehicle (cycle_time w (k + 1)))) as Hcc.
    cbv zeta in Hcc.
    match type of Hcc with context [updateCounters 20 200 ?b ?x ?y] =>
      pose proof (updateCounters_within_le b x y (proj1 Hw)) as Hle end.
    destruct (cycle _ s _ _) as [s'|s']; destruct Hcc as (W & _ & _); rewrite W; lia.
  - intros k s Hk Hw _ _. exact Hw.
  - cbn. lia.
  - change cycleTimeInMs with 20 in He.
    unfold timeoutInMilSec, withinControlBoundsTimeReqmt in *.
    change cycleTimeInMs with 20 in Hout.
    destruct (elapsedTimeInMs s >=? 10000) eqn:E.
    + exists n, cmds, FAIL, [EvPrint msg_task_timeout].
      split; [exact Hrun|]. split; [exact Hlen|]. split; [exact Hcmds|].
      right. repeat split; lia.
    + exists n, cmds, SUCCESS, [].
      split; [exact Hrun|]. split; [exact Hlen|]. split; [exact Hcmds|].
      left. repeat split; lia.
Qed.

(** X9: a started [moveByPositionOffset] returns [ACK::SUCCESS] after at
    least 50 and fewer than 500 cycles, or [ACK::FAIL] after exactly 500,
    the message about the timeout printed in the second case only; with [n]
    cycles it takes 1 s, [n] times 20 ms and the 1 ms of the brake loop. *)
Theorem moveByPositionOffset_cycles_and_duration :
  forall (extra : nat) (vehicle : Vehicle) (w : World),
    verify_ack vehicle = SUCCESS ->
    initPackage_status vehicle = true ->
    startPackage_ack vehicle = SUCCESS ->
    exists (n : Z) (cmds : list Event) (r : ErrorCode) (finish : list Event),
      move (501 + extra)%nat vehicle w
      = Some (ret_ACK r, move_end w n cmds (finish ++ removal_events vehicle))
      /\ Z.of_nat (List.length cmds) = n
      /\ clock_us (move_end w n cmds (finish ++ removal_events vehicle))
         = clock_us w + 1000000 + 20000 * n + 1000
      /\ ((r = SUCCESS /\ 50 <= n < 500 /\ finish = [])
          \/ (r = FAIL /\ n = 500 /\ finish = [EvPrint msg_task_timeout])).
Proof.
  intros extra vehicle w Hv Hi Hs.
  destruct (moveByPositionOffset_returns extra vehicle w Hv Hi Hs)
    as (n & cmds & r & finish & Hrun & Hlen & _ & Hcases).
  exists n, cmds, r, finish.
  split; [exact Hrun|]. split; [exact Hlen|]. split; [|exact Hcases].
  unfold move_end, cycle_time. cbn [clock_us]. change cycleTimeInMs with 20. lia.
Qed.

(** X10: the altitude test of line 362 compares the altitude gained since
    the origin with the opposite of [zOffsetDesired]: when in every cycle
    the aircraft is within [2 * |zOffsetDesired| - 0.12] of the altitude
    [zCmd] it was commanded to, the loop is never within bounds and the
    function returns [ACK::FAIL] after its 500 cycles. *)
Theorem holding_commanded_altitude_times_out :
  forall (extra : nat) (vehicle : Vehicle) (w : World),
    verify_ack vehicle = SUCCESS ->
    initPackage_status vehicle = true ->
    startPackage_ack vehicle = SUCCESS ->
    (forall k, 1 <= k <= 500 ->
       (Rabs (altitude (gps_fused vehicle (cycle_time w k))
              - (altitude (gps_fused vehicle (cycle_time w 0)) + zOffsetDesired))
        <= 2 * Rabs zOffsetDesired - 12 / 100)%R) ->
    exists cmds : list Event,
      Z.of_nat (List.length cmds) = 500
      /\ Forall (is_positionCmd DEG2RAD yawDesired
                   (altitude (gps_fused vehicle (cycle_time w 0)) + zOffsetDesired)%R) cmds
      /\ move (501 + extra)%nat vehicle w
         = Some (ret_ACK FAIL,
                 move_end w 500 cmds (EvPrint msg_task_timeout :: removal_events vehicle)).
Proof.
  intros extra vehicle w Hv Hi Hs Halt.
  apply never_in_bounds_run; try assumption.
  intros k Hk. unfold inBoundsAt. apply cycleInBounds_false.
  right. right. left.
  specialize (Halt k Hk). revert Halt.
  unfold zDeadband, Rabs. repeat destruct Rcase_abs; lra.
Qed.

(** X11: a tolerance that is not positive cannot be met.  With a position
    threshold that is zero or negative, or a yaw threshold that is zero or
    negative in radians, no cycle is within bounds, and the function returns
    [ACK::FAIL] after its 500 cycles whatever the aircraft does, also when it
    is exactly at the goal. *)
Theorem unmeetable_tolerance_times_out :
  forall (extra : nat) (vehicle : Vehicle) (w : World),
    verify_ack vehicle = SUCCESS ->
    initPackage_status vehicle = true ->
    startPackage_ack vehicle = SUCCESS ->
    (posThresholdInM <= 0 \/ DEG2RAD * yawThresholdInDeg <= 0)%R ->
    exists cmds : list Event,
      Z.of_nat (List.length cmds) = 500
      /\ Forall (is_positionCmd DEG2RAD yawDesired
                   (altitude (gps_fused vehicle (cycle_time w 0)) + zOffsetDesired)%R) cmds
      /\ move (501 + extra)%nat vehicle w
         = Some (ret_ACK FAIL,
                 move_end w 500 cmds (EvPrint msg_task_timeout :: removal_events vehicle)).
Proof.
  intros extra vehicle w Hv Hi Hs Htol.
  apply never_in_bounds_run; try assumption.
  intros k _. unfold inBoundsAt. apply cycleInBounds_false.
  destruct Htol as [Hp | Hy].
  - left. eapply Rle_trans; [exact Hp | apply Rabs_pos].
  - right. right. right. eapply Rle_trans; [exact Hy | apply Rabs_pos].
Qed.

End PositionControlRuns.

(** *** Concrete runs *)

Lemma hovering_never_reaches_offset (k : Z) :
  inBoundsAt DEG2RAD_value C_EARTH_value 0 6 6 30 (2 / 10) 1 vehicle_hovering world0 k = false.
Proof.
  unfold inBoundsAt. apply cycleInBounds_false. right. right. left.
  cbn [vehicle_hovering gps_fused gps_origin altitude].
  unfold zDeadband, Rabs. destruct Rcase_abs; lra.
Qed.

Lemma settles_late_profile (k : Z) :
  1 <= k <= 500 ->
  inBoundsAt DEG2RAD_value C_EARTH_value 0 0 0 0 (2 / 10) 1 vehicle_settles_late world0 k
  = negb (k <=? 450).
Proof.
  intros Hk. unfold inBoundsAt, vehicle_settles_late, cycle_time.
  cbn [gps_fused quaternion world0 clock_us]. change cycleTimeInMs with 20.
  change (0 + 1 * 1000000 + 0 * (20 * 1000) <=? 1000000) with true. cbv iota.
  destruct (Z.leb_spec (0 + 1 * 1000000 + k * (20 * 1000)) 1000000); [lia|].
  destruct (Z.leb_spec (0 + 1 * 1000000 + k * (20 * 1000)) 10000000);
    destruct (Z.leb_spec k 450); try lia; cbn [negb].
  - exact hold_too_high_out_of_bounds.
  - exact hold_at_goal_in_bounds.
Qed.

Lemma dwell_reached_at_ceiling_returns_FAIL_witness :
  exists (s s0 : LoopState) (w2 : World) (cmds : list Event),
    hold_loop (501 + 0) vehicle_settles_late
              (gps_fused vehicle_settles_late (cycle_time world0 0))
              (altitude (gps_fused vehicle_settles_late (cycle_time world0 0)) + 0)%R
              (mkLoopState 0 0 0 (initialCmd speedFactor 0) (initialCmd speedFactor 0))
              (loop_start world0) = Some (s, w2)
    /\ controlCycle DEG2RAD_value C_EARTH_value 0 0 0 0 (2 / 10) 1
                    (gps_fused vehicle_settles_late (cycle_time world0 0)) s0
                    (quaternion vehicle_settles_late (cycle_time world0 500))
                    (gps_fused vehicle_settles_late (cycle_time world0 500)) = Break s
    /\ withinBoundsCounter s = withinControlBoundsTimeReqmt
    /\ elapsedTimeInMs s = timeoutInMilSec
    /\ Z.of_nat (List.length cmds) = 500
    /\ hold_move (501 + 0) vehicle_settles_late world0
       = Some (ret_ACK FAIL,
               move_end world0 500 cmds
                 (EvPrint msg_task_timeout :: removal_events vehicle_settles_late)).
Proof.
  apply (dwell_reached_at_ceiling_returns_FAIL DEG2RAD_value C_EARTH_value 0 0 0 0 (2 / 10) 1
           0%nat vehicle_settles_late world0 eq_refl eq_refl eq_refl).
  - intros k Hk. rewrite settles_late_profile by lia.
    destruct (Z.leb_spec k 450); [reflexivity | lia].
  - intros k Hk. rewrite settles_late_profile by lia.
    destruct (Z.leb_spec k 450); [lia | reflexivity].
Defined.

Lemma never_within_bounds_times_out_witness :
  exists cmds : list Event,
    Z.of_nat (List.length cmds) = 500
    /\ Forall (is_positionCmd DEG2RAD_value 30 (0 + 6)%R) cmds
    /\ sample_move (501 + 0) vehicle_hovering world0
       = Some (ret_ACK FAIL,
               move_end world0 500 cmds
                 (EvPrint msg_task_timeout :: removal_events vehicle_hovering)).
Proof.
  exact (never_within_bounds_times_out DEG2RAD_value C_EARTH_value 0 6 6 30 (2 / 10) 1
           0%nat vehicle_hovering world0 eq_refl eq_refl eq_refl
           (fun k _ => hovering_never_reaches_offset k)).
Defined.

Lemma within_bounds_from_start_succeeds_witness :
  exists cmds : list Event,
    Z.of_nat (List.length cmds) = 50
    /\ Forall (is_positionCmd DEG2RAD_value 0 (0 + 0)%R) cmds
    /\ hold_move (501 + 0) vehicle_hovering world0
       = Some (ret_ACK SUCCESS, move_end world0 50 cmds (removal_events vehicle_hovering)).
Proof.
  exact (within_bounds_from_start_succeeds DEG2RAD_value C_EARTH_value 0 0 0 0 (2 / 10) 1
           0%nat vehicle_hovering world0 eq_refl eq_refl eq_refl
           (fun k _ => hold_at_goal_in_bounds)).
Defined.

Lemma moveByPositionOffset_cycles_and_duration_witness :
  exists (n : Z) (cmds : list Event) (r : ErrorCode) (finish : list Event),
    sample_move (501 + 0) vehicle_hovering world0
    = Some (ret_ACK r, move_end world0 n cmds (finish ++ removal_events vehicle_hovering))
    /\ Z.of_nat (List.length cmds) = n
    /\ clock_us (move_end world0 n cmds (finish ++ removal_events vehicle_hovering))
       = clock_us world0 + 1000000 + 20000 * n + 1000
    /\ ((r = SUCCESS /\ 50 <= n < 500 /\ finish = [])
        \/ (r = FAIL /\ n = 500 /\ finish = [EvPrint msg_task_timeout])).
Proof.
  exact (moveByPositionOffset_cycles_and_duration DEG2RAD_value C_EARTH_value 0 6 6 30
           (2 / 10) 1 0%nat vehicle_hovering world0 eq_refl eq_refl eq_refl).
Defined.

Lemma climbs_holds_commanded_altitude (k : Z) :
  1 <= k <= 500 ->
  (Rabs (altitude (gps_fused vehicle_climbs (cycle_time world0 k))
         - (altitude (gps_fused vehicle_climbs (cycle_time world0 0)) + 6))
   <= 2 * Rabs 6 - 12 / 100)%R.
Proof.
  intros Hk. unfold vehicle_climbs, cycle_time. cbn [gps_fused world0 clock_us].
  change cycleTimeInMs with 20.
  destruct (0 + 1 * 1000000 + k * (20 * 1000) <=? 1000000) eqn:E;
    [apply Z.leb_le in E; lia|].
  cbn [altitude gps_origin]. cbn.
  replace (6 - (0 + 6))%R with 0%R by ring. rewrite Rabs_R0.
  unfold Rabs. destruct Rcase_abs; lra.
Qed.

Lemma holding_commanded_altitude_times_out_witness :
  exists cmds : list Event,
    Z.of_nat (List.length cmds) = 500
    /\ Forall (is_positionCmd DEG2RAD_value 0 (0 + 6)%R) cmds
    /\ moveByPositionOffset DEG2RAD_value C_EARTH_value 0 0 6 0 (2 / 10) 1
         (501 + 0) vehicle_climbs world0
       = Some (ret_ACK FAIL,
               move_end world0 500 cmds
                 (EvPrint msg_task_timeout :: removal_events vehicle_climbs)).
Proof.
  exact (holding_commanded_altitude_times_out DEG2RAD_value C_EARTH_value 0 0 6 0 (2 / 10) 1
           0%nat vehicle_climbs world0 eq_refl eq_refl eq_refl
           climbs_holds_commanded_altitude).
Defined.

Lemma unmeetable_tolerance_times_out_witness :
  exists cmds : list Event,
    Z.of_nat (List.length cmds) = 500
    /\ Forall (is_positionCmd DEG2RAD_value 0 (0 + 0)%R) cmds
    /\ moveByPositionOffset DEG2RAD_value C_EARTH_value 0 0 0 0 0 1
         (501 + 0) vehicle_hovering world0
       = Some (ret_ACK FAIL,
               move_end world0 500 cmds
                 (EvPrint msg_task_timeout :: removal_events vehicle_hovering)).
Proof.
  apply (unmeetable_tolerance_times_out DEG2RAD_value C_EARTH_value 0 0 0 0 0 1
           0%nat vehicle_hovering world0 eq_refl eq_refl eq_refl).
  left. lra.
Defined.


(** ** The monitors, phase by phase *)

Lemma bind_run {A B : Type} (m : M A) (f : A -> M B) (w : World) (a : A) (w1 : World) :
  m w = Some (a, w1) -> bind m f w = f a w1.
Proof. intros H. unfold bind. rewrite H. reflexivity. Qed.

Lemma bind_None {A B : Type} (m : M A) (f : A -> M B) (w : World) :
  m w = None -> bind m f w = None.
Proof. intros H. unfold bind. rewrite H. reflexivity. Qed.

Lemma bind_cout {B : Type} (msg : string) (k : M B) (w : World) :
  (cout msg ;;; k) w = k (mkWorld (clock_us w) (trace w ++ [EvPrint msg])).
Proof. reflexivity. Qed.

Section PollLoopRuns.

Variable cond : Z -> M bool.
Variable test : Z -> bool.
Variable budget : Z.
Hypothesis budget_nonneg : 0 <= budget.
Hypothesis cond_polls :
  forall n w, cond n w = Some (test (clock_us w) && (n <? budget), w).

Variable w0 : World.
Variable n : Z.
Hypothesis n_range : 0 <= n <= budget.
Hypothesis test_before : forall j, 0 <= j < n -> test (clock_us w0 + j * 100000) = true.
Hypothesis test_at : n < budget -> test (clock_us w0 + n * 100000) = false.

(** The loop stops at the first poll at which the condition is false, or
    when the budget is used up. *)
Lemma poll_loop_stops_only_at (fuel : nat) (n' : Z) (w : World) :
  while fuel cond poll_body 0 w0 = Some (n', w) ->
  n' = n /\ w = mkWorld (clock_us w0 + n * 100000) (trace w0).
Proof.
  intros H.
  apply (poll_loop_result cond test budget budget_nonneg cond_polls) in H.
  destruct H as ((Hn & Hw & Hj) & Hstop).
  assert (E : n' = n).
  { destruct (Z.lt_trichotomy n' n) as [Hlt | [E | Hgt]]; [|exact E|].
    - rewrite (test_before n') in Hstop by lia. specialize (Hstop ltac:(lia)). discriminate.
    - rewrite Hj in test_at by lia. specialize (test_at ltac:(lia)). discriminate. }
  subst n'. split; [reflexivity | exact Hw].
Qed.

Lemma poll_loop_stops_at (fuel : nat) :
  (Z.to_nat budget < fuel)%nat ->
  while fuel cond poll_body 0 w0 = Some (n, mkWorld (clock_us w0 + n * 100000) (trace w0)).
Proof.
  intros Hfuel.
  destruct (poll_loop_returns cond test budget budget_nonneg cond_polls w0 fuel Hfuel)
    as (n' & w & Hrun & _).
  destruct (poll_loop_stops_only_at _ _ _ Hrun) as [-> ->]. exact Hrun.
Qed.

End PollLoopRuns.

Section WaitLoopRuns.

Variable cond : unit -> M bool.
Variable test : Z -> bool.
Hypothesis cond_reads : forall u w, cond u w = Some (test (clock_us w), w).

(** A loop that sleeps a second while its condition holds returns at the
    first second at which it does not. *)
Lemma wait_loop_stops_at (j : nat) :
  forall (fuel : nat) (w0 : World),
    (forall i, 0 <= i < Z.of_nat j -> test (clock_us w0 + i * 1000000) = true) ->
    test (clock_us w0 + Z.of_nat j * 1000000) = false ->
    (j < fuel)%nat ->
    while fuel cond (fun _ => sleep 1 ;;; ret (Continue tt)) tt w0
    = Some (tt, mkWorld (clock_us w0 + Z.of_nat j * 1000000) (trace w0)).
Proof.
  induction j as [|j IH]; intros fuel w0 Hbefore Hat Hfuel;
    (destruct fuel as [|fuel]; [lia|]); cbn [while]; unfold bind at 1;
    rewrite cond_reads.
  - replace (clock_us w0 + Z.of_nat 0 * 1000000) with (clock_us w0) in * by lia.
    rewrite Hat. destruct w0; reflexivity.
  - assert (H0 : test (clock_us w0) = true).
    { replace (clock_us w0) with (clock_us w0 + 0 * 1000000) by lia. apply Hbefore. lia. }
    rewrite H0. cbv beta iota delta [bind sleep usleep ret].
    rewrite IH; cbn [clock_us trace].
    + f_equal. f_equal. f_equal. lia.
    + intros i Hi.
      replace (clock_us w0 + 1 * 1000000 + i * 1000000)
        with (clock_us w0 + (i + 1) * 1000000) by lia.
      apply Hbefore. lia.
    + replace (clock_us w0 + 1 * 1000000 + Z.of_nat j * 1000000)
        with (clock_us w0 + Z.of_nat (S j) * 1000000) by lia.
      exact Hat.
    + lia.
Qed.

(** It has no other way out: while the condition holds at every second, no
    amount of fuel makes it return. *)
Lemma wait_loop_never_returns (fuel : nat) :
  forall w0 : World,
    (forall i, 0 <= i -> test (clock_us w0 + i * 1000000) = true) ->
    while fuel cond (fun _ => sleep 1 ;;; ret (Continue tt)) tt w0 = None.
Proof.
  induction fuel as [|fuel IH]; intros w0 Hall; [reflexivity|].
  cbn [while]. unfold bind at 1. rewrite cond_reads.
  assert (H0 : test (clock_us w0) = true).
  { replace (clock_us w0) with (clock_us w0 + 0 * 1000000) by lia. apply Hall. lia. }
  rewrite H0. cbv beta iota delta [bind sleep usleep ret].
  apply IH. cbn [clock_us]. intros i Hi.
  replace (clock_us w0 + 1 * 1000000 + i * 1000000)
    with (clock_us w0 + (i + 1) * 1000000) by lia.
  apply Hall. lia.
Qed.

End WaitLoopRuns.

(** The second takeoff loop tests the flight status only: no display mode
    equals both takeoff modes. *)
Lemma still_on_ground_status (vehicle : Vehicle) (t : Z) :
  still_on_ground vehicle t = FlightStatus_neqb (status_flight vehicle t) IN_AIR.
Proof.
  unfold still_on_ground.
  destruct (status_displaymode vehicle t); cbn; apply andb_true_r.
Qed.

Lemma takeoff_in_progress_true (vehicle : Vehicle) (t : Z) :
  takeoff_in_progress vehicle t = true
  <-> status_displaymode vehicle t = MODE_ASSISTED_TAKEOFF
      \/ status_displaymode vehicle t = MODE_AUTO_TAKEOFF.
Proof.
  unfold takeoff_in_progress.
  destruct (status_displaymode vehicle t); cbn; split; intros H;
    try discriminate; try reflexivity; try (destruct H; discriminate); auto.
Qed.

Lemma takeoff_in_progress_false (vehicle : Vehicle) (t : Z) :
  status_displaymode vehicle t <> MODE_ASSISTED_TAKEOFF ->
  status_displaymode vehicle t <> MODE_AUTO_TAKEOFF ->
  takeoff_in_progress vehicle t = false.
Proof.
  intros H1 H2. destruct (takeoff_in_progress vehicle t) eqn:E; [|reflexivity].
  apply takeoff_in_progress_true in E. destruct E; contradiction.
Qed.

Lemma motors_not_started_true (vehicle : Vehicle) (t : Z) :
  status_flight vehicle t <> ON_GROUND ->
  status_displaymode vehicle t <> MODE_ENGINE_START ->
  motors_not_started vehicle t = true.
Proof.
  intros Hf Hm. unfold motors_not_started.
  apply FlightStatus_neqb_true in Hf. apply DisplayMode_neqb_true in Hm.
  rewrite Hf, Hm. reflexivity.
Qed.

Lemma motors_not_started_false (vehicle : Vehicle) (t : Z) :
  status_flight vehicle t = ON_GROUND \/ status_displaymode vehicle t = MODE_ENGINE_START ->
  motors_not_started vehicle t = false.
Proof.
  intros H. destruct (motors_not_started vehicle t) eqn:E; [|reflexivity].
  unfold motors_not_started in E. apply andb_true_iff in E. destruct E as [Hf Hm].
  apply FlightStatus_neqb_true in Hf. apply DisplayMode_neqb_true in Hm.
  destruct H; contradiction.
Qed.

Lemma landing_in_progress_true (vehicle : Vehicle) (t : Z) :
  landing_in_progress vehicle t = true
  <-> status_displaymode vehicle t = MODE_AUTO_LANDING /\ status_flight vehicle t = IN_AIR.
Proof.
  unfold landing_in_progress.
  destruct (status_displaymode vehicle t), (status_flight vehicle t); cbn; split;
    intros H; try discriminate; try (destruct H; discriminate); auto.
Qed.

Lemma landing_in_progress_false (vehicle : Vehicle) (t : Z) :
  status_displaymode vehicle t <> MODE_AUTO_LANDING \/ status_flight vehicle t <> IN_AIR ->
  landing_in_progress vehicle t = false.
Proof.
  intros H. destruct (landing_in_progress vehicle t) eqn:E; [|reflexivity].
  apply landing_in_progress_true in E. destruct E, H; contradiction.
Qed.

(** *** The loops of the monitors *)

Lemma takeoff_motors_loop_stops_at (fuel : nat) (vehicle : Vehicle) (w : World) (n : Z) :
  0 <= n <= 20 ->
  (forall j, 0 <= j < n -> motors_not_started vehicle (clock_us w + j * 100000) = true) ->
  (n < 20 -> motors_not_started vehicle (clock_us w + n * 100000) = false) ->
  (20 < fuel)%nat ->
  takeoff_motors_loop fuel vehicle 20 w
  = Some (n, mkWorld (clock_us w + n * 100000) (trace w)).
Proof.
  intros Hn Hb Ha Hfuel. unfold takeoff_motors_loop.
  apply (poll_loop_stops_at _ (motors_not_started vehicle) 20); try assumption; try lia.
  intros; reflexivity.
Qed.

Lemma takeoff_motors_loop_stops_only_at (fuel : nat) (vehicle : Vehicle) (w : World)
      (n n' : Z) (w' : World) :
  0 <= n <= 20 ->
  (forall j, 0 <= j < n -> motors_not_started vehicle (clock_us w + j * 100000) = true) ->
  (n < 20 -> motors_not_started vehicle (clock_us w + n * 100000) = false) ->
  takeoff_motors_loop fuel vehicle 20 w = Some (n', w') ->
  n' = n /\ w' = mkWorld (clock_us w + n * 100000) (trace w).
Proof.
  intros Hn Hb Ha. unfold takeoff_motors_loop.
  apply (poll_loop_stops_only_at _ (motors_not_started vehicle) 20); try assumption; try lia.
  intros; reflexivity.
Qed.

Lemma takeoff_in_air_loop_stops_at (fuel : nat) (vehicle : Vehicle) (w : World) (n : Z) :
  0 <= n <= 110 ->
  (forall j, 0 <= j < n -> still_on_ground vehicle (clock_us w + j * 100000) = true) ->
  (n < 110 -> still_on_ground vehicle (clock_us w + n * 100000) = false) ->
  (110 < fuel)%nat ->
  takeoff_in_air_loop fuel vehicle 110 w
  = Some (n, mkWorld (clock_us w + n * 100000) (trace w)).
Proof.
  intros Hn Hb Ha Hfuel. unfold takeoff_in_air_loop.
  apply (poll_loop_stops_at _ (still_on_ground vehicle) 110); try assumption; try lia.
  intros; reflexivity.
Qed.

Lemma takeoff_in_air_loop_stops_only_at (fuel : nat) (vehicle : Vehicle) (w : World)
      (n n' : Z) (w' : World) :
  0 <= n <= 110 ->
  (forall j, 0 <= j < n -> still_on_ground vehicle (clock_us w + j * 100000) = true) ->
  (n < 110 -> still_on_ground vehicle (clock_us w + n * 100000) = false) ->
  takeoff_in_air_loop fuel vehicle 110 w = Some (n', w') ->
  n' = n /\ w' = mkWorld (clock_us w + n * 100000) (trace w).
Proof.
  intros Hn Hb Ha. unfold takeoff_in_air_loop.
  apply (poll_loop_stops_only_at _ (still_on_ground vehicle) 110); try assumption; try lia.
  intros; reflexivity.
Qed.

Lemma landing_started_loop_stops_at (fuel : nat) (vehicle : Vehicle) (w : World) (n : Z) :
  0 <= n <= 20 ->
  (forall j, 0 <= j < n -> landing_not_started vehicle (clock_us w + j * 100000) = true) ->
  (n < 20 -> landing_not_started vehicle (clock_us w + n * 100000) = false) ->
  (20 < fuel)%nat ->
  landing_started_loop fuel vehicle 20 w
  = Some (n, mkWorld (clock_us w + n * 100000) (trace w)).
Proof.
  intros Hn Hb Ha Hfuel. unfold landing_started_loop.
  apply (poll_loop_stops_at _ (landing_not_started vehicle) 20); try assumption; try lia.
  intros; reflexivity.
Qed.

Lemma landing_started_loop_stops_only_at (fuel : nat) (vehicle : Vehicle) (w : World)
      (n n' : Z) (w' : World) :
  0 <= n <= 20 ->
  (forall j, 0 <= j < n -> landing_not_started vehicle (clock_us w + j * 100000) = true) ->
  (n < 20 -> landing_not_started vehicle (clock_us w + n * 100000) = false) ->
  landing_started_loop fuel vehicle 20 w = Some (n', w') ->
  n' = n /\ w' = mkWorld (clock_us w + n * 100000) (trace w).
Proof.
  intros Hn Hb Ha. unfold landing_started_loop.
  apply (poll_loop_stops_only_at _ (landing_not_started vehicle) 20); try assumption; try lia.
  intros; reflexivity.
Qed.

Lemma takeoff_finished_loop_stops_at (fuel : nat) (vehicle : Vehicle) (w : World) (j : Z) :
  0 <= j ->
  (forall i, 0 <= i < j -> takeoff_in_progress vehicle (clock_us w + i * 1000000) = true) ->
  takeoff_in_progress vehicle (clock_us w + j * 1000000) = false ->
  (Z.to_nat j < fuel)%nat ->
  takeoff_finished_loop fuel vehicle w
  = Some (tt, mkWorld (clock_us w + j * 1000000) (trace w)).
Proof.
  intros Hj Hb Ha Hfuel. unfold takeoff_finished_loop.
  rewrite <- (Z2Nat.id j Hj) in Hb, Ha |- *.
  apply (wait_loop_stops_at _ (takeoff_in_progress vehicle)); try assumption.
  intros; reflexivity.
Qed.

Lemma landing_finished_loop_stops_at (fuel : nat) (vehicle : Vehicle) (w : World) (j : Z) :
  0 <= j ->
  (forall i, 0 <= i < j -> landing_in_progress vehicle (clock_us w + i * 1000000) = true) ->
  landing_in_progress vehicle (clock_us w + j * 1000000) = false ->
  (Z.to_nat j < fuel)%nat ->
  landing_finished_loop fuel vehicle w
  = Some (tt, mkWorld (clock_us w + j * 1000000) (trace w)).
Proof.
  intros Hj Hb Ha Hfuel. unfold landing_finished_loop.
  rewrite <- (Z2Nat.id j Hj) in Hb, Ha |- *.
  apply (wait_loop_stops_at _ (landing_in_progress vehicle)); try assumption.
  intros; reflexivity.
Qed.

Lemma monitoredTakeoff_motors_never_started (vehicle : Vehicle) (timeout : Z)
      (extra : nat) (w : World) :
  verify_ack vehicle = SUCCESS ->
  initPackage_status vehicle = true ->
  startPackage_ack vehicle = SUCCESS ->
  takeoff_ack vehicle = SUCCESS ->
  (forall k, 0 <= k < 20 ->
             status_flight vehicle (clock_us w + k * 100000) <> ON_GROUND
             /\ status_displaymode vehicle (clock_us w + k * 100000) <> MODE_ENGINE_START) ->
  monitoredTakeoff (21 + extra) vehicle timeout w
  = Some (false,
          mkWorld (clock_us w + 20 * 100000)
                  (trace w ++ setup_events_10Hz ++
                   [EvTakeoff; EvPrint msg_motors_not_spinning; EvRemovePackage 0])).
Proof.
  intros Hv Hi Hs Ht Hnot.
  rewrite (monitoredTakeoff_acknowledged _ _ _ _ Hv Hi Hs Ht).
  unfold takeoff_checks. cbv zeta.
  erewrite bind_run; cycle 1.
  { apply (takeoff_motors_loop_stops_at _ vehicle _ 20); cbn [clock_us]; try lia.
    intros k Hk. apply motors_not_started_true; apply Hnot; exact Hk. }
  rewrite Z.eqb_refl. rewrite bind_cout.
  unfold subscribe_removePackage, emit, ret, bind. cbn [clock_us trace].
  f_equal. f_equal. f_equal.
  rewrite <- !app_assoc. reflexivity.
Qed.

Lemma motors_not_started_inv (vehicle : Vehicle) (t : Z) :
  (motors_not_started vehicle t = true ->
   status_flight vehicle t <> ON_GROUND /\ status_displaymode vehicle t <> MODE_ENGINE_START)
  /\ (motors_not_started vehicle t = false ->
      status_flight vehicle t = ON_GROUND \/ status_displaymode vehicle t = MODE_ENGINE_START).
Proof.
  unfold motors_not_started. split; intros H.
  - apply andb_true_iff in H. destruct H as [Hf Hm].
    apply FlightStatus_neqb_true in Hf. apply DisplayMode_neqb_true in Hm. auto.
  - apply andb_false_iff in H. destruct H as [H|H].
    + left. destruct (status_flight vehicle t); cbn in H; try discriminate H. reflexivity.
    + right. destruct (status_displaymode vehicle t); cbn in H; try discriminate H.
      reflexivity.
Qed.

Lemma takeoff_in_air_checks_never_not_spinning (fuel : nat) (vehicle : Vehicle)
      (pkgIndex timeout : Z) :
  emits (fun e => e <> EvPrint msg_motors_not_spinning)
        (takeoff_in_air_checks fuel vehicle pkgIndex timeout).
Proof.
  unfold takeoff_in_air_checks. emits_unfold.
  repeat emits_step; try discriminate.
  all: unfold getValue_STATUS_DISPLAYMODE; try apply emits_read.
Qed.

(** C2, as amended: once the takeoff command is acknowledged, (1) if at each
    of the 20 polls, a tenth of a second apart, the flight status is not
    on-ground and the display mode is not engine-start, then
    [monitoredTakeoff] uses up the 20 cycles, prints that the motors are not
    spinning, removes the package and returns [false]; (2) if at one of these
    20 polls the flight status is on-ground or the display mode is
    engine-start, then the first loop, with fuel above 20, returns at the
    first such poll [n] with the count [n] below 20, and [monitoredTakeoff]
    goes on from there: it has printed that the motors are spinning and is
    its second check run from that time; (3) that second check and what
    follows it never print that the motors are not spinning; so (4) whatever
    a run that passed the phase returns, it printed that the motors are
    spinning and never that they are not. *)
Theorem takeoff_motors_phase :
  forall (vehicle : Vehicle) (timeout : Z) (extra : nat) (w : World),
    verify_ack vehicle = SUCCESS ->
    initPackage_status vehicle = true ->
    startPackage_ack vehicle = SUCCESS ->
    takeoff_ack vehicle = SUCCESS ->
    ((forall k, 0 <= k < 20 ->
                status_flight vehicle (clock_us w + k * 100000) <> ON_GROUND /\
                status_displaymode vehicle (clock_us w + k * 100000) <> MODE_ENGINE_START) ->
     monitoredTakeoff (21 + extra) vehicle timeout w
     = Some (false,
             mkWorld (clock_us w + 20 * 100000)
                     (trace w ++ setup_events_10Hz ++
                      [EvTakeoff; EvPrint msg_motors_not_spinning; EvRemovePackage 0])))
    /\
    (forall k, 0 <= k < 20 ->
               (status_flight vehicle (clock_us w + k * 100000) = ON_GROUND \/
                status_displaymode vehicle (clock_us w + k * 100000) = MODE_ENGINE_START) ->
     exists n,
       0 <= n <= k
       /\ (forall j, 0 <= j < n ->
                     status_flight vehicle (clock_us w + j * 100000) <> ON_GROUND /\
                     status_displaymode vehicle (clock_us w + j * 100000)
                     <> MODE_ENGINE_START)
       /\ (status_flight vehicle (clock_us w + n * 100000) = ON_GROUND \/
           status_displaymode vehicle (clock_us w + n * 100000) = MODE_ENGINE_START)
       /\ takeoff_motors_loop (21 + extra) vehicle 20
            (mkWorld (clock_us w) (trace w ++ setup_events_10Hz ++ [EvTakeoff]))
          = Some (n, mkWorld (clock_us w + n * 100000)
                             (trace w ++ setup_events_10Hz ++ [EvTakeoff]))
       /\ monitoredTakeoff (21 + extra) vehicle timeout w
          = takeoff_in_air_checks (21 + extra) vehicle 0 timeout
              (mkWorld (clock_us w + n * 100000)
                       (trace w ++ setup_events_10Hz ++
                        [EvTakeoff; EvPrint msg_motors_spinning])))
    /\
    (forall fuel pkgIndex,
        emits (fun e => e <> EvPrint msg_motors_not_spinning)
              (takeoff_in_air_checks fuel vehicle pkgIndex timeout))
    /\
    (forall k, 0 <= k < 20 ->
               (status_flight vehicle (clock_us w + k * 100000) = ON_GROUND \/
                status_displaymode vehicle (clock_us w + k * 100000) = MODE_ENGINE_START) ->
     forall fuel b w',
       monitoredTakeoff fuel vehicle timeout w = Some (b, w') ->
       exists evs,
         trace w' = trace w ++ setup_events_10Hz ++
                    [EvTakeoff; EvPrint msg_motors_spinning] ++ evs
         /\ ~ In (EvPrint msg_motors_not_spinning) evs).
Proof.
  intros vehicle timeout extra w Hv Hi Hs Ht.
  set (w1 := mkWorld (clock_us w) (trace w ++ setup_events_10Hz ++ [EvTakeoff])).
  split; [|split; [|split]].
  - exact (monitoredTakeoff_motors_never_started vehicle timeout extra w Hv Hi Hs Ht).
  - intros k Hk Hstarted.
    destruct (takeoff_motors_loop_returns (21 + extra) vehicle 20 w1 ltac:(lia) ltac:(lia))
      as (n & w2 & Hrun & (Hn & Hw2 & Hj) & Hstop).
    cbn [clock_us trace w1] in Hw2, Hj, Hstop.
    assert (Hnk : n <= k).
    { destruct (Z_le_gt_dec n k) as [H|H]; [exact H|exfalso].
      specialize (Hj k ltac:(lia)).
      rewrite (motors_not_started_false _ _ Hstarted) in Hj. discriminate Hj. }
    specialize (Hstop ltac:(lia)).
    exists n. split; [lia|].
    split; [intros j Hjn; exact (proj1 (motors_not_started_inv vehicle _) (Hj j Hjn))|].
    split; [exact (proj2 (motors_not_started_inv vehicle _) Hstop)|].
    split; [rewrite Hrun, Hw2; reflexivity|].
    rewrite (monitoredTakeoff_acknowledged _ _ _ _ Hv Hi Hs Ht). fold w1.
    unfold takeoff_checks, takeoff_in_air_checks. cbv zeta.
    rewrite (bind_run _ _ _ _ _ Hrun).
    replace (n =? 20) with false by (symmetry; apply Z.eqb_neq; lia).
    rewrite bind_cout. rewrite Hw2. cbn [clock_us trace].
    rewrite <- !app_assoc. reflexivity.
  - intros fuel pkgIndex. apply takeoff_in_air_checks_never_not_spinning.
  - intros k Hk Hstarted fuel b w' Hrun.
    rewrite (monitoredTakeoff_acknowledged _ _ _ _ Hv Hi Hs Ht) in Hrun. fold w1 in Hrun.
    unfold takeoff_checks in Hrun. cbv zeta in Hrun.
    apply bind_Some in Hrun. destruct Hrun as (n & w2 & Hloop & Hrest).
    apply takeoff_motors_loop_result in Hloop; [|lia].
    destruct Hloop as ((Hn & Hw2 & Hj) & Hstop).
    assert (Hne : (n =? 20) = false).
    { apply Z.eqb_neq. intros ->.
      specialize (Hj k Hk). cbn [clock_us w1] in Hj.
      rewrite (motors_not_started_false _ _ Hstarted) in Hj. discriminate Hj. }
    rewrite Hne in Hrest. rewrite bind_cout in Hrest.
    destruct (takeoff_in_air_checks_never_not_spinning fuel vehicle 0 timeout _ _ _ Hrest)
      as (evs & E & F).
    exists evs. split.
    + rewrite E. subst w2. cbn [trace w1]. rewrite <- !app_assoc. reflexivity.
    + rewrite Forall_forall in F. intros Hin. exact (F _ Hin eq_refl).
Qed.

Lemma takeoff_motors_phase_witness :
  monitoredTakeoff (21 + 0) vehicle_motors_off 1 world0
  = Some (false,
          mkWorld (clock_us world0 + 20 * 100000)
                  (trace world0 ++ setup_events_10Hz ++
                   [EvTakeoff; EvPrint msg_motors_not_spinning; EvRemovePackage 0]))
  /\ exists n,
      0 <= n <= 0
      /\ takeoff_motors_loop (21 + 0) vehicle_stuck_on_ground 20
           (mkWorld (clock_us world0) (trace world0 ++ setup_events_10Hz ++ [EvTakeoff]))
         = Some (n, mkWorld (clock_us world0 + n * 100000)
                            (trace world0 ++ setup_events_10Hz ++ [EvTakeoff]))
      /\ monitoredTakeoff (21 + 0) vehicle_stuck_on_ground 1 world0
         = takeoff_in_air_checks (21 + 0) vehicle_stuck_on_ground 0 1
             (mkWorld (clock_us world0 + n * 100000)
                      (trace world0 ++ setup_events_10Hz ++
                       [EvTakeoff; EvPrint msg_motors_spinning])).
Proof.
  split.
  - refine (proj1 (takeoff_motors_phase vehicle_motors_off 1 0%nat world0
                     eq_refl eq_refl eq_refl eq_refl) _).
    intros k Hk. split; discriminate.
  - destruct (proj1 (proj2 (takeoff_motors_phase vehicle_stuck_on_ground 1 0%nat world0
                              eq_refl eq_refl eq_refl eq_refl))
                0 ltac:(lia) (or_introl eq_refl))
      as (n & Hn & _ & _ & Hloop & Hrun).
    exists n. split; [exact Hn|]. split; [exact Hloop | exact Hrun].
Defined.

(** *** monitoredTakeoff *)

(** X12: once the motors are seen started, at the poll [n1], the second
    check of [monitoredTakeoff] looks at the flight status only: if it is not
    in-air at each of the next 110 polls, whatever the display mode, the
    function prints that the aircraft is still on the ground, removes the
    package and returns [false], 11 seconds after the motors were seen. *)
Theorem monitoredTakeoff_still_on_ground :
  forall (vehicle : Vehicle) (timeout : Z) (extra : nat) (w : World) (n1 : Z),
    verify_ack vehicle = SUCCESS ->
    initPackage_status vehicle = true ->
    startPackage_ack vehicle = SUCCESS ->
    takeoff_ack vehicle = SUCCESS ->
    0 <= n1 < 20 ->
    (forall k, 0 <= k < n1 ->
               status_flight vehicle (clock_us w + k * 100000) <> ON_GROUND
               /\ status_displaymode vehicle (clock_us w + k * 100000) <> MODE_ENGINE_START) ->
    (status_flight vehicle (clock_us w + n1 * 100000) = ON_GROUND
     \/ status_displaymode vehicle (clock_us w + n1 * 100000) = MODE_ENGINE_START) ->
    (forall k, 0 <= k < 110 ->
               status_flight vehicle (clock_us w + (n1 + k) * 100000) <> IN_AIR) ->
    monitoredTakeoff (111 + extra) vehicle timeout w
    = Some (false,
            mkWorld (clock_us w + (n1 + 110) * 100000)
                    (trace w ++ setup_events_10Hz ++
                     [EvTakeoff; EvPrint msg_motors_spinning;
                      EvPrint msg_still_on_ground; EvRemovePackage 0])).
Proof.
  intros vehicle timeout extra w n1 Hv Hi Hs Ht Hn1 Hm1 Hm2 Hg.
  rewrite (monitoredTakeoff_acknowledged _ _ _ _ Hv Hi Hs Ht).
  unfold takeoff_checks. cbv zeta.
  erewrite bind_run; cycle 1.
  { apply (takeoff_motors_loop_stops_at _ vehicle _ n1); cbn [clock_us]; try lia.
    - intros j Hj. apply motors_not_started_true; apply Hm1; exact Hj.
    - intros _. apply motors_not_started_false. exact Hm2. }
  replace (n1 =? 20) with false by (symmetry; apply Z.eqb_neq; lia).
  rewrite bind_cout. cbn [clock_us trace].
  erewrite bind_run; cycle 1.
  { apply (takeoff_in_air_loop_stops_at _ vehicle _ 110); cbn [clock_us]; try lia.
    intros j Hj. rewrite still_on_ground_status. apply FlightStatus_neqb_true.
    replace (clock_us w + n1 * 100000 + j * 100000)
      with (clock_us w + (n1 + j) * 100000) by lia.
    apply Hg. exact Hj. }
  rewrite Z.eqb_refl. rewrite bind_cout. cbn [clock_us trace].
  unfold subscribe_removePackage, emit, ret, bind. cbn [clock_us trace].
  f_equal. f_equal. f_equal; [lia|].
  rewrite <- !app_assoc. reflexivity.
Qed.

(** X13: a complete successful takeoff.  If the motors are seen started at
    the poll [n1] < 20, the flight status is in-air for the first time
    [n2] < 110 polls later, and the display mode is one of the two takeoff
    modes at each of the next [j] seconds and neither of them then, then
    [monitoredTakeoff] returns [true] at that time, having printed its three
    progress messages and removed the package; the display mode the aircraft
    ends in plays no role. *)
Theorem monitoredTakeoff_succeeds :
  forall (vehicle : Vehicle) (timeout : Z) (fuel : nat) (w : World) (n1 n2 j : Z),
    verify_ack vehicle = SUCCESS ->
    initPackage_status vehicle = true ->
    startPackage_ack vehicle = SUCCESS ->
    takeoff_ack vehicle = SUCCESS ->
    0 <= n1 < 20 -> 0 <= n2 < 110 -> 0 <= j ->
    (110 < fuel)%nat -> (Z.to_nat j < fuel)%nat ->
    (forall k, 0 <= k < n1 ->
               status_flight vehicle (clock_us w + k * 100000) <> ON_GROUND
               /\ status_displaymode vehicle (clock_us w + k * 100000) <> MODE_ENGINE_START) ->
    (status_flight vehicle (clock_us w + n1 * 100000) = ON_GROUND
     \/ status_displaymode vehicle (clock_us w + n1 * 100000) = MODE_ENGINE_START) ->
    (forall k, 0 <= k < n2 ->
               status_flight vehicle (clock_us w + (n1 + k) * 100000) <> IN_AIR) ->
    status_flight vehicle (clock_us w + (n1 + n2) * 100000) = IN_AIR ->
    (forall i, 0 <= i < j ->
               status_displaymode vehicle (clock_us w + (n1 + n2) * 100000 + i * 1000000)
               = MODE_ASSISTED_TAKEOFF
               \/ status_displaymode vehicle (clock_us w + (n1 + n2) * 100000 + i * 1000000)
                  = MODE_AUTO_TAKEOFF) ->
    status_displaymode vehicle (clock_us w + (n1 + n2) * 100000 + j * 1000000)
    <> MODE_ASSISTED_TAKEOFF ->
    status_displaymode vehicle (clock_us w + (n1 + n2) * 100000 + j * 1000000)
    <> MODE_AUTO_TAKEOFF ->
    monitoredTakeoff fuel vehicle timeout w
    = Some (true,
            mkWorld (clock_us w + (n1 + n2) * 100000 + j * 1000000)
                    (trace w ++ setup_events_10Hz ++
                     [EvTakeoff; EvPrint msg_motors_spinning; EvPrint msg_ascending;
                      EvPrint msg_takeoff_ok] ++ removal_events vehicle)).
Proof.
  intros vehicle timeout fuel w n1 n2 j Hv Hi Hs Ht Hn1 Hn2 Hj Hfuel Hfuelj
         Hm1 Hm2 Hg1 Hg2 Hf1 Hf2 Hf3.
  rewrite (monitoredTakeoff_acknowledged _ _ _ _ Hv Hi Hs Ht).
  unfold takeoff_checks. cbv zeta.
  erewrite bind_run; cycle 1.
  { apply (takeoff_motors_loop_stops_at _ vehicle _ n1); cbn [clock_us]; try lia.
    - intros k Hk. apply motors_not_started_true; apply Hm1; exact Hk.
    - intros _. apply motors_not_started_false. exact Hm2. }
  replace (n1 =? 20) with false by (symmetry; apply Z.eqb_neq; lia).
  rewrite bind_cout. cbn [clock_us trace].
  erewrite bind_run; cycle 1.
  { apply (takeoff_in_air_loop_stops_at _ vehicle _ n2); cbn [clock_us]; try lia.
    - intros k Hk. rewrite still_on_ground_status. apply FlightStatus_neqb_true.
      replace (clock_us w + n1 * 100000 + k * 100000)
        with (clock_us w + (n1 + k) * 100000) by lia.
      apply Hg1. exact Hk.
    - intros _. rewrite still_on_ground_status.
      replace (clock_us w + n1 * 100000 + n2 * 100000)
        with (clock_us w + (n1 + n2) * 100000) by lia.
      rewrite Hg2. reflexivity. }
  replace (n2 =? 110) with false by (symmetry; apply Z.eqb_neq; lia).
  rewrite bind_cout. cbn [clock_us trace].
  replace (clock_us w + n1 * 100000 + n2 * 100000)
    with (clock_us w + (n1 + n2) * 100000) by lia.
  erewrite bind_run; cycle 1.
  { apply (takeoff_finished_loop_stops_at _ vehicle _ j); cbn [clock_us]; try assumption.
    - intros i Hi'. apply takeoff_in_progress_true. apply Hf1. exact Hi'.
    - apply takeoff_in_progress_false; assumption. }
  unfold bind at 1 2. unfold getValue_STATUS_DISPLAYMODE.
  rewrite settled_mode_accepted_same. rewrite bind_cout.
  unfold bind. rewrite removePackage_warn_run. unfold ret. cbn [clock_us trace].
  f_equal. f_equal. f_equal.
  rewrite <- !app_assoc. reflexivity.
Qed.

(** X14: the last wait of [monitoredTakeoff] has no timeout.  If the first
    two checks pass as above and the display mode is one of the two takeoff
    modes at every later second, the function does not return, whatever the
    fuel. *)
Theorem monitoredTakeoff_waits_without_timeout :
  forall (vehicle : Vehicle) (timeout : Z) (w : World) (n1 n2 : Z),
    verify_ack vehicle = SUCCESS ->
    initPackage_status vehicle = true ->
    startPackage_ack vehicle = SUCCESS ->
    takeoff_ack vehicle = SUCCESS ->
    0 <= n1 < 20 -> 0 <= n2 < 110 ->
    (forall k, 0 <= k < n1 ->
               status_flight vehicle (clock_us w + k * 100000) <> ON_GROUND
               /\ status_displaymode vehicle (clock_us w + k * 100000) <> MODE_ENGINE_START) ->
    (status_flight vehicle (clock_us w + n1 * 100000) = ON_GROUND
     \/ status_displaymode vehicle (clock_us w + n1 * 100000) = MODE_ENGINE_START) ->
    (forall k, 0 <= k < n2 ->
               status_flight vehicle (clock_us w + (n1 + k) * 100000) <> IN_AIR) ->
    status_flight vehicle (clock_us w + (n1 + n2) * 100000) = IN_AIR ->
    (forall i, 0 <= i ->
               status_displaymode vehicle (clock_us w + (n1 + n2) * 100000 + i * 1000000)
               = MODE_ASSISTED_TAKEOFF
               \/ status_displaymode vehicle (clock_us w + (n1 + n2) * 100000 + i * 1000000)
                  = MODE_AUTO_TAKEOFF) ->
    forall fuel : nat, monitoredTakeoff fuel vehicle timeout w = None.
Proof.
  intros vehicle timeout w n1 n2 Hv Hi Hs Ht Hn1 Hn2 Hm1 Hm2 Hg1 Hg2 Hf fuel.
  rewrite (monitoredTakeoff_acknowledged _ _ _ _ Hv Hi Hs Ht).
  unfold takeoff_checks. cbv zeta.
  match goal with
  | |- bind ?m _ ?w0 = None => destruct (m w0) as [[n1' w1]|] eqn:L1
  end; [|apply bind_None; exact L1].
  rewrite (bind_run _ _ _ _ _ L1).
  apply (takeoff_motors_loop_stops_only_at _ vehicle _ n1) in L1; cbn [clock_us]; try lia.
  2: { intros k Hk. apply motors_not_started_true; apply Hm1; exact Hk. }
  2: { intros _. apply motors_not_started_false. exact Hm2. }
  cbn [clock_us trace] in L1. destruct L1 as [-> ->].
  replace (n1 =? 20) with false by (symmetry; apply Z.eqb_neq; lia).
  rewrite bind_cout. cbn [clock_us trace].
  match goal with
  | |- bind ?m _ ?w0 = None => destruct (m w0) as [[n2' w2]|] eqn:L2
  end; [|apply bind_None; exact L2].
  rewrite (bind_run _ _ _ _ _ L2).
  apply (takeoff_in_air_loop_stops_only_at _ vehicle _ n2) in L2; cbn [clock_us]; try lia.
  2: { intros k Hk. rewrite still_on_ground_status. apply FlightStatus_neqb_true.
       replace (clock_us w + n1 * 100000 + k * 100000)
         with (clock_us w + (n1 + k) * 100000) by lia.
       apply Hg1. exact Hk. }
  2: { intros _. rewrite still_on_ground_status.
       replace (clock_us w + n1 * 100000 + n2 * 100000)
         with (clock_us w + (n1 + n2) * 100000) by lia.
       rewrite Hg2. reflexivity. }
  cbn [clock_us trace] in L2. destruct L2 as [-> ->].
  replace (n2 =? 110) with false by (symmetry; apply Z.eqb_neq; lia).
  rewrite bind_cout. cbn [clock_us trace].
  apply bind_None. unfold takeoff_finished_loop.
  apply (wait_loop_never_returns _ (takeoff_in_progress vehicle)).
  - intros; reflexivity.
  - cbn [clock_us]. intros i Hi'. apply takeoff_in_progress_true.
    replace (clock_us w + n1 * 100000 + n2 * 100000)
      with (clock_us w + (n1 + n2) * 100000) by lia.
    apply Hf. exact Hi'.
Qed.

(** *** monitoredLanding *)

(** X15: if the display mode is not automatic landing at any of the 20
    polls after the landing command, [monitoredLanding] prints that the
    aircraft is still in the air, removes the package (with the warning when
    that fails) and returns [false], two seconds after the command. *)
Theorem monitoredLanding_not_started :
  forall (vehicle : Vehicle) (timeout : Z) (extra : nat) (w : World),
    verify_ack vehicle = SUCCESS ->
    initPackage_status vehicle = true ->
    startPackage_ack vehicle = SUCCESS ->
    land_ack vehicle = SUCCESS ->
    (forall k, 0 <= k < 20 ->
               status_displaymode vehicle (clock_us w + k * 100000) <> MODE_AUTO_LANDING) ->
    monitoredLanding (21 + extra) vehicle timeout w
    = Some (false,
            mkWorld (clock_us w + 20 * 100000)
                    (trace w ++ setup_events_10Hz ++
                     [EvLand; EvPrint msg_landing_not_started] ++ removal_events vehicle)).
Proof.
  intros vehicle timeout extra w Hv Hi Hs Ht Hnot.
  rewrite (monitoredLanding_acknowledged _ _ _ _ Hv Hi Hs Ht).
  unfold landing_checks. cbv zeta.
  erewrite bind_run; cycle 1.
  { apply (landing_started_loop_stops_at _ vehicle _ 20); cbn [clock_us]; try lia.
    intros k Hk. unfold landing_not_started. apply DisplayMode_neqb_true.
    apply Hnot. exact Hk. }
  rewrite Z.eqb_refl. rewrite bind_cout.
  unfold bind. rewrite removePackage_warn_run. unfold ret. cbn [clock_us trace].
  f_equal. f_equal. f_equal.
  rewrite <- !app_assoc. reflexivity.
Qed.

(** X16: a complete successful landing.  If the display mode is automatic
    landing for the first time at the poll [n1] < 20, and at each of the
    next [j] seconds it still is and the flight status is in-air, and one of
    the two is no longer so then, [monitoredLanding] returns [true] at that
    time, having printed its two progress messages and removed the package;
    the display mode the aircraft ends in plays no role. *)
Theorem monitoredLanding_succeeds :
  forall (vehicle : Vehicle) (timeout : Z) (fuel : nat) (w : World) (n1 j : Z),
    verify_ack vehicle = SUCCESS ->
    initPackage_status vehicle = true ->
    startPackage_ack vehicle = SUCCESS ->
    land_ack vehicle = SUCCESS ->
    0 <= n1 < 20 -> 0 <= j ->
    (20 < fuel)%nat -> (Z.to_nat j < fuel)%nat ->
    (forall k, 0 <= k < n1 ->
               status_displaymode vehicle (clock_us w + k * 100000) <> MODE_AUTO_LANDING) ->
    status_displaymode vehicle (clock_us w + n1 * 100000) = MODE_AUTO_LANDING ->
    (forall i, 0 <= i < j ->
               status_displaymode vehicle (clock_us w + n1 * 100000 + i * 1000000)
               = MODE_AUTO_LANDING
               /\ status_flight vehicle (clock_us w + n1 * 100000 + i * 1000000) = IN_AIR) ->
    (status_displaymode vehicle (clock_us w + n1 * 100000 + j * 1000000)
     <> MODE_AUTO_LANDING
     \/ status_flight vehicle (clock_us w + n1 * 100000 + j * 1000000) <> IN_AIR) ->
    monitoredLanding fuel vehicle timeout w
    = Some (true,
            mkWorld (clock_us w + n1 * 100000 + j * 1000000)
                    (trace w ++ setup_events_10Hz ++
                     [EvLand; EvPrint msg_landing; EvPrint msg_landing_ok]
                     ++ removal_events vehicle)).
Proof.
  intros vehicle timeout fuel w n1 j Hv Hi Hs Ht Hn1 Hj Hfuel Hfuelj Hm1 Hm2 Hf1 Hf2.
  rewrite (monitoredLanding_acknowledged _ _ _ _ Hv Hi Hs Ht).
  unfold landing_checks. cbv zeta.
  erewrite bind_run; cycle 1.
  { apply (landing_started_loop_stops_at _ vehicle _ n1); cbn [clock_us]; try lia.
    - intros k Hk. unfold landing_not_started. apply DisplayMode_neqb_true.
      apply Hm1. exact Hk.
    - intros _. unfold landing_not_started, DisplayMode_neqb. rewrite Hm2. reflexivity. }
  replace (n1 =? 20) with false by (symmetry; apply Z.eqb_neq; lia).
  rewrite bind_cout. cbn [clock_us trace].
  erewrite bind_run; cycle 1.
  { apply (landing_finished_loop_stops_at _ vehicle _ j); cbn [clock_us]; try assumption.
    - intros i Hi'. apply landing_in_progress_true. apply Hf1. exact Hi'.
    - apply landing_in_progress_false. exact Hf2. }
  unfold bind at 1 2. unfold getValue_STATUS_DISPLAYMODE.
  rewrite settled_mode_accepted_same. rewrite bind_cout.
  unfold bind. rewrite removePackage_warn_run. unfold ret. cbn [clock_us trace].
  f_equal. f_equal. f_equal.
  rewrite <- !app_assoc. reflexivity.
Qed.

(** X17: the last wait of [monitoredLanding] has no timeout.  If the landing
    is seen started at the poll [n1] < 20 and at every later second the
    display mode is automatic landing and the flight status in-air, the
    function does not return, whatever the fuel. *)
Theorem monitoredLanding_waits_without_timeout :
  forall (vehicle : Vehicle) (timeout : Z) (w : World) (n1 : Z),
    verify_ack vehicle = SUCCESS ->
    initPackage_status vehicle = true ->
    startPackage_ack vehicle = SUCCESS ->
    land_ack vehicle = SUCCESS ->
    0 <= n1 < 20 ->
    (forall k, 0 <= k < n1 ->
               status_displaymode vehicle (clock_us w + k * 100000) <> MODE_AUTO_LANDING) ->
    status_displaymode vehicle (clock_us w + n1 * 100000) = MODE_AUTO_LANDING ->
    (forall i, 0 <= i ->
               status_displaymode vehicle (clock_us w + n1 * 100000 + i * 1000000)
               = MODE_AUTO_LANDING
               /\ status_flight vehicle (clock_us w + n1 * 100000 + i * 1000000) = IN_AIR) ->
    forall fuel : nat, monitoredLanding fuel vehicle timeout w = None.
Proof.
  intros vehicle timeout w n1 Hv Hi Hs Ht Hn1 Hm1 Hm2 Hf fuel.
  rewrite (monitoredLanding_acknowledged _ _ _ _ Hv Hi Hs Ht).
  unfold landing_checks. cbv zeta.
  match goal with
  | |- bind ?m _ ?w0 = None => destruct (m w0) as [[n1' w1]|] eqn:L1
  end; [|apply bind_None; exact L1].
  rewrite (bind_run _ _ _ _ _ L1).
  apply (landing_started_loop_stops_only_at _ vehicle _ n1) in L1; cbn [clock_us]; try lia.
  2: { intros k Hk. unfold landing_not_started. apply DisplayMode_neqb_true.
       apply Hm1. exact Hk. }
  2: { intros _. unfold landing_not_started, DisplayMode_neqb. rewrite Hm2. reflexivity. }
  cbn [clock_us trace] in L1. destruct L1 as [-> ->].
  replace (n1 =? 20) with false by (symmetry; apply Z.eqb_neq; lia).
  rewrite bind_cout. cbn [clock_us trace].
  apply bind_None. unfold landing_finished_loop.
  apply (wait_loop_never_returns _ (landing_in_progress vehicle)).
  - intros; reflexivity.
  - cbn [clock_us]. intros i Hi'. apply landing_in_progress_true. apply Hf. exact Hi'.
Qed.

(** *** Concrete runs of the monitors *)

Ltac telemetry_cases :=
  cbn [status_flight status_displaymode clock_us world0
       vehicle_stuck_on_ground vehicle_climbs_out vehicle_takes_off vehicle_lands
       vehicle_keeps_descending vehicle_ignores_landing];
  repeat match goal with
         | |- context [?a <? ?b] => destruct (Z.ltb_spec a b)
         end;
  try lia; try discriminate; try reflexivity; auto.

Ltac telemetry_side :=
  solve [ reflexivity | lia | intros; lia | intros; telemetry_cases
        | left; telemetry_cases | right; telemetry_cases
        | intros; left; telemetry_cases | intros; right; telemetry_cases
        | intros; split; telemetry_cases ].

Lemma monitoredTakeoff_still_on_ground_witness :
  monitoredTakeoff (111 + 0) vehicle_stuck_on_ground 1 world0
  = Some (false,
          mkWorld (clock_us world0 + (0 + 110) * 100000)
                  (trace world0 ++ setup_events_10Hz ++
                   [EvTakeoff; EvPrint msg_motors_spinning;
                    EvPrint msg_still_on_ground; EvRemovePackage 0])).
Proof.
  apply (monitoredTakeoff_still_on_ground vehicle_stuck_on_ground 1 0%nat world0 0);
    telemetry_side.
Defined.

Lemma monitoredTakeoff_succeeds_witness :
  monitoredTakeoff 111 vehicle_climbs_out 1 world0
  = Some (true,
          mkWorld (clock_us world0 + (0 + 5) * 100000 + 2 * 1000000)
                  (trace world0 ++ setup_events_10Hz ++
                   [EvTakeoff; EvPrint msg_motors_spinning; EvPrint msg_ascending;
                    EvPrint msg_takeoff_ok] ++ removal_events vehicle_climbs_out)).
Proof.
  apply (monitoredTakeoff_succeeds vehicle_climbs_out 1 111%nat world0 0 5 2);
    telemetry_side.
Defined.

Lemma monitoredTakeoff_waits_without_timeout_witness :
  monitoredTakeoff 1000 (vehicle_takes_off MODE_AUTO_TAKEOFF) 1 world0 = None.
Proof.
  apply (monitoredTakeoff_waits_without_timeout (vehicle_takes_off MODE_AUTO_TAKEOFF) 1
           world0 0 5); telemetry_side.
Defined.

Lemma monitoredLanding_not_started_witness :
  monitoredLanding (21 + 0) vehicle_ignores_landing 1 world0
  = Some (false,
          mkWorld (clock_us world0 + 20 * 100000)
                  (trace world0 ++ setup_events_10Hz ++
                   [EvLand; EvPrint msg_landing_not_started]
                   ++ removal_events vehicle_ignores_landing)).
Proof.
  apply (monitoredLanding_not_started vehicle_ignores_landing 1 0%nat world0);
    telemetry_side.
Defined.

Lemma monitoredLanding_succeeds_witness :
  monitoredLanding 21 (vehicle_lands MODE_P_GPS) 1 world0
  = Some (true,
          mkWorld (clock_us world0 + 0 * 100000 + 3 * 1000000)
                  (trace world0 ++ setup_events_10Hz ++
                   [EvLand; EvPrint msg_landing; EvPrint msg_landing_ok]
                   ++ removal_events (vehicle_lands MODE_P_GPS))).
Proof.
  apply (monitoredLanding_succeeds (vehicle_lands MODE_P_GPS) 1 21%nat world0 0 3);
    telemetry_side.
Defined.

Lemma monitoredLanding_waits_without_timeout_witness :
  monitoredLanding 1000 vehicle_keeps_descending 1 world0 = None.
Proof.
  apply (monitoredLanding_waits_without_timeout vehicle_keeps_descending 1 world0 3);
    telemetry_side.
Defined.


(** ** Failures before the package is started *)

(** X18: when the version check fails, each of the three functions returns
    [false] after that call alone; when the package cannot be initialised,
    each returns [false] after the two calls: no package is started or
    removed, no command is sent, nothing is printed and no time passes. *)
Theorem setup_failure_returns_at_once :
  forall (DEG2RAD C_EARTH xOffsetDesired yOffsetDesired zOffsetDesired yawDesired
          posThresholdInM yawThresholdInDeg : R)
         (fuel : nat) (vehicle : Vehicle) (timeout : Z) (w : World),
    (verify_ack vehicle = FAIL ->
     monitoredTakeoff fuel vehicle timeout w
     = Some (false, mkWorld (clock_us w) (trace w ++ [EvVerify]))
     /\ monitoredLanding fuel vehicle timeout w
        = Some (false, mkWorld (clock_us w) (trace w ++ [EvVerify]))
     /\ moveByPositionOffset DEG2RAD C_EARTH xOffsetDesired yOffsetDesired zOffsetDesired
          yawDesired posThresholdInM yawThresholdInDeg fuel vehicle w
        = Some (ret_bool false, mkWorld (clock_us w) (trace w ++ [EvVerify])))
    /\ (verify_ack vehicle = SUCCESS -> initPackage_status vehicle = false ->
        monitoredTakeoff fuel vehicle timeout w
        = Some (false,
                mkWorld (clock_us w)
                        (trace w ++ [EvVerify;
                                     EvInitPackage 0 [TOPIC_STATUS_FLIGHT;
                                                      TOPIC_STATUS_DISPLAYMODE] 10]))
        /\ monitoredLanding fuel vehicle timeout w
           = Some (false,
                   mkWorld (clock_us w)
                           (trace w ++ [EvVerify;
                                        EvInitPackage 0 [TOPIC_STATUS_FLIGHT;
                                                         TOPIC_STATUS_DISPLAYMODE] 10]))
        /\ moveByPositionOffset DEG2RAD C_EARTH xOffsetDesired yOffsetDesired
             zOffsetDesired yawDesired posThresholdInM yawThresholdInDeg fuel vehicle w
           = Some (ret_bool false,
                   mkWorld (clock_us w)
                           (trace w ++ [EvVerify;
                                        EvInitPackage 0 [TOPIC_QUATERNION;
                                                         TOPIC_GPS_FUSED] 50]))).
Proof.
  intros D C xd yd zd yaw pt yt fuel vehicle timeout w. split.
  - intros Hv.
    unfold monitoredTakeoff, monitoredLanding, moveByPositionOffset, bind,
      subscribe_verify, emit, ret.
    cbn. rewrite Hv. cbn. repeat split.
  - intros Hv Hi.
    unfold monitoredTakeoff, monitoredLanding, moveByPositionOffset, bind,
      subscribe_verify, subscribe_initPackageFromTopicList, emit, ret.
    cbn. rewrite Hv, Hi. cbn. rewrite <- !app_assoc. repeat split.
Qed.

(** ** The counters over a run of cycles *)

Lemma countersAfter_app (flags1 flags2 : list bool) (c : Z * Z) :
  countersAfter (flags1 ++ flags2) c = countersAfter flags2 (countersAfter flags1 c).
Proof. unfold countersAfter. apply fold_left_app. Qed.

Lemma countersAfter_cons (b : bool) (flags : list bool) (c : Z * Z) :
  countersAfter (b :: flags) c
  = countersAfter flags
      (updateCounters cycleTimeInMs outOfControlBoundsTimeLimit b (fst c) (snd c)).
Proof. reflexivity. Qed.

Lemma countersAfter_within_limit (flags : list bool) :
  forall w o : Z,
    0 < w -> 0 <= o ->
    o + 20 * Z.of_nat (count_occ bool_dec flags false) <= 200 ->
    countersAfter flags (w, o)
    = (w + 20 * Z.of_nat (count_occ bool_dec flags true),
       o + 20 * Z.of_nat (count_occ bool_dec flags false)).
Proof.
  induction flags as [|b flags IH]; intros w o Hw Ho Hlim.
  - cbn. f_equal; lia.
  - rewrite countersAfter_cons. cbn [fst snd].
    change cycleTimeInMs with 20. change outOfControlBoundsTimeLimit with 200.
    unfold updateCounters, accumulateCounters, resetCounters.
    destruct b.
    + rewrite (count_occ_cons_eq bool_dec flags (eq_refl true)).
      rewrite (count_occ_cons_neq bool_dec flags (x := true) (y := false)) in Hlim |- *
        by discriminate.
      replace (o >? 200) with false by (symmetry; rewrite Z.gtb_ltb; apply Z.ltb_ge; lia).
      rewrite IH by lia. f_equal; lia.
    + rewrite (count_occ_cons_eq bool_dec flags (eq_refl false)) in Hlim |- *.
      rewrite (count_occ_cons_neq bool_dec flags (x := false) (y := true)) by discriminate.
      replace (w =? 0) with false by (symmetry; apply Z.eqb_neq; lia).
      cbn [negb].
      replace (o + 20 >? 200) with false by (symmetry; rewrite Z.gtb_ltb; apply Z.ltb_ge; lia).
      rewrite IH by lia. f_equal; lia.
Qed.

(** X19: how the loop counts towards its one second within bounds.  Cycles
    out of bounds before the first cycle within bounds count for nothing.
    Once the within-bounds counter is positive, the cycles out of bounds are
    counted together, whether they follow one another or not, and the cycles
    within bounds do not take them back: while they are at most ten, both
    counters are the sums of the cycle times; the eleventh resets both
    counters to zero. *)
Theorem dwell_counts_excursions_in_total :
  (forall n : nat, countersAfter (repeat false n) (0, 0) = (0, 0))
  /\ (forall (flags : list bool) (w o : Z),
        0 < w -> 0 <= o ->
        o + 20 * Z.of_nat (count_occ bool_dec flags false) <= 200 ->
        countersAfter flags (w, o)
        = (w + 20 * Z.of_nat (count_occ bool_dec flags true),
           o + 20 * Z.of_nat (count_occ bool_dec flags false)))
  /\ (forall (flags : list bool) (w o : Z),
        0 < w -> 0 <= o ->
        o + 20 * Z.of_nat (count_occ bool_dec flags false) = 200 ->
        countersAfter (flags ++ [false]) (w, o) = (0, 0)).
Proof.
  split; [|split].
  - induction n as [|n IH]; [reflexivity|].
    cbn [repeat]. rewrite countersAfter_cons. exact IH.
  - exact countersAfter_within_limit.
  - intros flags w o Hw Ho Hlim.
    rewrite countersAfter_app, countersAfter_within_limit by lia.
    rewrite Hlim. unfold countersAfter. cbn [fold_left fst snd].
    change cycleTimeInMs with 20. change outOfControlBoundsTimeLimit with 200.
    unfold updateCounters, accumulateCounters, resetCounters.
    replace (w + 20 * Z.of_nat (count_occ bool_dec flags true) =? 0) with false
      by (symmetry; apply Z.eqb_neq; lia).
    reflexivity.
Qed.

(** ** The horizontal setpoint *)

Section SetpointBound.

Variable P : Event -> Prop.

(** A loop whose body keeps a property of the state emits what its body
    emits from the states with that property. *)
Lemma emits_while_inv {St : Type} (I : St -> Prop) (cond : St -> M bool)
      (body : St -> M (LoopCtl St)) :
  (forall s, emits P (cond s)) ->
  (forall s w r w', I s -> body s w = Some (r, w') ->
                    I (loop_state r)
                    /\ exists evs, trace w' = trace w ++ evs /\ Forall P evs) ->
  forall fuel s, I s -> emits P (while fuel cond body s).
Proof.
  intros Hc Hb fuel. induction fuel as [|fuel IH]; intros s HI.
  - intros w a w' H. discriminate H.
  - cbn [while]. apply emits_bind; [apply Hc|]. intros [|]; [|apply emits_ret].
    intros w a w' H. apply bind_Some in H. destruct H as (r & w1 & Hr & H).
    destruct (Hb s w r w1 HI Hr) as (HI' & e1 & E1 & F1).
    destruct r as [s'|s'].
    + destruct (IH s' HI' _ _ _ H) as (e2 & E2 & F2).
      exists (e1 ++ e2). split; [rewrite E2, E1; symmetry; apply app_assoc|].
      apply Forall_app. split; assumption.
    + injection H as <- <-. exists e1. split; assumption.
Qed.

End SetpointBound.

Lemma initialCmd_bound (d : R) : (Rabs (initialCmd speedFactor d) <= 2)%R.
Proof.
  unfold initialCmd, speedFactor. change (IZR (-1 * 2)) with (-2)%R.
  repeat match goal with
         | |- context [Rlt_bool ?a ?b] => destruct (Rlt_bool_spec a b)
         end; unfold Rabs; destruct Rcase_abs; lra.
Qed.

Lemma updateCmd_bound (offsetRemaining cmd : R) :
  (Rabs cmd <= 2)%R -> (Rabs (updateCmd speedFactor offsetRemaining cmd) <= 2)%R.
Proof.
  intros H. unfold updateCmd, speedFactor.
  destruct (Rlt_bool_spec (Rabs offsetRemaining) 2); lra.
Qed.

(** X20: every position command of [moveByPositionOffset] has x and y
    setpoints of magnitude at most [speedFactor] (2 m), whatever the desired
    offsets, the telemetry and the acknowledgements are. *)
Theorem horizontal_setpoint_within_speedFactor :
  forall (DEG2RAD C_EARTH xOffsetDesired yOffsetDesired zOffsetDesired yawDesired
          posThresholdInM yawThresholdInDeg : R) (fuel : nat) (vehicle : Vehicle),
    emits (setpoint_within (IZR speedFactor))
          (moveByPositionOffset DEG2RAD C_EARTH xOffsetDesired yOffsetDesired
             zOffsetDesired yawDesired posThresholdInM yawThresholdInDeg fuel vehicle).
Proof.
  intros D C xd yd zd yaw pt yt fuel vehicle.
  assert (Hother : forall e, (forall x y z yw, e <> EvPositionAndYawCtrl x y z yw) ->
                             setpoint_within (IZR speedFactor) e).
  { intros e He x y z yw E. destruct (He x y z yw E). }
  unfold moveByPositionOffset. cbv zeta. emits_unfold.
  apply emits_bind; [repeat emits_step; apply Hother; discriminate|]. intros a1.
  destruct (negb (is_SUCCESS a1)); [apply emits_ret|].
  apply emits_bind; [repeat emits_step; apply Hother; discriminate|]. intros a2.
  destruct (negb a2); [apply emits_ret|].
  apply emits_bind; [repeat emits_step; apply Hother; discriminate|]. intros a3.
  destruct (negb (is_SUCCESS a3));
    [repeat emits_step; apply Hother; discriminate|].
  unfold moveByPositionOffset_started, initialSetpoint, getValue_GPS_FUSED.
  apply emits_bind; [apply emits_usleep|]. intros _.
  apply emits_bind; [apply emits_read|]. intros originGPS.
  apply emits_bind.
  - unfold controlLoop.
    apply (emits_while_inv _ (fun s => (Rabs (xCmd s) <= 2)%R /\ (Rabs (yCmd s) <= 2)%R)).
    + intros s. apply emits_ret.
    + intros s w r w' (Hx & Hy) Hbody.
      rewrite controlLoop_body in Hbody. injection Hbody as <- <-.
      split.
      * match goal with
        | |- context [controlCycle _ _ _ _ _ _ _ _ _ _ ?q ?g] =>
            destruct (cycle_fields D C xd yd zd yaw pt yt originGPS s q g)
              as (_ & _ & _ & X & Y & _)
        end.
        rewrite X, Y. split; apply updateCmd_bound; assumption.
      * eexists. cbn [trace]. split; [reflexivity|].
        constructor; [|constructor].
        intros x y z yw E. injection E as <- <- _ _.
        change (IZR speedFactor) with 2%R. split; assumption.
    + cbn [xCmd yCmd]. split; apply initialCmd_bound.
  - intros s. unfold brakeLoop, control_emergencyBrake.
    apply emits_bind.
    + apply emits_while; intros ?; repeat emits_step. apply Hother; discriminate.
    + intros _. repeat emits_step; apply Hother; discriminate.
Qed.

(** ** The yaw test *)

(** X21: the yaw test of line 363 takes the plain difference of the two
    angles, with no wrap-around at PI: for a level aircraft heading [angle]
    in (-PI, PI] the error is [|angle - yawDesiredRad|]; so with a desired
    yaw of PI radians a heading that lies [delta] beyond it, read as
    [- PI + delta], has the error [2 * PI - delta]. *)
Theorem yaw_error_has_no_wrap_around :
  forall (DEG2RAD yawDesired : R),
    (forall angle : R,
        (- PI < angle <= PI)%R ->
        yawError DEG2RAD yawDesired (quaternion_of_yaw angle)
        = Rabs (angle - DEG2RAD * yawDesired))
    /\ (forall delta : R,
           (DEG2RAD * yawDesired = PI)%R -> (0 < delta <= 2 * PI)%R ->
           yawError DEG2RAD yawDesired (quaternion_of_yaw (- PI + delta))
           = (2 * PI - delta)%R).
Proof.
  intros D yd.
  assert (H1 : forall angle : R,
             (- PI < angle <= PI)%R ->
             yawError D yd (quaternion_of_yaw angle) = Rabs (angle - D * yd)).
  { intros angle Ha. unfold yawError, yawDesiredRad.
    rewrite (toEulerAngle_of_yaw angle Ha). reflexivity. }
  split; [exact H1|].
  intros delta Hd Hdelta. rewrite H1 by lra. rewrite Hd.
  replace (- PI + delta - PI)%R with (- (2 * PI - delta))%R by ring.
  rewrite Rabs_Ropp. apply Rabs_pos_eq. lra.
Qed.

(** ** main *)

(** X22: [main] drops what its calls return.  With the command [b], when
    the takeoff fails because the motors are never seen started, the three
    position moves are made all the same: the removal of the takeoff package
    is followed by the setup of the first move and at least fifty of its
    position commands, towards 6 m above the altitude read three seconds
    after the takeoff command, and [main] goes on to the landing. *)
Theorem main_moves_after_failed_takeoff :
  forall (DEG2RAD C_EARTH : R) (timeout : Z) (posThresholdInM yawThresholdInDeg : R)
         (extra : nat) (vehicle : Vehicle) (w : World),
    verify_ack vehicle = SUCCESS ->
    initPackage_status vehicle = true ->
    startPackage_ack vehicle = SUCCESS ->
    takeoff_ack vehicle = SUCCESS ->
    (forall k, 0 <= k < 20 ->
               status_flight vehicle (clock_us w + k * 100000) <> ON_GROUND
               /\ status_displaymode vehicle (clock_us w + k * 100000)
                  <> MODE_ENGINE_START) ->
    exists (cmds rest : list Event) (w' : World),
      main_switch DEG2RAD C_EARTH timeout posThresholdInM yawThresholdInDeg
                  (501 + extra) vehicle "b" w
      = (monitoredLanding (501 + extra) vehicle timeout ;;; ret tt) w'
      /\ trace w' = trace w ++ setup_events_10Hz
                    ++ [EvTakeoff; EvPrint msg_motors_not_spinning; EvRemovePackage 0]
                    ++ setup_events_50Hz ++ cmds ++ rest
      /\ 50 <= Z.of_nat (List.length cmds)
      /\ Forall (is_positionCmd DEG2RAD 30
                   (altitude (gps_fused vehicle (clock_us w + 3000000)) + 6)%R) cmds.
Proof.
  intros D C timeout pt yt extra vehicle w Hv Hi Hs Ht Hnot.
  pose proof (monitoredTakeoff_motors_never_started vehicle timeout (480 + extra) w
                Hv Hi Hs Ht Hnot) as T.
  change (21 + (480 + extra))%nat with (501 + extra)%nat in T.
  set (w1 := mkWorld (clock_us w + 20 * 100000)
                     (trace w ++ setup_events_10Hz ++
                      [EvTakeoff; EvPrint msg_motors_not_spinning; EvRemovePackage 0]))
    in T.
  destruct (moveByPositionOffset_returns D C 0 6 6 30 pt yt extra vehicle w1 Hv Hi Hs)
    as (n1 & cmds1 & r1 & f1 & M1 & L1 & F1 & C1).
  set (w2 := move_end w1 n1 cmds1 (f1 ++ removal_events vehicle)) in M1.
  destruct (moveByPositionOffset_returns D C 6 0 (-3) (-30) pt yt extra vehicle w2 Hv Hi Hs)
    as (n2 & cmds2 & r2 & f2 & M2 & L2 & F2 & C2).
  set (w3 := move_end w2 n2 cmds2 (f2 ++ removal_events vehicle)) in M2.
  destruct (moveByPositionOffset_returns D C (-6) (-6) 0 0 pt yt extra vehicle w3 Hv Hi Hs)
    as (n3 & cmds3 & r3 & f3 & M3 & L3 & F3 & C3).
  set (w4 := move_end w3 n3 cmds3 (f3 ++ removal_events vehicle)) in M3.
  exists cmds1, (repeat EvEmergencyBrake 50 ++ (f1 ++ removal_events vehicle)
                 ++ setup_events_50Hz ++ cmds2 ++ repeat EvEmergencyBrake 50
                 ++ (f2 ++ removal_events vehicle)
                 ++ setup_events_50Hz ++ cmds3 ++ repeat EvEmergencyBrake 50
                 ++ (f3 ++ removal_events vehicle)), w4.
  split; [|split; [|split]].
  - unfold main_switch. cbn [Ascii.eqb Bool.eqb andb].
    rewrite (bind_run _ _ _ _ _ T), (bind_run _ _ _ _ _ M1), (bind_run _ _ _ _ _ M2),
      (bind_run _ _ _ _ _ M3).
    reflexivity.
  - unfold w4, w3, w2, w1, move_end. cbn [trace].
    rewrite <- !app_assoc. reflexivity.
  - destruct C1 as [(_ & Hn & _) | (_ & Hn & _)]; lia.
  - replace (clock_us w + 3000000) with (cycle_time w1 0)
      by (unfold cycle_time, w1; cbn [clock_us]; lia).
    exact F1.
Qed.

Lemma main_moves_after_failed_takeoff_witness :
  exists (cmds rest : list Event) (w' : World),
    main_switch DEG2RAD_value C_EARTH_value 1 (2 / 10) 1 (501 + 0) vehicle_motors_off "b" world0
    = (monitoredLanding (501 + 0) vehicle_motors_off 1 ;;; ret tt) w'
    /\ trace w' = trace world0 ++ setup_events_10Hz
                  ++ [EvTakeoff; EvPrint msg_motors_not_spinning; EvRemovePackage 0]
                  ++ setup_events_50Hz ++ cmds ++ rest
    /\ 50 <= Z.of_nat (List.length cmds)
    /\ Forall (is_positionCmd DEG2RAD_value 30
                 (altitude (gps_fused vehicle_motors_off (clock_us world0 + 3000000)) + 6)%R)
              cmds.
Proof.
  apply (main_moves_after_failed_takeoff DEG2RAD_value C_EARTH_value 1 (2 / 10) 1 0%nat
           vehicle_motors_off world0); try reflexivity.
  intros k Hk. split; discriminate.
Defined.

(** ** A head state at the limit of the excursions *)

Lemma hold_cycle_inBounds (atGoal : bool) :
  cycleInBounds DEG2RAD_value C_EARTH_value 0 0 0 0 (2 / 10) 1
                gps_origin quaternion_identity
                (if atGoal then gps_origin else mkGPSFused 0 0 1)
  = atGoal.
Proof.
  destruct atGoal; [exact hold_at_goal_in_bounds | exact hold_too_high_out_of_bounds].
Qed.

Lemma hold_cycle_step (atGoal : bool) (s : LoopState) :
  reachable DEG2RAD_value C_EARTH_value 0 0 0 0 (2 / 10) 1 gps_origin s ->
  elapsedTimeInMs s < timeoutInMilSec ->
  fst (updateCounters 20 200 atGoal (withinBoundsCounter s) (outOfBounds s)) < 1000 ->
  reachable DEG2RAD_value C_EARTH_value 0 0 0 0 (2 / 10) 1 gps_origin (hold_cycle atGoal s)
  /\ elapsedTimeInMs (hold_cycle atGoal s) = elapsedTimeInMs s + 20
  /\ (withinBoundsCounter (hold_cycle atGoal s), outOfBounds (hold_cycle atGoal s))
     = updateCounters 20 200 atGoal (withinBoundsCounter s) (outOfBounds s).
Proof.
  intros Hr Hlt Hw. unfold hold_cycle.
  destruct (cycle_fields DEG2RAD_value C_EARTH_value 0 0 0 0 (2 / 10) 1 gps_origin s
              quaternion_identity (if atGoal then gps_origin else mkGPSFused 0 0 1))
    as (E & W & O & _ & _ & _ & HC).
  rewrite hold_cycle_inBounds in W, O.
  change cycleTimeInMs with 20 in E, W, O.
  change outOfControlBoundsTimeLimit with 200 in W, O.
  change withinControlBoundsTimeReqmt with 1000 in HC.
  split.
  - eapply reachable_step; [exact Hr | exact Hlt |]. apply HC. rewrite W. exact Hw.
  - split; [exact E|]. rewrite W, O.
    destruct (updateCounters 20 200 atGoal _ _); reflexivity.
Qed.

Lemma hold_cycles_reachable (flags : list bool) :
  forall s : LoopState,
    reachable DEG2RAD_value C_EARTH_value 0 0 0 0 (2 / 10) 1 gps_origin s ->
    elapsedTimeInMs s + 20 * Z.of_nat (List.length flags) <= timeoutInMilSec ->
    0 <= withinBoundsCounter s ->
    withinBoundsCounter s + 20 * Z.of_nat (List.length flags) < 1000 ->
    reachable DEG2RAD_value C_EARTH_value 0 0 0 0 (2 / 10) 1 gps_origin
              (hold_cycles flags s)
    /\ (withinBoundsCounter (hold_cycles flags s), outOfBounds (hold_cycles flags s))
       = countersAfter flags (withinBoundsCounter s, outOfBounds s).
Proof.
  induction flags as [|b flags IH]; intros s Hr He Hw0 Hw.
  - split; [exact Hr | reflexivity].
  - cbn [List.length] in He, Hw. rewrite Nat2Z.inj_succ in He, Hw.
    pose proof (updateCounters_within_le b (withinBoundsCounter s) (outOfBounds s) Hw0)
      as Hle.
    destruct (hold_cycle_step b s Hr ltac:(lia) ltac:(lia)) as (Hr1 & He1 & Hc1).
    assert (Hw1 : withinBoundsCounter (hold_cycle b s)
                  = fst (updateCounters 20 200 b (withinBoundsCounter s) (outOfBounds s)))
      by (rewrite <- Hc1; reflexivity).
    destruct (IH (hold_cycle b s) Hr1 ltac:(lia) ltac:(lia) ltac:(lia)) as (Hr2 & Hc2).
    change (hold_cycles (b :: flags) s) with (hold_cycles flags (hold_cycle b s)).
    split; [exact Hr2|].
    rewrite Hc2, Hc1, countersAfter_cons. cbn [fst snd]. reflexivity.
Qed.

(** The state [excursion_limit_state] is a head state of the loop, with the
    dwell started and the excursions at their limit. *)
Lemma excursion_limit_state_spec :
  reachable DEG2RAD_value C_EARTH_value 0 0 0 0 (2 / 10) 1 gps_origin excursion_limit_state
  /\ withinBoundsCounter excursion_limit_state = 20
  /\ outOfBounds excursion_limit_state = 200.
Proof.
  unfold excursion_limit_state.
  destruct (hold_cycles_reachable (true :: repeat false 10) (mkLoopState 0 0 0 0 0))
    as (Hr & Hc).
  - apply reachable_init.
  - vm_compute. discriminate.
  - cbn. lia.
  - vm_compute. reflexivity.
  - split; [exact Hr|].
    cbn [withinBoundsCounter outOfBounds] in Hc.
    change (countersAfter (true :: repeat false 10) (0, 0)) with (20, 200) in Hc.
    injection Hc as Hw Ho. split; assumption.
Qed.

Lemma convergence_counters_invariant_witness :
  let s := excursion_limit_state in
  let s' := hold_cycle false s in
  let accumulated :=
    accumulateCounters cycleTimeInMs false (withinBoundsCounter s) (outOfBounds s) in
  reachable DEG2RAD_value C_EARTH_value 0 0 0 0 (2 / 10) 1 gps_origin s
  /\ (withinBoundsCounter s = 20 /\ outOfBounds s = 200)
  /\ accumulated = (20, 220)
  /\ (0 <= withinBoundsCounter s' /\ 0 <= outOfBounds s')
  /\ (withinBoundsCounter s <> 0
      /\ cycleInBounds DEG2RAD_value C_EARTH_value 0 0 0 0 (2 / 10) 1
                       gps_origin quaternion_identity (mkGPSFused 0 0 1) = false)
  /\ (withinBoundsCounter s' = 0 /\ outOfBounds s' = 0).
Proof.
  cbv zeta.
  destruct excursion_limit_state_spec as (Hr & Hw & Ho).
  destruct (convergence_counters_invariant DEG2RAD_value C_EARTH_value 0 0 0 0 (2 / 10) 1
              gps_origin excursion_limit_state quaternion_identity (mkGPSFused 0 0 1) Hr)
    as (_ & Hnonneg & Hacc & Hreset & _).
  split; [exact Hr|]. split; [split; assumption|].
  split; [rewrite Hw, Ho; reflexivity|].
  split; [exact Hnonneg|].
  split.
  - apply Hacc. rewrite hold_too_high_out_of_bounds, Hw, Ho. vm_compute. reflexivity.
  - apply Hreset. rewrite hold_too_high_out_of_bounds, Hw, Ho. vm_compute. reflexivity.
Defined.

(** ** The first command of the sample's first move *)

Lemma controlLoop_first_command
      (DEG2RAD C_EARTH xOffsetDesired yOffsetDesired zOffsetDesired yawDesired
       posThresholdInM yawThresholdInDeg : R)
      (fuel : nat) (vehicle : Vehicle) (originGPS : GPSFused) (zCmd : R)
      (s : LoopState) (w : World) (s' : LoopState) (w' : World) :
  elapsedTimeInMs s < timeoutInMilSec ->
  controlLoop DEG2RAD C_EARTH xOffsetDesired yOffsetDesired zOffsetDesired yawDesired
              posThresholdInM yawThresholdInDeg fuel vehicle originGPS zCmd s w
  = Some (s', w') ->
  exists rest,
    trace w' = trace w ++ EvPositionAndYawCtrl (xCmd s) (yCmd s) zCmd
                            (yawCmd DEG2RAD yawDesired) :: rest.
Proof.
  intros Hlt Hrun. destruct fuel as [|fuel]; [discriminate Hrun|].
  unfold controlLoop in Hrun. cbn [while] in Hrun.
  apply bind_Some in Hrun. destruct Hrun as (c & w1 & Hc & Hrun).
  injection Hc as <- <-.
  replace (elapsedTimeInMs s <? timeoutInMilSec) with true in Hrun
    by (symmetry; apply Z.ltb_lt; exact Hlt).
  apply bind_Some in Hrun. destruct Hrun as (r & w2 & Hb & Hrun).
  rewrite controlLoop_body in Hb. injection Hb as <- <-.
  assert (Hem : forall s1,
             emits (fun _ => True)
                   (controlLoop DEG2RAD C_EARTH xOffsetDesired yOffsetDesired zOffsetDesired
                      yawDesired posThresholdInM yawThresholdInDeg fuel vehicle originGPS
                      zCmd s1)).
  { intros s1. unfold controlLoop.
    apply emits_while; intros ?; repeat emits_step; try exact I.
    all: first [ apply emits_read | exact I ]. }
  match type of Hrun with
  | context [match ?c with _ => _ end] => destruct c as [s1|s1]
  end.
  - destruct (Hem s1 _ _ _ Hrun) as (evs & E & _). exists evs.
    rewrite E. cbn [trace]. rewrite <- app_assoc. reflexivity.
  - injection Hrun as <- <-. exists []. reflexivity.
Qed.

Lemma sample_move_hovering_run :
  exists (w' : World) (rest : list Event),
    sample_move (501 + 0) vehicle_hovering world0 = Some (ret_ACK FAIL, w')
    /\ trace w' = trace world0 ++ setup_events_50Hz
                  ++ EvPositionAndYawCtrl 0 2 (0 + 6) (yawCmd DEG2RAD_value 30) :: rest.
Proof.
  destruct (never_in_bounds_run DEG2RAD_value C_EARTH_value 0 6 6 30 (2 / 10) 1
              0%nat vehicle_hovering world0 eq_refl eq_refl eq_refl
              (fun k _ => hovering_never_reaches_offset k)) as (cmds & _ & _ & Hrun).
  destruct (controlLoop_returns DEG2RAD_value C_EARTH_value 0 6 6 30 (2 / 10) 1
              0%nat vehicle_hovering (gps_fused vehicle_hovering (cycle_time world0 0))
              (altitude (gps_fused vehicle_hovering (cycle_time world0 0)) + 6)%R
              (initialCmd speedFactor 0) (initialCmd speedFactor 6) (loop_start world0))
    as (s & w2 & Hloop & _).
  pose proof (moveByPositionOffset_after_loop DEG2RAD_value C_EARTH_value 0 6 6 30 (2 / 10) 1
                0%nat vehicle_hovering world0 s w2 eq_refl eq_refl eq_refl Hloop) as Hafter.
  assert (Hlt : elapsedTimeInMs (mkLoopState 0 0 0 (initialCmd speedFactor 0)
                                             (initialCmd speedFactor 6))
                < timeoutInMilSec) by reflexivity.
  destruct (controlLoop_first_command _ _ _ _ _ _ _ _ _ _ _ _ _ _ _ _ Hlt Hloop)
    as (rest & Htr).
  cbn [xCmd yCmd] in Htr.
  rewrite (proj2 (proj2 (proj2 (initialCmd_spec 0))) eq_refl) in Htr.
  rewrite (proj1 (proj2 (initialCmd_spec 6))) in Htr by lra.
  assert (Hr : (if elapsedTimeInMs s >=? timeoutInMilSec then FAIL else SUCCESS) = FAIL)
    by (rewrite Hafter in Hrun; congruence).
  unfold sample_move. rewrite Hafter, Hr.
  eexists.
  exists (rest ++ repeat EvEmergencyBrake 50
          ++ (if elapsedTimeInMs s >=? timeoutInMilSec
              then [EvPrint msg_task_timeout] else [])
          ++ removal_events vehicle_hovering).
  split; [reflexivity|].
  cbn [trace]. rewrite Htr. cbn [loop_start trace].
  cbn [vehicle_hovering gps_fused gps_origin altitude].
  rewrite <- !app_assoc. cbn [app]. reflexivity.
Qed.

Lemma horizontal_setpoint_within_speedFactor_witness :
  exists (w' : World) (evs : list Event),
    sample_move (501 + 0) vehicle_hovering world0 = Some (ret_ACK FAIL, w')
    /\ trace w' = trace world0 ++ evs
    /\ In (EvPositionAndYawCtrl 0 2 (0 + 6) (yawCmd DEG2RAD_value 30)) evs
    /\ Forall (setpoint_within (IZR speedFactor)) evs.
Proof.
  destruct sample_move_hovering_run as (w' & rest & Hrun & Htr).
  destruct (horizontal_setpoint_within_speedFactor DEG2RAD_value C_EARTH_value 0 6 6 30
              (2 / 10) 1 (501 + 0)%nat vehicle_hovering world0 _ _ Hrun)
    as (evs & E & F).
  exists w', evs. split; [exact Hrun|]. split; [exact E|]. split; [|exact F].
  rewrite Htr in E. apply app_inv_head in E. rewrite <- E.
  apply in_or_app. right. left. reflexivity.
Defined.
